(** * Synthetic data generator: generation, constraint and privacy engine

    A shallow embedding of the Python sources

      - generators/base_generator.py     (BaseGenerator)
      - generators/numeric_generator.py  (NumericGenerator)
      - generators/text_generator.py     (TextGenerator)
      - generators/date_generator.py     (DateGenerator)
      - privacy/anonymizer.py            (DataAnonymizer)
      - privacy/differential_privacy.py  (DifferentialPrivacy)
      - utils/validators.py              (SchemaValidator, DataValidator)
      - utils/exporters.py               (DataExporter.export_to_sql)
      - app.py                           (the subtypes offered, the generator called)

    Conventions of the embedding.

      - Python values are the inductive [Value]; [None] is [VNone].
      - Python floats are idealised as exact rationals ([Q]); there is no
        NaN and no infinity.  [round], [int], [min] and [max] are the exact
        operations on rationals.
      - Strings are [string] (sequences of 8-bit characters).
      - The interpreter state a routine can read or write is the record
        [World]: the state of the [random] module, of [numpy.random], of
        Faker's shared generator, the wall clock and the per-process hash
        salt that fixes the iteration order of sets.
      - A routine is a function [World -> Res A * World]; exceptions are
        values of [exn] and keep the state reached when they were raised.
      - Library code (the Mersenne Twister behind [random], numpy's
        samplers, Faker's providers, [strptime], the layout of CPython's
        hash tables) is not part of the repository.  It is the interface
        [PyRuntime]: operations together with the documented facts about
        them that the proofs use.  [DemoRuntime.runtime] is one
        implementation. *)

From Stdlib Require Import Ascii String QArith Qround Qabs DecimalString DecimalZ DecimalPos Lia Lqa.
From stdpp Require Import gmap strings list fin_maps sorting.

Local Open Scope Z_scope.

(* ===================================================================== *)
(** * Python values *)
(* ===================================================================== *)

(** [datetime.datetime]: proleptic Gregorian ordinal of the day
    ([toordinal()]), second of the day and microsecond. *)
Record DateTime := mkDateTime { dt_ordinal : Z; dt_second : Z; dt_micro : Z }.

Inductive Value :=
| VNone
| VBool (b : bool)
| VInt (n : Z)
| VFloat (x : Q)
| VStr (s : string)
| VDate (ordinal : Z)              (* datetime.date *)
| VDateTime (d : DateTime)         (* datetime.datetime *)
| VTime (second_of_day : Z).       (* datetime.time *)

(** [x is None] *)
Definition is_none (v : Value) : bool :=
  match v with VNone => true | _ => false end.

(** [isinstance(v, int)]: [bool] is a subclass of [int]. *)
Definition isinstance_int (v : Value) : bool :=
  match v with VBool _ | VInt _ => true | _ => false end.

(** The number behind a value for which [isinstance(v, (int, float))]. *)
Definition num_of (v : Value) : option Q :=
  match v with
  | VBool b => Some (inject_Z (Z.b2z b))
  | VInt n => Some (inject_Z n)
  | VFloat x => Some x
  | _ => None
  end.

Definition isinstance_int_float (v : Value) : bool :=
  match num_of v with Some _ => true | None => false end.

(** Exceptions, by class. *)
Inductive exn :=
| ValueError (msg : string)
| TypeError (msg : string)
| OverflowError (msg : string)
| ZeroDivisionError (msg : string)
| IndexError (msg : string).


(** How a routine ends: with a value, with an exception, or not within
    the number of loop iterations it was allowed ([NoFuel]; only [while]
    loops consume fuel, [for] loops over a list do not need any). *)
Inductive Res (A : Type) :=
| Ok (a : A)
| Raise (e : exn)
| NoFuel.
Arguments Ok {A} a.
Arguments Raise {A} e.
Arguments NoFuel {A}.

(* ===================================================================== *)
(** * Numbers *)
(* ===================================================================== *)

Module PyNum.

(** [int(x)] on a float: truncation towards zero. *)
Definition py_int (x : Q) : Z :=
  if Qle_bool 0 x then Qfloor x else Qceiling x.

(** [round(x)]: to the nearest integer, ties to the even one. *)
Definition round_half_even (x : Q) : Z :=
  let f := Qfloor x in
  match Qcompare (x - inject_Z f) (1 # 2) with
  | Lt => f
  | Gt => f + 1
  | Eq => if Z.even f then f else f + 1
  end.

(** [round(x, d)]: to the nearest multiple of 10**(-d), ties to even. *)
Definition py_round (x : Q) (d : Z) : Q :=
  inject_Z (round_half_even (x * Qpower (inject_Z 10) d))
  / Qpower (inject_Z 10) d.

(** [min(a, b)] and [max(a, b)] on numbers: the first argument is kept
    unless the second is strictly smaller (resp. larger). *)
Definition py_min (a b : Q) : Q := if Qlt_le_dec b a then b else a.
Definition py_max (a b : Q) : Q := if Qlt_le_dec a b then b else a.

Definition Qleb (a b : Q) : bool := Qle_bool a b.
Definition Qltb (a b : Q) : bool := negb (Qle_bool b a).

End PyNum.
Export PyNum.

(* ===================================================================== *)
(** * Strings *)
(* ===================================================================== *)

Module PyStr.

Local Open Scope string_scope.

(** [c in s] for a one-character [c]. *)
Fixpoint contains_char (c : ascii) (s : string) : bool :=
  match s with
  | EmptyString => false
  | String a s' => if Ascii.eqb a c then true else contains_char c s'
  end.

(** [s.split(c)] for a one-character separator. *)
Fixpoint split_on (c : ascii) (s : string) : list string :=
  match s with
  | EmptyString => [EmptyString]
  | String a s' =>
      if Ascii.eqb a c then EmptyString :: split_on c s'
      else match split_on c s' with
           | h :: t => String a h :: t
           | [] => [String a EmptyString]
           end
  end.

(** [c * n] *)
Fixpoint repeat_char (c : ascii) (n : nat) : string :=
  match n with
  | O => EmptyString
  | S n' => String c (repeat_char c n')
  end.

(** [s[0]] as a string; the empty string when [s] is empty (the callers
    index only strings they know to be non-empty). *)
Definition first_char (s : string) : string :=
  match s with
  | EmptyString => EmptyString
  | String a _ => String a EmptyString
  end.

(** [s[:n]] and [s[n:]] *)
Fixpoint str_take (n : nat) (s : string) : string :=
  match n, s with
  | S n', String a s' => String a (str_take n' s')
  | _, _ => EmptyString
  end.

Fixpoint str_drop (n : nat) (s : string) : string :=
  match n, s with
  | S n', String _ s' => str_drop n' s'
  | _, _ => s
  end.

(** [s[a:b]] for 0 <= a <= b *)
Definition str_slice (a b : nat) (s : string) : string :=
  str_take (b - a) (str_drop a s).

(** [s[-n:]] for n > 0 *)
Definition str_last (n : nat) (s : string) : string :=
  str_drop (String.length s - n) s.

Definition is_digit (a : ascii) : bool :=
  let k := nat_of_ascii a in (Nat.leb 48 k && Nat.leb k 57)%bool.

(** The characters [str.split()] treats as white space (ASCII range). *)
Definition is_space (a : ascii) : bool :=
  let k := nat_of_ascii a in
  ((Nat.leb 9 k && Nat.leb k 13) || (Nat.leb 28 k && Nat.leb k 32))%bool.

(** [re.sub(r'\D', '', s)] *)
Fixpoint digits_of (s : string) : string :=
  match s with
  | EmptyString => EmptyString
  | String a s' => if is_digit a then String a (digits_of s') else digits_of s'
  end.

(** [s.split()]: maximal runs of non-space characters. [cur] is the run
    being read, last character first. *)
Fixpoint words_from (cur : list ascii) (s : string) : list string :=
  match s with
  | EmptyString =>
      match cur with [] => [] | _ => [string_of_list_ascii (rev cur)] end
  | String a s' =>
      if is_space a then
        match cur with
        | [] => words_from [] s'
        | _ => string_of_list_ascii (rev cur) :: words_from [] s'
        end
      else words_from (a :: cur) s'
  end.

Definition split_ws (s : string) : list string := words_from [] s.

(** [sep.join(l)] *)
Fixpoint join (sep : string) (l : list string) : string :=
  match l with
  | [] => EmptyString
  | [x] => x
  | x :: rest => x ++ sep ++ join sep rest
  end.

(** [sub in s], for a non-empty [sub]. *)
Fixpoint str_contains (sub s : string) : bool :=
  match s with
  | EmptyString => false
  | String _ s' => if String.prefix sub s then true else str_contains sub s'
  end.

(** [s.replace(old, new)], for a non-empty [old]: occurrences are found
    from the left and do not overlap. [skip] counts the characters of an
    occurrence still to be passed over. *)
Fixpoint replace_from (old new : string) (skip : nat) (s : string) : string :=
  match s with
  | EmptyString => EmptyString
  | String a s' =>
      match skip with
      | S k => replace_from old new k s'
      | O =>
          if String.prefix old s
          then new ++ replace_from old new (String.length old - 1) s'
          else String a (replace_from old new 0 s')
      end
  end.

Definition str_replace (old new s : string) : string := replace_from old new 0 s.

(** [str(n)] for an integer. *)
Definition str_of_Z (n : Z) : string := NilZero.string_of_int (Z.to_int n).

End PyStr.
Export PyStr.

(* ===================================================================== *)
(** * Equality of values ([==]) and de-duplication through a set *)
(* ===================================================================== *)

Module PyEq.

(** Structural equality on the values that are not numbers. *)
Definition other_eqb (a b : Value) : bool :=
  match a, b with
  | VNone, VNone => true
  | VStr s, VStr t => String.eqb s t
  | VDate x, VDate y => Z.eqb x y
  | VDateTime x, VDateTime y =>
      Z.eqb (dt_ordinal x) (dt_ordinal y) && Z.eqb (dt_second x) (dt_second y)
      && Z.eqb (dt_micro x) (dt_micro y)
  | VTime x, VTime y => Z.eqb x y
  | _, _ => false
  end.

(** [a == b]: numbers ([bool], [int], [float]) compare by value, so that
    [1 == 1.0 == True]; everything else compares within its own class. *)
Definition py_eqb (a b : Value) : bool :=
  match num_of a, num_of b with
  | Some x, Some y => Qeq_bool x y
  | None, None => other_eqb a b
  | _, _ => false
  end.

(** [x in l] for a list [l]. *)
Definition py_in (x : Value) (l : list Value) : bool :=
  existsb (py_eqb x) l.

(** The elements a set built from [l] holds: [set.add] keeps the element
    already present, so the first of each class of equal values stays. *)
Fixpoint dedup_from (seen l : list Value) : list Value :=
  match l with
  | [] => []
  | x :: l' =>
      if py_in x seen then dedup_from seen l'
      else x :: dedup_from (x :: seen) l'
  end.

Definition py_dedup (l : list Value) : list Value := dedup_from [] l.

End PyEq.
Export PyEq.

(* ===================================================================== *)
(** * The interpreter and the libraries *)
(* ===================================================================== *)

(** Largest ordinal of a [date]: 9999-12-31. *)
Definition MAX_ORDINAL : Z := 3652059.

Class PyRuntime := {
  (** ** The [random] module *)
  PyRng : Type;
  random_seed : Z -> PyRng;                       (* random.seed(a) *)
  rng_randint : Z -> Z -> PyRng -> Z * PyRng;     (* randint(a, b), a <= b *)
  rng_uniform : Q -> Q -> PyRng -> Q * PyRng;     (* uniform(a, b) *)
  rng_random : PyRng -> Q * PyRng;                (* random() *)
  rng_sample : nat -> nat -> PyRng -> list nat * PyRng;
                                                  (* sample(range(n), k), k <= n *)
  rng_choice : nat -> PyRng -> nat * PyRng;       (* index picked by choice(seq), len(seq) = n > 0 *)
  rng_choices : nat -> nat -> PyRng -> list nat * PyRng;
                                                  (* indices picked by choices(seq, k=k) *)
  (** ** [numpy.random] *)
  NpRng : Type;
  np_seed : Z -> NpRng;                           (* np.random.seed(s), 0 <= s < 2**32 *)
  np_normal : Q -> Q -> NpRng -> Q * NpRng;       (* normal(loc, scale), scale >= 0 *)
  np_lognormal : Q -> Q -> NpRng -> Q * NpRng;    (* lognormal(mean, sigma), sigma >= 0 *)
  np_laplace : Q -> Q -> NpRng -> Q * NpRng;      (* laplace(loc, scale), scale >= 0 *)
  np_log : Q -> Q;                                (* np.log(x), x > 0 *)
  np_sqrt : Q -> Q;                               (* np.sqrt(x), x >= 0 *)
  (** [np.histogram(data, bins=bins)]: counts and bin edges *)
  np_histogram : list Q -> Z -> Res (list Z * list Q);
  (** [np.unique(data, return_counts=True)] *)
  np_unique : list Value -> Res (list Value * list Z);
  (** [sensitivity * np.sqrt(2 * np.log(1.25 / delta)) / epsilon] *)
  np_gaussian_scale : Q -> Q -> Q -> Res Q;
  (** ** Faker: the shared generator and the providers, by method name *)
  FkRng : Type;
  faker_seed : Z -> FkRng;                        (* Faker.seed(s) *)
  faker_provider : string -> FkRng -> string * FkRng;
  (** ** Built-ins *)
  float_str : Q -> string;                        (* str(x) for a float *)
  date_str : Z -> string;                         (* str(d) = d.isoformat() *)
  datetime_str : DateTime -> string;              (* str(dt) *)
  time_str : Z -> string;                         (* str(t) *)
  int_of_str : string -> option Z;                (* int(s); None is ValueError *)
  strptime_ymd : string -> option Z;              (* strptime(s, '%Y-%m-%d').toordinal() *)
  strptime_hms : string -> option Z;              (* second of the day of strptime(s, '%H:%M:%S') *)
  strftime_ymd : Z -> string;                     (* strftime('%Y-%m-%d') of the day *)
  (** The order in which a set holding the pairwise different values [l]
      (listed in insertion order) is iterated in a process whose hash
      salt is the first argument. *)
  set_order : Z -> list Value -> list Value;
  (** ** What the proofs use of the above *)
  rng_randint_range : forall a b g,
    a <= b -> a <= fst (rng_randint a b g) <= b;
  rng_sample_spec : forall n k g,
    (k <= n)%nat ->
    length (fst (rng_sample n k g)) = k /\
    NoDup (fst (rng_sample n k g)) /\
    Forall (fun i => (i < n)%nat) (fst (rng_sample n k g));
  rng_choice_range : forall n g,
    (0 < n)%nat -> (fst (rng_choice n g) < n)%nat;
  rng_choices_spec : forall n k g,
    (0 < n)%nat ->
    length (fst (rng_choices n k g)) = k /\
    Forall (fun i => (i < n)%nat) (fst (rng_choices n k g));
  set_order_perm : forall salt l, Permutation (set_order salt l) l;
}.

Section Interpreter.
Context `{RT : PyRuntime}.

(** What a routine can read and write outside its arguments. *)
Record World := mkWorld {
  py_rng : PyRng;               (* global state of [random] *)
  np_rng : NpRng;               (* global state of [numpy.random] *)
  fk_rng : FkRng;               (* Faker's shared generator *)
  wall_clock : nat -> DateTime; (* what successive [datetime.now()] return *)
  ticks : nat;                  (* number of clock readings so far *)
  hash_salt : Z                 (* fixed when the process starts *)
}.

Definition set_py (g : PyRng) (w : World) : World :=
  mkWorld g (np_rng w) (fk_rng w) (wall_clock w) (ticks w) (hash_salt w).
Definition set_np (g : NpRng) (w : World) : World :=
  mkWorld (py_rng w) g (fk_rng w) (wall_clock w) (ticks w) (hash_salt w).
Definition set_fk (g : FkRng) (w : World) : World :=
  mkWorld (py_rng w) (np_rng w) g (wall_clock w) (ticks w) (hash_salt w).
Definition tick (w : World) : World :=
  mkWorld (py_rng w) (np_rng w) (fk_rng w) (wall_clock w) (S (ticks w)) (hash_salt w).

(** ** The monad of routines *)

Definition M (A : Type) : Type := World -> Res A * World.

Definition ret {A} (a : A) : M A := fun w => (Ok a, w).
Definition raise {A} (e : exn) : M A := fun w => (Raise e, w).
Definition bind {A B} (m : M A) (f : A -> M B) : M B :=
  fun w => match m w with
           | (Ok a, w') => f a w'
           | (Raise e, w') => (Raise e, w')
           | (NoFuel, w') => (NoFuel, w')
           end.
(** [try: m except Exception: h] *)
Definition try_except {A} (m : M A) (h : exn -> M A) : M A :=
  fun w => match m w with
           | (Ok a, w') => (Ok a, w')
           | (Raise e, w') => h e w'
           | (NoFuel, w') => (NoFuel, w')
           end.

(** [while cond(s): s = body(s)], at most [fuel] tests of the condition. *)
Fixpoint while_loop {S} (fuel : nat) (cond : S -> bool) (body : S -> M S) (s : S) : M S :=
  match fuel with
  | O => fun w => (NoFuel, w)
  | Datatypes.S fuel' =>
      if cond s then bind (body s) (while_loop fuel' cond body) else ret s
  end.

Definition lift_py {A} (f : PyRng -> A * PyRng) : M A :=
  fun w => let '(a, g) := f (py_rng w) in (Ok a, set_py g w).
Definition lift_np {A} (f : NpRng -> A * NpRng) : M A :=
  fun w => let '(a, g) := f (np_rng w) in (Ok a, set_np g w).
Definition lift_fk {A} (f : FkRng -> A * FkRng) : M A :=
  fun w => let '(a, g) := f (fk_rng w) in (Ok a, set_fk g w).

End Interpreter.

Declare Scope py_scope.
Delimit Scope py_scope with py.
Notation "x <- m ;; k" := (bind m (fun x => k))
  (at level 62, m at next level, right associativity) : py_scope.
Local Open Scope py_scope.

(** [for x in l: acc = body(x, acc)] *)
Fixpoint for_each `{RT : PyRuntime} {A S} (body : A -> S -> M S) (l : list A) (acc : S) : M S :=
  match l with
  | [] => ret acc
  | x :: l' => acc' <- body x acc ;; for_each body l' acc'
  end.

(** [for x in l: out.append(f(x))], the list [out] starting empty. *)
Fixpoint map_m `{RT : PyRuntime} {A B} (f : A -> M B) (l : list A) : M (list B) :=
  match l with
  | [] => ret []
  | x :: l' => y <- f x ;; ys <- map_m f l' ;; ret (y :: ys)
  end.

(** ** Library calls with their argument checks *)

Section Library.
Context `{RT : PyRuntime}.

(** [random.randint(a, b)] *)
Definition random_randint (a b : Z) : M Z :=
  if b <? a then raise (ValueError "empty range for randrange()")
  else lift_py (rng_randint a b).

(** [random.uniform(a, b)] *)
Definition random_uniform (a b : Q) : M Q := lift_py (rng_uniform a b).

(** [random.random()] *)
Definition random_random : M Q := lift_py rng_random.

(** [random.sample(range(n), k)] *)
Definition random_sample_range (n : nat) (k : Z) : M (list nat) :=
  if (k <? 0) || (Z.of_nat n <? k)
  then raise (ValueError "Sample larger than population or is negative")
  else lift_py (rng_sample n (Z.to_nat k)).

(** [random.choice(seq)] *)
Definition random_choice {A} (seq : list A) : M A :=
  match seq with
  | [] => raise (ValueError "Cannot choose from an empty sequence")
  | x :: _ => i <- lift_py (rng_choice (length seq)) ;; ret (nth i seq x)
  end.

(** [np.random.normal(loc, scale)] *)
Definition np_random_normal (loc scale : Q) : M Q :=
  if Qltb scale 0 then raise (ValueError "scale < 0")
  else lift_np (np_normal loc scale).

(** [np.random.lognormal(mean, sigma)] *)
Definition np_random_lognormal (mean sigma : Q) : M Q :=
  if Qltb sigma 0 then raise (ValueError "sigma < 0")
  else lift_np (np_lognormal mean sigma).

(** [np.random.laplace(loc, scale)] *)
Definition np_random_laplace (loc scale : Q) : M Q :=
  if Qltb scale 0 then raise (ValueError "scale < 0")
  else lift_np (np_laplace loc scale).

(** [datetime.now()] *)
Definition datetime_now : M DateTime :=
  fun w => (Ok (wall_clock w (ticks w)), tick w).

(** [list(set(data))] *)
Definition list_of_set (data : list Value) : M (list Value) :=
  fun w => (Ok (set_order (hash_salt w) (py_dedup data)), w).

(** [str(v)] *)
Definition py_str (v : Value) : string :=
  match v with
  | VNone => "None"
  | VBool true => "True"
  | VBool false => "False"
  | VInt n => str_of_Z n
  | VFloat x => float_str x
  | VStr s => s
  | VDate d => date_str d
  | VDateTime d => datetime_str d
  | VTime t => time_str t
  end.

End Library.

(* ===================================================================== *)
(** * privacy/anonymizer.py *)
(* ===================================================================== *)

Module DataAnonymizer.
Section Anonymizer.
Context `{RT : PyRuntime}.

Local Open Scope string_scope.

(** [DataAnonymizer.__init__] *)
Definition init (seed : option Z) : M unit :=
  match seed with
  | Some s => fun w => (Ok tt, set_py (random_seed s) w)
  | None => ret tt
  end.

(** ** [_mask_pii] *)

(** The [field_type == 'email'] branch. *)
Definition mask_email (item_str : string) : string :=
  if contains_char "@" item_str then
    let parts := split_on "@" item_str in
    let p0 := nth 0 parts "" in
    let p1 := nth 1 parts "" in
    if (1 <? String.length p0)%nat then
      let masked := first_char p0 ++ repeat_char "*" (String.length p0 - 1) in
      masked ++ "@" ++ p1
    else "*@" ++ p1
  else item_str.

(** The [field_type == 'name'] branch. *)
Definition mask_name_word (word : string) : string :=
  if (1 <? String.length word)%nat
  then first_char word ++ repeat_char "*" (String.length word - 1)
  else word.

Definition mask_name (item_str : string) : string :=
  join " " (map mask_name_word (split_ws item_str)).

(** The [field_type == 'phone'] branch. *)
Definition mask_phone (item_str : string) : string :=
  let digits := digits_of item_str in
  if (4 <=? String.length digits)%nat then
    let masked := repeat_char "*" (String.length digits - 4) ++ str_last 4 digits in
    if contains_char "-" item_str then
      str_take 3 masked ++ "-" ++ str_slice 3 6 masked ++ "-" ++ str_drop 6 masked
    else if contains_char "(" item_str then
      "(" ++ str_take 3 masked ++ ") " ++ str_slice 3 6 masked ++ "-" ++ str_drop 6 masked
    else masked
  else "***-***-****".

(** The [field_type == 'address'] branch. *)
Definition mask_address_word (word : string) : string :=
  if (2 <? String.length word)%nat
  then first_char word ++ repeat_char "*" (String.length word - 1)
  else "**".

Definition mask_address (item_str : string) : string :=
  match split_ws item_str with
  | w0 :: rest => join " " (w0 :: map mask_address_word rest)
  | [] => "*** *** ***"
  end.

(** One turn of the loop of [_mask_pii]. *)
Definition mask_item (field_type : string) (item : Value) : Value :=
  if is_none item then VNone
  else
    let item_str := py_str item in
    if String.eqb field_type "email" then VStr (mask_email item_str)
    else if String.eqb field_type "name" then VStr (mask_name item_str)
    else if String.eqb field_type "phone" then VStr (mask_phone item_str)
    else if String.eqb field_type "address" then VStr (mask_address item_str)
    else VStr item_str.

Definition _mask_pii (data : list Value) (field_type : string) : list Value :=
  map (mask_item field_type) data.

(** ** [_pseudonymize] *)

(** The alias given to a value seen for the first time, [n] being
    [len(pseudonym_map)] at that moment. *)
Definition new_alias (field_type : string) (n : nat) : M string :=
  let idx := str_of_Z (Z.of_nat n + 1) in
  if String.eqb field_type "email" then ret ("user" ++ idx ++ "@example.com")
  else if String.eqb field_type "name" then ret ("Person " ++ idx)
  else if String.eqb field_type "phone" then
    a <- random_randint 100 999 ;;
    b <- random_randint 1000 9999 ;;
    ret ("555-" ++ str_of_Z a ++ "-" ++ str_of_Z b)
  else if String.eqb field_type "address" then
    a <- random_randint 100 9999 ;;
    ret (str_of_Z a ++ " Anonymized St")
  else ret ("Pseudonym_" ++ idx).

(** The loop of [_pseudonymize], from a given [pseudonym_map]. *)
Fixpoint pseudonymize_from (field_type : string) (pseudonym_map : gmap string string)
    (data : list Value) : M (list Value) :=
  match data with
  | [] => ret []
  | item :: rest =>
      if is_none item then
        out <- pseudonymize_from field_type pseudonym_map rest ;;
        ret (VNone :: out)
      else
        let item_str := py_str item in
        pm <- match pseudonym_map !! item_str with
              | Some _ => ret pseudonym_map
              | None =>
                  alias <- new_alias field_type (size pseudonym_map) ;;
                  ret (<[item_str := alias]> pseudonym_map)
              end ;;
        out <- pseudonymize_from field_type pm rest ;;
        ret (VStr (default "" (pm !! item_str)) :: out)
  end.

Definition _pseudonymize (data : list Value) (field_type : string) : M (list Value) :=
  pseudonymize_from field_type ∅ data.

(** ** [_fuzz_dates] *)

(** [d + timedelta(days=n)] on the ordinal of a day. *)
Definition add_days (ordinal n : Z) : M Z :=
  let o := (ordinal + n)%Z in
  if ((1 <=? o) && (o <=? MAX_ORDINAL))%Z then ret o
  else raise (OverflowError "date value out of range").

Definition fuzz_item (days_range : Z) (item : Value) : M Value :=
  match item with
  | VNone => ret VNone
  | VDateTime d =>
      try_except
        (random_days <- random_randint (- days_range) days_range ;;
         o <- add_days (dt_ordinal d) random_days ;;
         ret (VDateTime (mkDateTime o (dt_second d) (dt_micro d))))
        (fun _ => ret item)
  | VStr s =>
      try_except
        (match strptime_ymd s with
         | None => raise (ValueError "time data does not match format '%Y-%m-%d'")
         | Some date_obj =>
             random_days <- random_randint (- days_range) days_range ;;
             new_date <- add_days date_obj random_days ;;
             ret (VStr (strftime_ymd new_date))
         end)
        (fun _ => ret item)
  | _ => ret item
  end.

Definition _fuzz_dates (data : list Value) (days_range : Z) : M (list Value) :=
  map_m (fuzz_item days_range) data.

(** ** [_add_noise] *)

Definition noise_item (noise_level : Q) (item : Value) : M Value :=
  if is_none item then ret VNone
  else
    try_except
      (match num_of item with
       | Some x =>
           noise <- random_uniform (- noise_level) noise_level ;;
           let new_value := (x * (1 + noise))%Q in
           if isinstance_int item
           then ret (VInt (round_half_even new_value))
           else ret (VFloat (py_round new_value 2))
       | None => ret item
       end)
      (fun _ => ret item).

Definition _add_noise (data : list Value) (noise_level : Q) : M (list Value) :=
  map_m (noise_item noise_level) data.

(** ** [_generalize_data] *)

Definition generalize_age (item_str : string) : string :=
  match int_of_str item_str with
  | Some age =>
      if (age <? 18)%Z then "Under 18"
      else if (age <? 25)%Z then "18-24"
      else if (age <? 35)%Z then "25-34"
      else if (age <? 50)%Z then "35-49"
      else "50+"
  | None => "Unknown"
  end.

Definition generalize_item (field_type : string) (item : Value) : Value :=
  if is_none item then VNone
  else
    let item_str := py_str item in
    if String.eqb field_type "city" then VStr "Generalized Location"
    else if String.eqb field_type "zip_code" then
      if (3 <=? String.length item_str)%nat
      then VStr (str_take 3 item_str ++ "**")
      else VStr "***"
    else if String.eqb field_type "age" then VStr (generalize_age item_str)
    else VStr "Generalized".

Definition _generalize_data (data : list Value) (field_type : string) : list Value :=
  map (generalize_item field_type) data.

(** ** Dispatch on level and field type *)

(** [field_type in [t1, ..., tn]] *)
Definition str_in (x : string) (l : list string) : bool :=
  existsb (String.eqb x) l.

Definition _medium_anonymization (data : list Value) (field_type : string) : M (list Value) :=
  if str_in field_type ["email"; "name"; "phone"; "address"] then
    ret (_mask_pii data field_type)
  else if str_in field_type ["date"; "datetime"] then _fuzz_dates data 30
  else if str_in field_type ["integer"; "float"] then _add_noise data (1 # 10)
  else ret data.

Definition _high_anonymization (data : list Value) (field_type : string) : M (list Value) :=
  if str_in field_type ["email"; "name"; "phone"; "address"] then
    _pseudonymize data field_type
  else if str_in field_type ["date"; "datetime"] then _fuzz_dates data 365
  else if str_in field_type ["integer"; "float"] then _add_noise data (2 # 10)
  else ret (_generalize_data data field_type).

Definition anonymize_data (data : list Value) (field_type anonymization_level : string)
    : M (list Value) :=
  if String.eqb anonymization_level "low" then ret data
  else if String.eqb anonymization_level "medium" then _medium_anonymization data field_type
  else if String.eqb anonymization_level "high" then _high_anonymization data field_type
  else ret data.

End Anonymizer.
End DataAnonymizer.

(* ===================================================================== *)
(** * privacy/differential_privacy.py *)
(* ===================================================================== *)

Module DifferentialPrivacy.

(** A record of the data set: field name to value. *)
Abbreviation Record_ := (gmap string Value).

(** [float('inf')] or an integer. *)
Inductive GroupSize :=
| Infinite
| Size (n : Z).

(** The dictionary returned by [check_k_anonymity]; the key ['k'] is
    absent from the one returned early. *)
Record KAnonymity := mkKAnonymity {
  k_anonymity_satisfied : bool;
  min_group_size : GroupSize;
  violations : Z;
  total_groups : Z;
  k_checked : option Z
}.

(** The dictionary returned by [apply_private_histogram]. *)
Record Histogram := mkHistogram {
  bins : list Value;
  counts : list Z;
  hist_budget_used : Q
}.

(** The dictionary returned by [apply_private_aggregation]. *)
Record Aggregates := mkAggregates {
  agg_mean : Q;
  agg_median : Q;
  agg_std : Q;
  agg_min : Q;
  agg_max : Q;
  agg_budget_used : Q
}.

Section DP.
Context `{RT : PyRuntime}.

Local Open Scope string_scope.

(** [np.random.seed(s)] *)
Definition np_random_seed (s : Z) : M unit :=
  if ((0 <=? s) && (s <? 2 ^ 32))%Z
  then fun w => (Ok tt, set_np (np_seed s) w)
  else raise (ValueError "Seed must be between 0 and 2**32 - 1").

(** [DifferentialPrivacy.__init__]; [self.epsilon] is an argument of the
    methods below. *)
Definition init (seed : option Z) : M unit :=
  match seed with
  | Some s =>
      _ <- (fun w => (Ok tt, set_py (random_seed s) w)) ;;
      np_random_seed s
  | None => ret tt
  end.

(** [value + noise], then the rounding both noise routines share. *)
Definition add_and_round (value : Value) (noise : Q) : M Value :=
  match num_of value with
  | None => raise (TypeError "unsupported operand type(s) for +")
  | Some x =>
      let noisy_value := (x + noise)%Q in
      if isinstance_int value
      then ret (VInt (round_half_even noisy_value))
      else ret (VFloat (py_round noisy_value 2))
  end.

Definition add_laplace_noise (epsilon : Q) (data : list Value) (sensitivity : Q)
    : M (list Value) :=
  if Qleb epsilon 0 then ret data
  else
    let scale := (sensitivity / epsilon)%Q in
    map_m (fun value =>
             if is_none value then ret VNone
             else
               noise <- np_random_laplace 0 scale ;;
               add_and_round value noise)
          data.

Definition add_gaussian_noise (epsilon : Q) (data : list Value) (sensitivity delta : Q)
    : M (list Value) :=
  if Qleb epsilon 0 then ret data
  else
    scale <- (fun w => (np_gaussian_scale sensitivity delta epsilon, w)) ;;
    map_m (fun value =>
             if is_none value then ret VNone
             else
               noise <- np_random_normal 0 scale ;;
               add_and_round value noise)
          data.

(** ** Private statistics *)

(** [a / b] on floats *)
Definition py_div (a b : Q) : M Q :=
  if Qeq_bool b 0 then raise (ZeroDivisionError "float division by zero")
  else ret (a / b)%Q.

(** [[x for x in data if x is not None]] *)
Definition clean (data : list Value) : list Value :=
  filter (fun x => is_none x = false) data.

(** The numbers of a list, when all its elements are numbers. *)
Fixpoint nums_of (l : list Value) : option (list Q) :=
  match l with
  | [] => Some []
  | v :: l' =>
      match num_of v, nums_of l' with
      | Some x, Some xs => Some (x :: xs)
      | _, _ => None
      end
  end.

Definition require_nums (l : list Value) : M (list Q) :=
  match nums_of l with
  | Some xs => ret xs
  | None => raise (TypeError "cannot perform reduce with flexible type")
  end.

Definition Qsum (xs : list Q) : Q := foldr Qplus 0%Q xs.

(** [np.mean] *)
Definition np_mean (xs : list Q) : Q := (Qsum xs / inject_Z (Z.of_nat (length xs)))%Q.

(** [np.median] *)
Definition np_median (xs : list Q) : Q :=
  let sorted := merge_sort (fun a b => Is_true (Qle_bool a b)) xs in
  let n := length xs in
  if Nat.even n
  then ((nth (n / 2 - 1) sorted 0 + nth (n / 2) sorted 0) / 2)%Q
  else nth (n / 2) sorted 0%Q.

(** [np.std] *)
Definition np_std (xs : list Q) : Q :=
  let m := np_mean xs in
  np_sqrt (np_mean (map (fun x => ((x - m) * (x - m))%Q) xs)).

(** The common shape of [private_mean], [private_median], [private_std]:
    [post] is applied to the noisy statistic before rounding. *)
Definition private_stat (stat : list Q -> Q) (post : Q -> Q)
    (epsilon : Q) (data : list Value) (sensitivity : Q) : M Q :=
  match data with
  | [] => ret 0%Q
  | _ =>
      match clean data with
      | [] => ret 0%Q
      | clean_data =>
          xs <- require_nums clean_data ;;
          let true_stat := stat xs in
          scale <- py_div sensitivity epsilon ;;
          noise <- np_random_laplace 0 scale ;;
          ret (py_round (post (true_stat + noise)%Q) 2)
      end
  end.

Definition private_mean := private_stat np_mean (fun x => x).
Definition private_median := private_stat np_median (fun x => x).
Definition private_std := private_stat np_std (fun x => py_max 0 x).

Definition list_min (xs : list Q) : Q :=
  match xs with [] => 0%Q | x :: xs' => foldl py_min x xs' end.
Definition list_max (xs : list Q) : Q :=
  match xs with [] => 0%Q | x :: xs' => foldl py_max x xs' end.

Definition empty_aggregates : Aggregates := mkAggregates 0 0 0 0 0 0.

Definition apply_private_aggregation (epsilon : Q) (data : list Value) : M Aggregates :=
  match data with
  | [] => ret empty_aggregates
  | _ =>
      match clean data with
      | [] => ret empty_aggregates
      | clean_data =>
          xs <- require_nums clean_data ;;
          let data_range := (list_max xs - list_min xs)%Q in
          let sensitivity := (data_range / inject_Z (Z.of_nat (length clean_data)))%Q in
          m <- private_mean epsilon clean_data sensitivity ;;
          md <- private_median epsilon clean_data sensitivity ;;
          sd <- private_std epsilon clean_data sensitivity ;;
          ret (mkAggregates m md sd (list_min xs) (list_max xs) epsilon)
      end
  end.

(** [[(e[i] + e[i+1]) / 2 for i in range(len(e) - 1)]] *)
Fixpoint bin_centers (edges : list Q) : list Value :=
  match edges with
  | a :: ((b :: _) as rest) => VFloat ((a + b) / 2)%Q :: bin_centers rest
  | _ => []
  end.

Definition empty_histogram : Histogram := mkHistogram [] [] 0.

Definition apply_private_histogram (epsilon : Q) (data : list Value) (nbins : Z) : M Histogram :=
  match data with
  | [] => ret empty_histogram
  | _ =>
      match clean data with
      | [] => ret empty_histogram
      | (first :: _) as clean_data =>
          hc <- (if isinstance_int_float first then
                   xs <- require_nums clean_data ;;
                   he <- (fun w => (np_histogram xs nbins, w)) ;;
                   ret (fst he, bin_centers (snd he))
                 else
                   uc <- (fun w => (np_unique clean_data, w)) ;;
                   ret (snd uc, fst uc)) ;;
          noisy_counts <-
            map_m (fun count =>
                     scale <- py_div 1 epsilon ;;
                     noise <- np_random_laplace 0 scale ;;
                     ret (Z.max 0 (round_half_even (inject_Z count + noise))))
                  (fst hc) ;;
          ret (mkHistogram (snd hc) noisy_counts epsilon)
      end
  end.

(** ** [check_k_anonymity] *)

(** [tuple(record.get(qi, '') for qi in quasi_identifiers)] *)
Definition group_key (quasi_identifiers : list string) (record : Record_) : list Value :=
  map (fun qi => default (VStr "") (record !! qi)) quasi_identifiers.

(** Equality of two tuples. *)
Fixpoint key_eqb (a b : list Value) : bool :=
  match a, b with
  | [], [] => true
  | x :: a', y :: b' => py_eqb x y && key_eqb a' b'
  | _, _ => false
  end.

(** [if key not in groups: groups[key] = []] then
    [groups[key].append(record)], the dictionary being the list of its
    items in insertion order. *)
Fixpoint groups_add (key : list Value) (record : Record_)
    (groups : list (list Value * list Record_)) : list (list Value * list Record_) :=
  match groups with
  | [] => [(key, [record])]
  | (key', records) :: rest =>
      if key_eqb key key' then (key', (records ++ [record])%list) :: rest
      else (key', records) :: groups_add key record rest
  end.

(** The first loop. *)
Definition build_groups (quasi_identifiers : list string) (data : list Record_)
    : list (list Value * list Record_) :=
  foldl (fun groups record => groups_add (group_key quasi_identifiers record) record groups)
        [] data.

(** [min(min_group_size, group_size)] *)
Definition min_size (m : GroupSize) (group_size : Z) : GroupSize :=
  match m with
  | Infinite => Size group_size
  | Size n => if (group_size <? n)%Z then Size group_size else Size n
  end.

(** The second loop: the pair [(violations, min_group_size)]. *)
Definition scan_groups (k : Z) (groups : list (list Value * list Record_))
    : Z * GroupSize :=
  foldl (fun '(violations, min_group_size) '(_, group_records) =>
           let group_size := Z.of_nat (length group_records) in
           (if (group_size <? k)%Z then (violations + 1)%Z else violations,
            min_size min_group_size group_size))
        (0%Z, Infinite) groups.

Definition check_k_anonymity (data : list Record_) (quasi_identifiers : list string) (k : Z)
    : KAnonymity :=
  match data, quasi_identifiers with
  | [], _ | _, [] => mkKAnonymity true Infinite 0 0 None
  | _, _ =>
      let groups := build_groups quasi_identifiers data in
      let '(violations, min_group_size) := scan_groups k groups in
      mkKAnonymity (violations =? 0)%Z
                   (match min_group_size with Infinite => Size 0 | Size n => Size n end)
                   violations
                   (Z.of_nat (length groups))
                   (Some k)
  end.

End DP.
End DifferentialPrivacy.

(* ===================================================================== *)
(** * Operators on values *)
(* ===================================================================== *)

Module PyVal.
Section Ops.
Context `{RT : PyRuntime}.

Local Open Scope string_scope.

(** Keyword arguments and constraint maps: [Dict[str, Any]] whose values
    are scalars. *)
Definition Kwargs : Type := gmap string Value.

(** A parameter [name] with default [dflt], called with [**kwargs]. *)
Definition arg (kwargs : gmap string Value) (name : string) (dflt : Value) : Value :=
  default dflt (kwargs !! name).

(** [bool(v)] *)
Definition py_truthy (v : Value) : bool :=
  match v with
  | VNone => false
  | VBool b => b
  | VInt n => negb (n =? 0)%Z
  | VFloat x => negb (Qeq_bool x 0)
  | VStr s => negb (String.eqb s "")
  | VDate _ | VDateTime _ | VTime _ => true
  end.

(** A number, where the code computes with one. *)
Definition as_num (v : Value) : M Q :=
  match num_of v with
  | Some x => ret x
  | None => raise (TypeError "unsupported operand type(s)")
  end.

(** An integer, where the library insists on one. *)
Definition as_int (v : Value) : M Z :=
  match v with
  | VInt n => ret n
  | VBool b => ret (Z.b2z b)
  | _ => raise (TypeError "object cannot be interpreted as an integer")
  end.

(** A string, where the library insists on one. *)
Definition as_str (v : Value) : M string :=
  match v with
  | VStr s => ret s
  | _ => raise (TypeError "argument must be str")
  end.

(** [min(a, b)]: [b] if [b < a], else [a]. *)
Definition val_min (a b : Value) : M Value :=
  x <- as_num a ;; y <- as_num b ;;
  ret (if Qltb y x then b else a).

(** [max(a, b)]: [b] if [b > a], else [a]. *)
Definition val_max (a b : Value) : M Value :=
  x <- as_num a ;; y <- as_num b ;;
  ret (if Qltb x y then b else a).

(** [round(v, d)] for a number [v] and an integer [d >= 0]: an [int]
    comes back unchanged, as an [int]. *)
Definition val_round (v : Value) (d : Z) : M Value :=
  match v with
  | VFloat x => ret (VFloat (py_round x d))
  | VInt n => ret (VInt n)
  | VBool b => ret (VInt (Z.b2z b))
  | _ => raise (TypeError "type doesn't define __round__ method")
  end.

(** [v * factor] for numbers: an [int] only if both are. *)
Definition val_mul (v factor : Value) : Value :=
  match num_of v, num_of factor with
  | Some x, Some y =>
      if isinstance_int v && isinstance_int factor
      then VInt (Qfloor (x * y))
      else VFloat (x * y)
  | _, _ => v
  end.

End Ops.
End PyVal.
Export PyVal.

(* ===================================================================== *)
(** * generators/base_generator.py *)
(* ===================================================================== *)

Module BaseGenerator.
Section Base.
Context `{RT : PyRuntime}.

Local Open Scope string_scope.

(** [BaseGenerator.__init__]; creating the [Faker] instance touches
    nothing of the world. *)
Definition init (seed : option Z) : M unit :=
  match seed with
  | Some s =>
      _ <- (fun w => (Ok tt, set_py (random_seed s) w)) ;;
      _ <- DifferentialPrivacy.np_random_seed s ;;
      fun w => (Ok tt, set_fk (faker_seed s) w)
  | None => ret tt
  end.

(** [int(len(data) * pct / 100)] *)
Definition percent_count (n : nat) (pct : Q) : Z :=
  py_int (inject_Z (Z.of_nat n) * pct / 100).

(** [for idx in null_indices: data[idx] = None] *)
Definition set_nulls (null_indices : list nat) (data : list Value) : list Value :=
  foldl (fun d idx => <[idx := VNone]> d) data null_indices.

(** The [null_percentage] step of [apply_constraints]. *)
Definition apply_null_percentage (data : list Value) (constraints : gmap string Value)
    : M (list Value) :=
  match constraints !! "null_percentage" with
  | Some null_pct =>
      p <- as_num null_pct ;;                (* null_pct > 0 *)
      if Qltb 0 p then
        null_indices <- random_sample_range (length data) (percent_count (length data) p) ;;
        ret (set_nulls null_indices data)
      else ret data
  | None => ret data
  end.

(** The body of the loop after de-duplication. *)
Definition regenerate_one (self_generate : Z -> gmap string Value -> M (list Value))
    (constraints : gmap string Value) (data : list Value) : M (list Value) :=
  new_data <- self_generate 1 (delete "unique" (delete "null_percentage" constraints)) ;;
  match new_data with
  | [] => raise (IndexError "list index out of range")
  | x :: _ => if py_in x data then ret data else ret (data ++ [x])%list
  end.

(** The [unique] step of [apply_constraints]; the loop is
    [while len(data) < len(data)]. *)
Definition apply_unique (fuel : nat)
    (self_generate : Z -> gmap string Value -> M (list Value))
    (data : list Value) (constraints : gmap string Value) : M (list Value) :=
  if py_truthy (arg constraints "unique" (VBool false)) then
    data <- list_of_set data ;;
    while_loop fuel
      (fun data => (length data <? length data)%nat)
      (regenerate_one self_generate constraints)
      data
  else ret data.

(** [apply_constraints]; [self_generate] is the [generate] of the object
    and [fuel] bounds the iterations of the [while] loop. *)
Definition apply_constraints (fuel : nat)
    (self_generate : Z -> gmap string Value -> M (list Value))
    (data : list Value) (constraints : gmap string Value) : M (list Value) :=
  if decide (constraints = ∅) then ret data
  else
    data <- apply_null_percentage data constraints ;;
    apply_unique fuel self_generate data constraints.

(** [introduce_outliers] *)
Definition outlier_factors : list Value := [VFloat (1 # 10); VInt 10; VInt 100].

Definition outlier_step (idx : nat) (data : list Value) : M (list Value) :=
  match data !! idx with
  | Some v =>
      if isinstance_int_float v && negb (is_none v) then
        factor <- random_choice outlier_factors ;;
        ret (<[idx := val_mul v factor]> data)
      else ret data
  | None => raise (IndexError "list index out of range")
  end.

Definition introduce_outliers (data : list Value) (outlier_percentage : Value)
    : M (list Value) :=
  p <- as_num outlier_percentage ;;          (* outlier_percentage <= 0 *)
  if Qleb p 0 || (match data with [] => true | _ => false end) then ret data
  else
    outlier_indices <- random_sample_range (length data) (percent_count (length data) p) ;;
    for_each outlier_step outlier_indices data.

(** [create_duplicates] *)
Definition create_duplicates (data : list Value) (duplicate_percentage : Value)
    : M (list Value) :=
  p <- as_num duplicate_percentage ;;
  match data with
  | [] => ret data
  | x :: _ =>
      if Qleb p 0 then ret data
      else
        picks <- lift_py (rng_choices (length data) (Z.to_nat (percent_count (length data) p))) ;;
        ret (data ++ map (fun i => nth i data x) picks)%list
  end.

(** The loop the three [generate] methods share: [count] values, each
    from [generator_func] or, if that raises, from [fallback]. *)
Fixpoint generate_values (count : nat) (generator_func fallback : M Value) : M (list Value) :=
  match count with
  | O => ret []
  | S count' =>
      value <- try_except generator_func (fun _ => fallback) ;;
      data <- generate_values count' generator_func fallback ;;
      ret (value :: data)
  end.

(** Lookup in a dispatch table [{name: method}]. *)
Fixpoint dispatch {A} (table : list (string * A)) (name : string) : option A :=
  match table with
  | [] => None
  | (n, f) :: rest => if String.eqb name n then Some f else dispatch rest name
  end.

End Base.
End BaseGenerator.

(* ===================================================================== *)
(** * generators/numeric_generator.py *)
(* ===================================================================== *)

Module NumericGenerator.
Section Numeric.
Context `{RT : PyRuntime}.

Local Open Scope string_scope.

(** [random.randint(min_val, max_val)] on keyword arguments; the bounds
    have to be integers (a float is refused, as since Python 3.12). *)
Definition randint_args (min_val max_val : Value) : M Value :=
  a <- as_int min_val ;; b <- as_int max_val ;;
  n <- random_randint a b ;;
  ret (VInt n).

(** [random.uniform(min_val, max_val)] on keyword arguments. *)
Definition uniform_args (min_val max_val : Value) : M Q :=
  a <- as_num min_val ;; b <- as_num max_val ;;
  random_uniform a b.

(** [round(value, decimal_places)] for a float [value]. *)
Definition round_float (value : Q) (decimal_places : Value) : M Value :=
  match decimal_places with
  | VNone => ret (VInt (round_half_even value))
  | VInt d => ret (VFloat (py_round value d))
  | VBool b => ret (VFloat (py_round value (Z.b2z b)))
  | _ => raise (TypeError "object cannot be interpreted as an integer")
  end.

Definition _generate_integer (kwargs : gmap string Value) : M Value :=
  randint_args (arg kwargs "min_val" (VInt 0)) (arg kwargs "max_val" (VInt 100)).

Definition _generate_float (kwargs : gmap string Value) : M Value :=
  value <- uniform_args (arg kwargs "min_val" (VFloat 0)) (arg kwargs "max_val" (VFloat 100)) ;;
  round_float value (arg kwargs "decimal_places" (VInt 2)).

Definition _generate_percentage (kwargs : gmap string Value) : M Value :=
  value <- uniform_args (arg kwargs "min_val" (VFloat 0)) (arg kwargs "max_val" (VFloat 100)) ;;
  ret (VFloat (py_round value 2)).

Definition _generate_currency (kwargs : gmap string Value) : M Value :=
  value <- uniform_args (arg kwargs "min_val" (VFloat 0)) (arg kwargs "max_val" (VFloat 10000)) ;;
  ret (VFloat (py_round value 2)).

Definition _generate_id (kwargs : gmap string Value) : M Value :=
  randint_args (arg kwargs "min_val" (VInt 1)) (arg kwargs "max_val" (VInt 999999)).

Definition _generate_transaction_amount (kwargs : gmap string Value) : M Value :=
  let min_val := arg kwargs "min_val" (VFloat (1 # 100)) in
  let max_val := arg kwargs "max_val" (VFloat 10000) in
  let mu := np_log 100 in
  let sigma := 1%Q in
  value <- np_random_lognormal mu sigma ;;
  lo <- val_max (VFloat value) min_val ;;
  clamped <- val_min lo max_val ;;
  val_round clamped 2.

(** [_generate_salary] and [_generate_score] differ in their defaults
    and in the number of decimals only. *)
Definition normal_between (min_val max_val : Value) (decimals : Z) : M Value :=
  a <- as_num min_val ;; b <- as_num max_val ;;
  let mean := ((a + b) / 2)%Q in
  let std := ((b - a) / 6)%Q in
  value <- np_random_normal mean std ;;
  hi <- val_min (VFloat value) max_val ;;
  clamped <- val_max hi min_val ;;
  val_round clamped decimals.

Definition _generate_salary (kwargs : gmap string Value) : M Value :=
  normal_between (arg kwargs "min_val" (VFloat 30000)) (arg kwargs "max_val" (VFloat 200000)) 2.

Definition _generate_age (kwargs : gmap string Value) : M Value :=
  let min_val := arg kwargs "min_val" (VInt 18) in
  let max_val := arg kwargs "max_val" (VInt 80) in
  let mean := 35%Q in
  let std := 15%Q in
  x <- np_random_normal mean std ;;
  let value := VInt (py_int x) in
  hi <- val_min value max_val ;;
  val_max hi min_val.

Definition _generate_temperature (kwargs : gmap string Value) : M Value :=
  value <- uniform_args (arg kwargs "min_val" (VFloat (-10))) (arg kwargs "max_val" (VFloat 40)) ;;
  ret (VFloat (py_round value 1)).

Definition _generate_humidity (kwargs : gmap string Value) : M Value :=
  value <- uniform_args (arg kwargs "min_val" (VFloat 0)) (arg kwargs "max_val" (VFloat 100)) ;;
  ret (VFloat (py_round value 1)).

Definition _generate_latitude (kwargs : gmap string Value) : M Value :=
  value <- uniform_args (arg kwargs "min_val" (VFloat (-90))) (arg kwargs "max_val" (VFloat 90)) ;;
  ret (VFloat (py_round value 6)).

Definition _generate_longitude (kwargs : gmap string Value) : M Value :=
  value <- uniform_args (arg kwargs "min_val" (VFloat (-180))) (arg kwargs "max_val" (VFloat 180)) ;;
  ret (VFloat (py_round value 6)).

Definition _generate_rating (kwargs : gmap string Value) : M Value :=
  value <- uniform_args (arg kwargs "min_val" (VFloat 1)) (arg kwargs "max_val" (VFloat 5)) ;;
  ret (VFloat (py_round value 1)).

Definition _generate_score (kwargs : gmap string Value) : M Value :=
  normal_between (arg kwargs "min_val" (VFloat 0)) (arg kwargs "max_val" (VFloat 100)) 1.

(** [self.numeric_types] *)
Definition numeric_types : list (string * (gmap string Value -> M Value)) :=
  [ ("integer", _generate_integer);
    ("float", _generate_float);
    ("percentage", _generate_percentage);
    ("currency", _generate_currency);
    ("id", _generate_id);
    ("transaction_amount", _generate_transaction_amount);
    ("salary", _generate_salary);
    ("age", _generate_age);
    ("temperature", _generate_temperature);
    ("humidity", _generate_humidity);
    ("latitude", _generate_latitude);
    ("longitude", _generate_longitude);
    ("rating", _generate_rating);
    ("score", _generate_score) ].

(** The fallback of [generate]. *)
Definition fallback : M Value :=
  n <- random_randint 1 100 ;; ret (VInt n).

(** [NumericGenerator.generate(count, numeric_type, **kwargs)].  The
    recursion on [fuel] ties the knot of [self.generate] inside
    [apply_constraints]. *)
Fixpoint generate (fuel : nat) (count : Z) (numeric_type : string)
    (kwargs : gmap string Value) : M (list Value) :=
  match BaseGenerator.dispatch numeric_types numeric_type with
  | None => raise (ValueError ("Unknown numeric type: " ++ numeric_type))
  | Some generator_func =>
      data <- BaseGenerator.generate_values (Z.to_nat count) (generator_func kwargs) fallback ;;
      data <- BaseGenerator.apply_constraints fuel
                (fun c kw => match fuel with
                             | O => fun w => (NoFuel, w)
                             | S fuel' => generate fuel' c "integer" kw
                             end)
                data kwargs ;;
      match kwargs !! "outlier_percentage" with
      | Some outlier_percentage => BaseGenerator.introduce_outliers data outlier_percentage
      | None => ret data
      end
  end.

End Numeric.
End NumericGenerator.

(* ===================================================================== *)
(** * generators/text_generator.py *)
(* ===================================================================== *)

Module TextGenerator.
Section Text.
Context `{RT : PyRuntime}.

Local Open Scope string_scope.

(** [self.fake.<method>()] *)
Definition fake (method : string) : M Value :=
  s <- lift_fk (faker_provider method) ;; ret (VStr s).

Definition fake_str (method : string) : M string := lift_fk (faker_provider method).

Definition _generate_name (kwargs : gmap string Value) : M Value := fake "name".
Definition _generate_email (kwargs : gmap string Value) : M Value := fake "email".
Definition _generate_address (kwargs : gmap string Value) : M Value := fake "street_address".
Definition _generate_phone (kwargs : gmap string Value) : M Value := fake "phone_number".
Definition _generate_company (kwargs : gmap string Value) : M Value := fake "company".
Definition _generate_job_title (kwargs : gmap string Value) : M Value := fake "job".
Definition _generate_description (kwargs : gmap string Value) : M Value :=
  fake "text(max_nb_chars=200)".
Definition _generate_sentence (kwargs : gmap string Value) : M Value := fake "sentence".
Definition _generate_paragraph (kwargs : gmap string Value) : M Value := fake "paragraph".
Definition _generate_url (kwargs : gmap string Value) : M Value := fake "url".
Definition _generate_user_agent (kwargs : gmap string Value) : M Value := fake "user_agent".
Definition _generate_mac_address (kwargs : gmap string Value) : M Value := fake "mac_address".
Definition _generate_credit_card (kwargs : gmap string Value) : M Value :=
  fake "credit_card_number".
Definition _generate_bank_account (kwargs : gmap string Value) : M Value := fake "bban".

Definition _generate_patient_id (kwargs : gmap string Value) : M Value :=
  n <- random_randint 100000 999999 ;; ret (VStr ("PAT" ++ str_of_Z n)).

Definition _generate_medical_record (kwargs : gmap string Value) : M Value :=
  n <- random_randint 1000000 9999999 ;; ret (VStr ("MR" ++ str_of_Z n)).

Definition _generate_diagnosis_code (kwargs : gmap string Value) : M Value :=
  let codes := ["A00"; "B00"; "C00"; "D00"; "E00"; "F00"; "G00"; "H00"; "I00"; "J00"] in
  code <- random_choice codes ;;
  n <- random_randint 0 9 ;;
  ret (VStr (code ++ "." ++ str_of_Z n)).

Definition _generate_medication (kwargs : gmap string Value) : M Value :=
  let medications :=
    ["Acetaminophen"; "Ibuprofen"; "Aspirin"; "Lisinopril"; "Metformin";
     "Amlodipine"; "Omeprazole"; "Simvastatin"; "Losartan"; "Albuterol"] in
  m <- random_choice medications ;; ret (VStr m).

Definition _generate_country (kwargs : gmap string Value) : M Value := fake "country".
Definition _generate_city (kwargs : gmap string Value) : M Value := fake "city".
Definition _generate_zip_code (kwargs : gmap string Value) : M Value := fake "zipcode".
Definition _generate_ipv4 (kwargs : gmap string Value) : M Value := fake "ipv4".
Definition _generate_ipv6 (kwargs : gmap string Value) : M Value := fake "ipv6".

(** One [if '{x}' in pattern: pattern = pattern.replace('{x}', self.fake.x())]. *)
Definition fill (placeholder method : string) (pattern : string) : M string :=
  if str_contains placeholder pattern then
    s <- fake_str method ;;
    ret (str_replace placeholder s pattern)
  else ret pattern.

Definition _generate_custom_text (kwargs : gmap string Value) : M Value :=
  let pattern := arg kwargs "pattern" VNone in
  if py_truthy pattern then
    try_except
      (p <- as_str pattern ;;                 (* '{name}' in pattern *)
       p <- fill "{name}" "name" p ;;
       p <- fill "{email}" "email" p ;;
       p <- fill "{company}" "company" p ;;
       ret (VStr p))
      (fun _ => fake "word")
  else fake "word".

(** [self.text_types] *)
Definition text_types : list (string * (gmap string Value -> M Value)) :=
  [ ("name", _generate_name);
    ("email", _generate_email);
    ("address", _generate_address);
    ("phone", _generate_phone);
    ("company", _generate_company);
    ("job_title", _generate_job_title);
    ("description", _generate_description);
    ("sentence", _generate_sentence);
    ("paragraph", _generate_paragraph);
    ("url", _generate_url);
    ("user_agent", _generate_user_agent);
    ("mac_address", _generate_mac_address);
    ("credit_card", _generate_credit_card);
    ("bank_account", _generate_bank_account);
    ("patient_id", _generate_patient_id);
    ("medical_record", _generate_medical_record);
    ("diagnosis_code", _generate_diagnosis_code);
    ("medication", _generate_medication);
    ("country", _generate_country);
    ("city", _generate_city);
    ("zip_code", _generate_zip_code);
    ("ipv4", _generate_ipv4);
    ("ipv6", _generate_ipv6);
    ("custom", _generate_custom_text) ].

(** The fallback of [generate]. *)
Definition fallback : M Value :=
  n <- random_randint 1000 9999 ;; ret (VStr ("Generated_" ++ str_of_Z n)).

(** [TextGenerator.generate(count, text_type, **kwargs)] *)
Fixpoint generate (fuel : nat) (count : Z) (text_type : string)
    (kwargs : gmap string Value) : M (list Value) :=
  match BaseGenerator.dispatch text_types text_type with
  | None => raise (ValueError ("Unknown text type: " ++ text_type))
  | Some generator_func =>
      data <- BaseGenerator.generate_values (Z.to_nat count) (generator_func kwargs) fallback ;;
      BaseGenerator.apply_constraints fuel
        (fun c kw => match fuel with
                     | O => fun w => (NoFuel, w)
                     | S fuel' => generate fuel' c "name" kw
                     end)
        data kwargs
  end.

End Text.
End TextGenerator.

(* ===================================================================== *)
(** * generators/date_generator.py *)
(* ===================================================================== *)

Module DateGenerator.
Section Dates.
Context `{RT : PyRuntime}.

Local Open Scope string_scope.

(** [datetime.strptime(s, '%Y-%m-%d')] on a keyword argument: the
    ordinal of the day. *)
Definition parse_ymd (v : Value) : M Z :=
  s <- as_str v ;;
  match strptime_ymd s with
  | Some o => ret o
  | None => raise (ValueError "time data does not match format '%Y-%m-%d'")
  end.

(** [datetime.strptime(s, '%H:%M:%S').time()]: the second of the day. *)
Definition parse_hms (v : Value) : M Z :=
  s <- as_str v ;;
  match strptime_hms s with
  | Some t => ret t
  | None => raise (ValueError "time data does not match format '%H:%M:%S'")
  end.

(** [dt + timedelta(days=n)] *)
Definition datetime_add_days (d : DateTime) (n : Z) : M DateTime :=
  o <- DataAnonymizer.add_days (dt_ordinal d) n ;;
  ret (mkDateTime o (dt_second d) (dt_micro d)).

(** [dt + timedelta(seconds=n)] *)
Definition datetime_add_seconds (d : DateTime) (n : Z) : M DateTime :=
  let total := (dt_second d + n)%Z in
  o <- DataAnonymizer.add_days (dt_ordinal d) (total / 86400) ;;
  ret (mkDateTime o (total mod 86400) (dt_micro d)).

(** [dt.weekday()]: Monday is 0. *)
Definition weekday (d : DateTime) : Z := ((dt_ordinal d + 6) mod 7)%Z.

(** [dt.replace(hour=h, minute=m, second=s)] *)
Definition replace_hms (d : DateTime) (h m s : Z) : DateTime :=
  mkDateTime (dt_ordinal d) (h * 3600 + m * 60 + s) (dt_micro d).

(** The methods proper, on their named parameters. *)

Definition date_between (start_date end_date : Value) : M Z :=
  start <- parse_ymd start_date ;;
  end_ <- parse_ymd end_date ;;
  let days_between := (end_ - start)%Z in
  random_days <- random_randint 0 days_between ;;
  DataAnonymizer.add_days start random_days.

Definition datetime_between (start_date end_date : Value) : M DateTime :=
  start <- parse_ymd start_date ;;
  end_ <- parse_ymd end_date ;;
  let seconds_between := ((end_ - start) * 86400)%Z in
  random_seconds <- random_randint 0 seconds_between ;;
  datetime_add_seconds (mkDateTime start 0 0) random_seconds.

Definition start_of (kwargs : gmap string Value) : Value :=
  arg kwargs "start_date" (VStr "2020-01-01").
Definition end_of (kwargs : gmap string Value) : Value :=
  arg kwargs "end_date" (VStr "2024-12-31").

Definition _generate_date (kwargs : gmap string Value) : M Value :=
  d <- date_between (start_of kwargs) (end_of kwargs) ;; ret (VDate d).

Definition _generate_datetime (kwargs : gmap string Value) : M Value :=
  d <- datetime_between (start_of kwargs) (end_of kwargs) ;; ret (VDateTime d).

Definition _generate_time (kwargs : gmap string Value) : M Value :=
  start_seconds <- parse_hms (arg kwargs "start_time" (VStr "00:00:00")) ;;
  end_seconds <- parse_hms (arg kwargs "end_time" (VStr "23:59:59")) ;;
  random_seconds <- random_randint start_seconds end_seconds ;;
  if ((0 <=? random_seconds) && (random_seconds <? 86400))%Z
  then ret (VTime random_seconds)
  else raise (ValueError "hour must be in 0..23").

Definition _generate_date_range (kwargs : gmap string Value) : M Value :=
  start <- date_between (start_of kwargs) (end_of kwargs) ;;
  n <- random_randint 1 30 ;;
  end_ <- DataAnonymizer.add_days start n ;;
  ret (VStr (date_str start ++ " to " ++ date_str end_)).

(** [while base_date.weekday() >= 5: base_date += timedelta(days=1)] *)
Definition to_weekday (fuel : nat) (base_date : DateTime) : M DateTime :=
  while_loop fuel (fun d => (5 <=? weekday d)%Z) (fun d => datetime_add_days d 1) base_date.

Definition _generate_signup_date (fuel : nat) (kwargs : gmap string Value) : M Value :=
  r <- random_random ;;
  if Qltb r (7 # 10) then
    base_date <- datetime_between (start_of kwargs) (end_of kwargs) ;;
    base_date <- to_weekday fuel base_date ;;
    ret (VDateTime base_date)
  else
    base_date <- datetime_between (start_of kwargs) (end_of kwargs) ;;
    ret (VDateTime base_date).

(** The shape [_generate_transaction_date] and [_generate_post_date]
    share: with probability [p] the time of day is drawn anew, the hour
    between [h_lo] and [h_hi]. *)
Definition datetime_with_hours (p : Q) (h_lo h_hi : Z) (kwargs : gmap string Value) : M Value :=
  base_date <- datetime_between (start_of kwargs) (end_of kwargs) ;;
  r <- random_random ;;
  if Qltb r p then
    hour <- random_randint h_lo h_hi ;;
    minute <- random_randint 0 59 ;;
    second <- random_randint 0 59 ;;
    ret (VDateTime (replace_hms base_date hour minute second))
  else ret (VDateTime base_date).

Definition _generate_transaction_date := datetime_with_hours (6 # 10) 9 17.

Definition _generate_hire_date (kwargs : gmap string Value) : M Value :=
  d <- date_between (start_of kwargs) (end_of kwargs) ;; ret (VDate d).

Definition _generate_visit_date (kwargs : gmap string Value) : M Value :=
  d <- datetime_between (start_of kwargs) (end_of kwargs) ;; ret (VDateTime d).

Definition _generate_post_date := datetime_with_hours (4 # 10) 18 23.

Definition _generate_sensor_timestamp (kwargs : gmap string Value) : M Value :=
  base_date <- datetime_between (start_of kwargs) (end_of kwargs) ;;
  ret (VDateTime (mkDateTime (dt_ordinal base_date)
                             (dt_second base_date - dt_second base_date mod 60) 0)).

(** [self.date_types] *)
Definition date_types (fuel : nat) : list (string * (gmap string Value -> M Value)) :=
  [ ("date", _generate_date);
    ("datetime", _generate_datetime);
    ("time", _generate_time);
    ("date_range", _generate_date_range);
    ("signup_date", _generate_signup_date fuel);
    ("transaction_date", _generate_transaction_date);
    ("hire_date", _generate_hire_date);
    ("visit_date", _generate_visit_date);
    ("post_date", _generate_post_date);
    ("sensor_timestamp", _generate_sensor_timestamp) ].

(** The fallback of [generate]: [datetime.now()]. *)
Definition fallback : M Value :=
  d <- datetime_now ;; ret (VDateTime d).

(** [DateGenerator.generate(count, date_type, **kwargs)] *)
Fixpoint generate (fuel : nat) (count : Z) (date_type : string)
    (kwargs : gmap string Value) : M (list Value) :=
  match BaseGenerator.dispatch (date_types fuel) date_type with
  | None => raise (ValueError ("Unknown date type: " ++ date_type))
  | Some generator_func =>
      data <- BaseGenerator.generate_values (Z.to_nat count) (generator_func kwargs) fallback ;;
      BaseGenerator.apply_constraints fuel
        (fun c kw => match fuel with
                     | O => fun w => (NoFuel, w)
                     | S fuel' => generate fuel' c "date" kw
                     end)
        data kwargs
  end.

End Dates.
End DateGenerator.

(* ===================================================================== *)
(** * Runs: an object built with a seed, then a sequence of calls *)
(* ===================================================================== *)

Module Session.

Inductive Family := Numeric | Text | Date.

(** The public methods of a generator object. *)
Inductive GenCall :=
| Generate (count : Z) (subtype : string) (kwargs : gmap string Value)
| ApplyConstraints (data : list Value) (constraints : gmap string Value)
| IntroduceOutliers (data : list Value) (outlier_percentage : Value)
| CreateDuplicates (data : list Value) (duplicate_percentage : Value).

(** The anonymization method of a [DataAnonymizer]. *)
Inductive AnonCall :=
| AnonymizeData (data : list Value) (field_type anonymization_level : string).

(** The noise and statistics methods of a [DifferentialPrivacy]. *)
Inductive DPCall :=
| AddLaplaceNoise (data : list Value) (sensitivity : Q)
| AddGaussianNoise (data : list Value) (sensitivity delta : Q)
| PrivateMean (data : list Value) (sensitivity : Q)
| PrivateMedian (data : list Value) (sensitivity : Q)
| PrivateStd (data : list Value) (sensitivity : Q)
| ApplyPrivateAggregation (data : list Value)
| ApplyPrivateHistogram (data : list Value) (nbins : Z).

(** What a call returns. *)
Inductive Output :=
| Column (data : list Value)
| Number (x : Q)
| Stats (a : DifferentialPrivacy.Aggregates)
| Counts (h : DifferentialPrivacy.Histogram).

(** One object and the calls made on it, in order. *)
Inductive Script :=
| GeneratorRun (family : Family) (calls : list GenCall)
| AnonymizerRun (calls : list AnonCall)
| PrivacyRun (epsilon : Q) (calls : list DPCall).

Section Runs.
Context `{RT : PyRuntime}.

Local Open Scope string_scope.

Definition generate_of (fuel : nat) (family : Family)
    : Z -> string -> gmap string Value -> M (list Value) :=
  match family with
  | Numeric => NumericGenerator.generate fuel
  | Text => TextGenerator.generate fuel
  | Date => DateGenerator.generate fuel
  end.

(** The default of the subtype parameter of [generate]. *)
Definition default_subtype (family : Family) : string :=
  match family with
  | Numeric => "integer"
  | Text => "name"
  | Date => "date"
  end.

Definition column (m : M (list Value)) : M Output := data <- m ;; ret (Column data).
Definition number (m : M Q) : M Output := x <- m ;; ret (Number x).

Definition gen_call (fuel : nat) (family : Family) (c : GenCall) : M Output :=
  match c with
  | Generate count subtype kwargs => column (generate_of fuel family count subtype kwargs)
  | ApplyConstraints data constraints =>
      column (BaseGenerator.apply_constraints fuel
                (fun count kwargs =>
                   generate_of fuel family count (default_subtype family) kwargs)
                data constraints)
  | IntroduceOutliers data p => column (BaseGenerator.introduce_outliers data p)
  | CreateDuplicates data p => column (BaseGenerator.create_duplicates data p)
  end.

Definition anon_call (c : AnonCall) : M Output :=
  match c with
  | AnonymizeData data field_type level =>
      column (DataAnonymizer.anonymize_data data field_type level)
  end.

Definition dp_call (epsilon : Q) (c : DPCall) : M Output :=
  match c with
  | AddLaplaceNoise data sensitivity =>
      column (DifferentialPrivacy.add_laplace_noise epsilon data sensitivity)
  | AddGaussianNoise data sensitivity delta =>
      column (DifferentialPrivacy.add_gaussian_noise epsilon data sensitivity delta)
  | PrivateMean data sensitivity =>
      number (DifferentialPrivacy.private_mean epsilon data sensitivity)
  | PrivateMedian data sensitivity =>
      number (DifferentialPrivacy.private_median epsilon data sensitivity)
  | PrivateStd data sensitivity =>
      number (DifferentialPrivacy.private_std epsilon data sensitivity)
  | ApplyPrivateAggregation data =>
      a <- DifferentialPrivacy.apply_private_aggregation epsilon data ;; ret (Stats a)
  | ApplyPrivateHistogram data nbins =>
      h <- DifferentialPrivacy.apply_private_histogram epsilon data nbins ;; ret (Counts h)
  end.

(** The caller notes how a call ended and goes on. *)
Definition attempt {A} (m : M A) : M (Res A) :=
  fun w => let '(r, w') := m w in (Ok r, w').

(** Build the object with [seed], make the calls in order: how each
    ended.  A constructor that raises ends the run. *)
Definition run (fuel : nat) (seed : Z) (script : Script) : M (list (Res Output)) :=
  match script with
  | GeneratorRun family calls =>
      _ <- BaseGenerator.init (Some seed) ;;
      map_m (fun c => attempt (gen_call fuel family c)) calls
  | AnonymizerRun calls =>
      _ <- DataAnonymizer.init (Some seed) ;;
      map_m (fun c => attempt (anon_call c)) calls
  | PrivacyRun epsilon calls =>
      _ <- DifferentialPrivacy.init (Some seed) ;;
      map_m (fun c => attempt (dp_call epsilon c)) calls
  end.

(** Does a call ask for [unique]? *)
Definition call_wants_unique (c : GenCall) : bool :=
  match c with
  | Generate _ _ kwargs => py_truthy (arg kwargs "unique" (VBool false))
  | ApplyConstraints _ constraints => py_truthy (arg constraints "unique" (VBool false))
  | _ => false
  end.

Definition wants_unique (script : Script) : bool :=
  match script with
  | GeneratorRun _ calls => existsb call_wants_unique calls
  | _ => false
  end.

(** Only the date generator has a path to the clock. *)
Definition may_read_clock (script : Script) : bool :=
  match script with
  | GeneratorRun Date _ => true
  | _ => false
  end.

End Runs.
End Session.

(* ===================================================================== *)
(** * utils/validators.py *)
(* ===================================================================== *)

(** What a [Dict[str, Any]] of a schema holds: scalars, lists and
    dictionaries.  A dictionary is the list of its items in insertion
    order, its keys pairwise different. *)
#[warnings="-register-all"] Inductive Json :=
| JVal (v : Value)
| JList (items : list Json)
| JDict (items : list (string * Json)).

Module PyJson.

Local Open Scope string_scope.

(** [d.get(k)] *)
Fixpoint dict_get {A} (d : list (string * A)) (k : string) : option A :=
  match d with
  | [] => None
  | (k', v) :: d' => if String.eqb k k' then Some v else dict_get d' k
  end.

(** [k in d] for a dictionary [d] *)
Definition dict_has {A} (d : list (string * A)) (k : string) : bool :=
  match dict_get d k with Some _ => true | None => false end.

(** [a == b]: lists compare element by element, dictionaries item by
    item whatever the order. *)
Fixpoint json_eqb (a b : Json) {struct a} : bool :=
  match a, b with
  | JVal x, JVal y => py_eqb x y
  | JList xs, JList ys =>
      (fix go (xs ys : list Json) {struct xs} : bool :=
         match xs, ys with
         | [], [] => true
         | x :: xs', y :: ys' => json_eqb x y && go xs' ys'
         | _, _ => false
         end) xs ys
  | JDict d, JDict e =>
      Nat.eqb (length d) (length e) &&
      (fix go (d : list (string * Json)) {struct d} : bool :=
         match d with
         | [] => true
         | (k, v) :: d' =>
             match dict_get e k with
             | Some v' => json_eqb v v' && go d'
             | None => false
             end
         end) d
  | _, _ => false
  end.

(** [a > b] on [datetime] objects *)
Definition datetime_gtb (a b : DateTime) : bool :=
  (dt_ordinal b <? dt_ordinal a)%Z
  || ((dt_ordinal b =? dt_ordinal a)%Z
      && ((dt_second b <? dt_second a)%Z
          || ((dt_second b =? dt_second a)%Z && (dt_micro b <? dt_micro a)%Z))).

(** [a > b] on scalars: numbers with numbers, and strings, dates, times
    each with their like. *)
Definition val_gt (x y : Value) : Res bool :=
  match num_of x, num_of y with
  | Some a, Some b => Ok (Qltb b a)
  | None, None =>
      match x, y with
      | VStr s, VStr t => Ok (String.ltb t s)
      | VDate a, VDate b => Ok (b <? a)%Z
      | VDateTime a, VDateTime b => Ok (datetime_gtb a b)
      | VTime a, VTime b => Ok (b <? a)%Z
      | _, _ => Raise (TypeError "'>' not supported between instances")
      end
  | _, _ => Raise (TypeError "'>' not supported between instances")
  end.

(** [a > b]: two lists compare at the first position where they differ,
    or by length. *)
Fixpoint json_gt (a b : Json) {struct a} : Res bool :=
  match a, b with
  | JVal x, JVal y => val_gt x y
  | JList xs, JList ys =>
      (fix go (xs ys : list Json) {struct xs} : Res bool :=
         match xs, ys with
         | x :: xs', y :: ys' => if json_eqb x y then go xs' ys' else json_gt x y
         | _ :: _, [] => Ok true
         | [], _ => Ok false
         end) xs ys
  | _, _ => Raise (TypeError "'>' not supported between instances")
  end.

(** [k in c], for a string [k] that is not empty: a key of a dictionary,
    an element of a list, a part of a string. *)
Definition json_has (c : Json) (k : string) : Res bool :=
  match c with
  | JDict d => Ok (dict_has d k)
  | JList l => Ok (existsb (json_eqb (JVal (VStr k))) l)
  | JVal (VStr s) => Ok (str_contains k s)
  | JVal _ => Raise (TypeError "argument is not iterable")
  end.

(** [x == s] for a string [s] *)
Definition is_str (x : Json) (s : string) : bool :=
  match x with JVal (VStr t) => String.eqb t s | _ => false end.

(** [x in [s1, ..., sn]] for strings [si] *)
Definition in_strs (x : Json) (l : list string) : bool := existsb (is_str x) l.

(** Sequencing of computations that may raise. *)
Definition and_then {A B} (r : Res A) (f : A -> Res B) : Res B :=
  match r with
  | Ok a => f a
  | Raise e => Raise e
  | NoFuel => NoFuel
  end.

End PyJson.
Export PyJson.

Module SchemaValidator.
Section Validator.
Context `{RT : PyRuntime}.

Local Open Scope string_scope.

(** [f"Field {index}: "] *)
Definition field_prefix (index : Z) : string := "Field " ++ str_of_Z index ++ ": ".

(** [c[k]] where [c] is not a dictionary *)
Definition bad_subscript : exn := TypeError "indices must be integers".

(** ** [validate_constraints] *)

(** [if 'min_val' in constraints and 'max_val' in constraints: ...] *)
Definition range_errors (d : list (string * Json)) (field_index : Z) : Res (list string) :=
  match dict_get d "min_val", dict_get d "max_val" with
  | Some min_val, Some max_val =>
      and_then (json_gt min_val max_val) (fun greater =>
        Ok (if greater
            then [field_prefix field_index ++ "min_val cannot be greater than max_val"]
            else []))
  | _, _ => Ok []
  end.

(** [datetime.strptime(x, '%Y-%m-%d')]: [Ok None] stands for the
    [ValueError] the callers catch. *)
Definition parse_day (x : Json) : Res (option Z) :=
  match x with
  | JVal (VStr s) => Ok (strptime_ymd s)
  | _ => Raise (TypeError "strptime() argument 1 must be str")
  end.

(** [try: strptime(constraints[key]) except ValueError: errors.append(...)] *)
Definition day_errors (d : list (string * Json)) (key : string) (field_index : Z)
    : Res (list string) :=
  match dict_get d key with
  | Some x =>
      and_then (parse_day x) (fun day =>
        Ok (match day with
            | Some _ => []
            | None => [field_prefix field_index ++ key ++ " must be in YYYY-MM-DD format"]
            end))
  | None => Ok []
  end.

Definition order_errors (d : list (string * Json)) (field_index : Z) : Res (list string) :=
  match dict_get d "start_date", dict_get d "end_date" with
  | Some s, Some e =>
      and_then (parse_day s) (fun start =>
        match start with
        | None => Ok []
        | Some start =>
            and_then (parse_day e) (fun end_ =>
              Ok (match end_ with
                  | Some end_ =>
                      if (end_ <? start)%Z
                      then [field_prefix field_index ++ "start_date cannot be after end_date"]
                      else []
                  | None => []
                  end))
        end)
  | _, _ => Ok []
  end.

Definition date_errors (d : list (string * Json)) (field_index : Z) : Res (list string) :=
  and_then (day_errors d "start_date" field_index) (fun e1 =>
  and_then (day_errors d "end_date" field_index) (fun e2 =>
  and_then (order_errors d field_index) (fun e3 =>
  Ok (e1 ++ e2 ++ e3)%list))).

Definition categories_errors (d : list (string * Json)) (field_index : Z) : list string :=
  match dict_get d "categories" with
  | Some (JList (_ :: _)) => []
  | Some _ => [field_prefix field_index ++ "categories must be a non-empty list"]
  | None => []
  end.

Definition null_percentage_errors (d : list (string * Json)) (field_index : Z) : list string :=
  let complaint := [field_prefix field_index ++ "null_percentage must be between 0 and 100"] in
  match dict_get d "null_percentage" with
  | Some (JVal null_pct) =>
      match num_of null_pct with
      | Some q => if Qltb q 0 || Qltb 100 q then complaint else []
      | None => complaint
      end
  | Some _ => complaint
  | None => []
  end.

(** The same tests on [constraints] that is not a dictionary: the first
    key found is looked up, and the subscript raises. *)
Definition probe (c : Json) (keys : list string) : Res unit :=
  (fix go (keys : list string) : Res unit :=
     match keys with
     | [] => Ok tt
     | k :: rest =>
         and_then (json_has c k) (fun found =>
           if found then Raise bad_subscript else go rest)
     end) keys.

Definition validate_constraints (constraints field_type : Json) (field_index : Z)
    : Res (list string) :=
  match constraints with
  | JDict d =>
      and_then (if in_strs field_type ["integer"; "float"]
                then range_errors d field_index else Ok []) (fun e1 =>
      and_then (if is_str field_type "date"
                then date_errors d field_index else Ok []) (fun e2 =>
      let e3 := if is_str field_type "categorical"
                then categories_errors d field_index else [] in
      Ok (e1 ++ e2 ++ e3 ++ null_percentage_errors d field_index)%list))
  | _ =>
      and_then (if in_strs field_type ["integer"; "float"]
                then and_then (json_has constraints "min_val") (fun lo =>
                       if lo then
                         and_then (json_has constraints "max_val") (fun hi =>
                           if hi then Raise bad_subscript else Ok tt)
                       else Ok tt)
                else Ok tt) (fun _ =>
      and_then (if is_str field_type "date"
                then probe constraints ["start_date"; "end_date"] else Ok tt) (fun _ =>
      and_then (if is_str field_type "categorical"
                then probe constraints ["categories"] else Ok tt) (fun _ =>
      and_then (probe constraints ["null_percentage"]) (fun _ => Ok []))))
  end.

(** ** [validate_field] *)

Definition is_letter (a : ascii) : bool :=
  let k := nat_of_ascii a in
  ((Nat.leb 65 k && Nat.leb k 90) || (Nat.leb 97 k && Nat.leb k 122))%bool.

Definition is_name_start (a : ascii) : bool := is_letter a || Ascii.eqb a "_".
Definition is_name_char (a : ascii) : bool := is_letter a || is_digit a || Ascii.eqb a "_".

(** What may follow the first character for
    [re.match(r'^[a-zA-Z_][a-zA-Z0-9_]*$', s)] to succeed: [$] matches
    at the end and also before a line feed that ends the string. *)
Fixpoint name_rest (s : string) : bool :=
  match s with
  | EmptyString => true
  | String a s' =>
      if is_name_char a then name_rest s'
      else Ascii.eqb a "010" && String.eqb s' ""
  end.

Definition matches_identifier (s : string) : bool :=
  match s with
  | EmptyString => false
  | String a s' => is_name_start a && name_rest s'
  end.

(** [not s.strip()] *)
Definition is_blank (s : string) : bool := forallb is_space (list_ascii_of_string s).

Definition valid_types : list string :=
  ["text"; "integer"; "float"; "date"; "boolean"; "categorical"].

Definition missing_error (present : bool) (prop : string) (index : Z) : list string :=
  if present then []
  else [field_prefix index ++ "Missing required property '" ++ prop ++ "'"].

Definition missing_errors (has_name has_type : bool) (index : Z) : list string :=
  (missing_error has_name "name" index ++ missing_error has_type "type" index)%list.

Definition name_errors (d : list (string * Json)) (index : Z) : list string :=
  match dict_get d "name" with
  | Some (JVal (VStr s)) =>
      if is_blank s then [field_prefix index ++ "'name' must be a non-empty string"]
      else if matches_identifier s then []
      else [field_prefix index ++ "'name' must be a valid identifier"]
  | Some _ => [field_prefix index ++ "'name' must be a non-empty string"]
  | None => []
  end.

Definition type_errors (d : list (string * Json)) (index : Z) : list string :=
  match dict_get d "type" with
  | Some t =>
      if in_strs t valid_types then []
      else [field_prefix index ++ "'type' must be one of "
            ++ "['text', 'integer', 'float', 'date', 'boolean', 'categorical']"]
  | None => []
  end.

Definition validate_field (field : Json) (index : Z) : Res (list string) :=
  match field with
  | JDict d =>
      let errors := (missing_errors (dict_has d "name") (dict_has d "type") index
                     ++ name_errors d index ++ type_errors d index)%list in
      match dict_get d "constraints" with
      | Some constraints =>
          and_then (validate_constraints constraints
                      (default (JVal VNone) (dict_get d "type")) index)
                   (fun constraint_errors => Ok (errors ++ constraint_errors)%list)
      | None => Ok errors
      end
  | _ =>
      and_then (json_has field "name") (fun has_name =>
      and_then (json_has field "type") (fun has_type =>
      if has_name || has_type then Raise bad_subscript
      else
        and_then (probe field ["constraints"]) (fun _ =>
          Ok (missing_errors has_name has_type index))))
  end.

(** ** [validate_schema] *)

Record Report := mkReport {
  valid : bool;
  errors : list string;
  warnings : list string
}.

(** [for i, field in enumerate(fields): errors.extend(validate_field(field, i))] *)
Fixpoint fields_errors (fields : list Json) (i : Z) : Res (list string) :=
  match fields with
  | [] => Ok []
  | field :: rest =>
      and_then (validate_field field i) (fun field_errors =>
      and_then (fields_errors rest (i + 1)) (fun rest_errors =>
      Ok (field_errors ++ rest_errors)%list))
  end.

Definition validate_schema (schema : list (string * Json)) : Res Report :=
  let errors :=
    ((if dict_has schema "name" then [] else ["Schema must have a 'name' field"]) ++
     (if dict_has schema "fields" then [] else ["Schema must have a 'fields' field"]))%list in
  and_then (match dict_get schema "fields" with
            | Some (JList fields) => fields_errors fields 0
            | Some _ => Ok ["'fields' must be a list"]
            | None => Ok []
            end) (fun more =>
    let errors := (errors ++ more)%list in
    Ok (mkReport (match errors with [] => true | _ => false end) errors [])).

End Validator.
End SchemaValidator.

Module DataValidator.

Local Open Scope string_scope.

(** [type(v).__name__] *)
Definition type_name (v : Value) : string :=
  match v with
  | VNone => "NoneType"
  | VBool _ => "bool"
  | VInt _ => "int"
  | VFloat _ => "float"
  | VStr _ => "str"
  | VDate _ => "date"
  | VDateTime _ => "datetime"
  | VTime _ => "time"
  end.

(** The dictionary [analyze_field] returns. *)
Record FieldAnalysis := mkFieldAnalysis {
  total_count : Z;
  null_count : Z;
  non_null_count : Z;
  null_percentage : Q;
  unique_values : Z;
  uniqueness_ratio : Q;
  primary_type : string;
  type_consistency : Q;
  quality_score : Q
}.

(** [[record.get(field_name) for record in data]] *)
Definition column_of (data : list (gmap string Value)) (field_name : string) : list Value :=
  map (fun record => default VNone (record !! field_name)) data.

Definition count_of {A} (p : A -> bool) (l : list A) : Z :=
  Z.of_nat (length (List.filter p l)).

(** The score before it is rounded. *)
Definition raw_score (null_percentage uniqueness_ratio type_consistency : Q) : Q :=
  (((1 - null_percentage / 100) * 40 + uniqueness_ratio * 30 + type_consistency * 30) * 100)%Q.

Definition analyze_field (data : list (gmap string Value)) (field_name : string)
    : FieldAnalysis :=
  let values := column_of data field_name in
  let total_count := Z.of_nat (length values) in
  let null_count := count_of is_none values in
  let non_null_count := (total_count - null_count)%Z in
  let null_percentage :=
    if (0 <? total_count)%Z
    then (inject_Z null_count / inject_Z total_count * 100)%Q else 0%Q in
  let non_null_values := List.filter (fun v => negb (is_none v)) values in
  let unique_values := Z.of_nat (length (py_dedup non_null_values)) in
  let uniqueness_ratio :=
    if (0 <? non_null_count)%Z
    then (inject_Z unique_values / inject_Z non_null_count)%Q else 0%Q in
  let '(primary_type, type_consistency) :=
    match non_null_values with
    | first :: _ =>
        (type_name first,
         (inject_Z (count_of (fun v => String.eqb (type_name v) (type_name first))
                             non_null_values)
          / inject_Z (Z.of_nat (length non_null_values)))%Q)
    | [] => ("None", 1%Q)
    end in
  let quality_score := raw_score null_percentage uniqueness_ratio type_consistency in
  mkFieldAnalysis total_count null_count non_null_count
    (py_round null_percentage 2) unique_values (py_round uniqueness_ratio 3)
    primary_type (py_round type_consistency 3) (py_round quality_score 2).

End DataValidator.

(* ===================================================================== *)
(** * utils/exporters.py: SQL *)
(* ===================================================================== *)

Module DataExporter.
Section Exporter.
Context `{RT : PyRuntime}.

Local Open Scope string_scope.

(** One value of an [INSERT] statement; [None] stands for a key the
    record does not have ([record.get(col)]). *)
Definition sql_value (value : option Value) : string :=
  match value with
  | None | Some VNone => "NULL"
  | Some (VStr s) => "'" ++ str_replace "'" "''" s ++ "'"
  | Some v => if isinstance_int_float v then py_str v else "'" ++ py_str v ++ "'"
  end.

(** [export_to_sql]; a record is the list of its items in insertion
    order. *)
Definition export_to_sql (data : list (list (string * Value))) (table_name : string) : string :=
  match data with
  | [] => ""
  | first :: _ =>
      let columns := map fst first in
      let column_list := join ", " (map (fun col => "`" ++ col ++ "`") columns) in
      join (String "010" "")
        (map (fun record =>
                let values := map (fun col => sql_value (dict_get record col)) columns in
                "INSERT INTO `" ++ table_name ++ "` (" ++ column_list ++ ") VALUES ("
                ++ join ", " values ++ ");")
             data)
  end.

End Exporter.
End DataExporter.

(* ===================================================================== *)
(** * app.py: the subtypes offered and the generator called *)
(* ===================================================================== *)

Module SyntheticDataApp.

Local Open Scope string_scope.

(** The table of [update_field_subtype_options]. *)
Definition subtype_options : list (string * list string) :=
  [ ("text", ["name"; "email"; "address"; "phone"; "company"; "job_title";
              "description"; "sentence"; "paragraph"; "url"; "user_agent";
              "mac_address"; "credit_card"; "bank_account"; "patient_id";
              "medical_record"; "diagnosis_code"; "medication"; "country";
              "city"; "zip_code"; "ipv4"; "ipv6"; "custom"]);
    ("integer", ["integer"; "id"; "age"; "rating"; "score"]);
    ("float", ["float"; "percentage"; "currency"; "transaction_amount";
               "salary"; "temperature"; "humidity"; "latitude"; "longitude";
               "rating"; "score"]);
    ("date", ["date"; "datetime"; "time"; "date_range"; "signup_date";
              "transaction_date"; "hire_date"; "visit_date"; "post_date";
              "sensor_timestamp"]);
    ("boolean", ["boolean"]);
    ("categorical", ["custom"]) ].

(** [update_field_subtype_options]: the choices of the drop-down, the
    one selected, and whether the categories and the pattern are shown. *)
Definition update_field_subtype_options (field_type : string)
    : list string * string * bool * bool :=
  let options := default ["custom"] (dict_get subtype_options field_type) in
  (options, nth 0 options "", String.eqb field_type "categorical", String.eqb field_type "text").

(** The generator [generate_data] calls for a field, by its type; a
    boolean, a categorical and any other field are filled in without
    one. *)
Definition generator_for (field_type : string) : option Session.Family :=
  if String.eqb field_type "text" then Some Session.Text
  else if String.eqb field_type "integer" then Some Session.Numeric
  else if String.eqb field_type "float" then Some Session.Numeric
  else if String.eqb field_type "date" then Some Session.Date
  else None.

End SyntheticDataApp.

(* ===================================================================== *)
(** * One implementation of the interpreter interface *)
(* ===================================================================== *)

(** A small, executable [PyRuntime], used to run the model on concrete
    inputs.  Its pseudorandom generators are a tape of raw outputs still
    to be delivered, followed by a linear congruential generator; seeding
    starts the congruential generator with an empty tape. *)
Module Demo.

Local Open Scope string_scope.

Definition Rng : Type := list Z * Z.

Definition lcg (s : Z) : Z := ((s * 1103515245 + 12345) mod 2147483648)%Z.

(** The next raw output. *)
Definition next (g : Rng) : Z * Rng :=
  match g with
  | (x :: tape, s) => (x, (tape, s))
  | ([], s) => (lcg s, ([], lcg s))
  end.

Definition seed (s : Z) : Rng := ([], Z.abs s).

Definition randint (a b : Z) (g : Rng) : Z * Rng :=
  let '(x, g') := next g in ((a + x mod (b - a + 1))%Z, g').

(** A fraction in [0, 1). *)
Definition unit_draw (g : Rng) : Q * Rng :=
  let '(x, g') := next g in (Qmake (x mod 1000) 1000, g').

Definition uniform (a b : Q) (g : Rng) : Q * Rng :=
  let '(u, g') := unit_draw g in ((a + (b - a) * u)%Q, g').

(** Drawing [k] positions without replacement: each draw removes the
    chosen element from the pool. *)
Fixpoint pick_from (pool : list nat) (k : nat) (g : Rng) : list nat * Rng :=
  match k with
  | O => ([], g)
  | S k' =>
      let '(x, g') := next g in
      let j := Z.to_nat (x mod Z.of_nat (length pool)) in
      match pool !! j with
      | Some y =>
          let '(rest, g'') := pick_from (take j pool ++ drop (S j) pool)%list k' g' in
          (y :: rest, g'')
      | None => ([], g')
      end
  end.

Definition sample (n k : nat) (g : Rng) : list nat * Rng := pick_from (seq 0 n) k g.

Definition choice (n : nat) (g : Rng) : nat * Rng :=
  let '(x, g') := next g in (Z.to_nat (x mod Z.of_nat n), g').

Fixpoint choices (n k : nat) (g : Rng) : list nat * Rng :=
  match k with
  | O => ([], g)
  | S k' =>
      let '(i, g') := choice n g in
      let '(rest, g'') := choices n k' g' in
      (i :: rest, g'')
  end.

(** A symmetric deviate in [-3, 3], in steps of a tenth. *)
Definition deviate (g : Rng) : Q * Rng :=
  let '(x, g') := next g in (Qmake (x mod 61 - 30) 10, g').

Definition normal (loc scale : Q) (g : Rng) : Q * Rng :=
  let '(z, g') := deviate g in ((loc + scale * z)%Q, g').

(** [(1 + y/16)^16], standing for [exp y]. *)
Definition exp_approx (y : Q) : Q := Qred (Qpower (1 + y / 16) 16).

Definition lognormal (mean sigma : Q) (g : Rng) : Q * Rng :=
  let '(z, g') := deviate g in (exp_approx (mean + sigma * z), g').

Definition laplace (loc scale : Q) (g : Rng) : Q * Rng :=
  let '(z, g') := deviate g in ((loc + scale * z * Qabs z)%Q, g').

(** [ln 2] times the binary logarithm of the integer part. *)
Definition log_approx (x : Q) : Q :=
  if Qeq_bool x 100 then Qmake 4605170 1000000
  else (inject_Z (Z.log2 (Qfloor x)) * Qmake 693147 1000000)%Q.

(** Square root to three decimals. *)
Definition sqrt_approx (x : Q) : Q :=
  Qmake (Z.sqrt (Qfloor (x * 1000000))) 1000.

Definition gaussian_scale (sensitivity delta epsilon : Q) : Res Q :=
  if Qeq_bool delta 0 then Raise (ZeroDivisionError "float division by zero")
  else Ok (sensitivity * sqrt_approx (2 * log_approx ((5 # 4) / delta)) / epsilon)%Q.

(** Equal-width bins between the smallest and the largest value. *)
Definition histogram (xs : list Q) (nbins : Z) : Res (list Z * list Q) :=
  if (nbins <=? 0)%Z then Raise (ValueError "`bins` must be positive")
  else
    match xs with
    | [] => Ok (replicate (Z.to_nat nbins) 0%Z, [])
    | x :: rest =>
        let lo := foldl py_min x rest in
        let hi := foldl py_max x rest in
        let width := ((hi - lo) / inject_Z nbins)%Q in
        let edge i := (lo + inject_Z (Z.of_nat i) * width)%Q in
        let in_bin i v :=
          Qle_bool (edge i) v &&
          (if (Z.of_nat (S i) =? nbins)%Z then Qle_bool v hi
           else negb (Qle_bool (edge (S i)) v)) in
        Ok (map (fun i => Z.of_nat (length (filter (fun v => Is_true (in_bin i v)) xs)))
                (seq 0 (Z.to_nat nbins)),
            map edge (seq 0 (S (Z.to_nat nbins))))
    end.

Definition unique (l : list Value) : Res (list Value * list Z) :=
  let vals := py_dedup l in
  Ok (vals, map (fun v => Z.of_nat (length (filter (fun x => Is_true (py_eqb v x)) l))) vals).

Definition provider (method : string) (g : Rng) : string * Rng :=
  let '(x, g') := next g in (method ++ "_" ++ str_of_Z (x mod 10000), g').

(** *** The calendar *)

Definition is_leap (y : Z) : bool :=
  ((y mod 4 =? 0) && (negb (y mod 100 =? 0) || (y mod 400 =? 0)))%Z.

Definition days_in_month (y m : Z) : Z :=
  if (m =? 2)%Z then (if is_leap y then 29 else 28)
  else if ((m =? 4) || (m =? 6) || (m =? 9) || (m =? 11))%Z then 30 else 31.

Definition days_before_year (y : Z) : Z :=
  let p := (y - 1)%Z in (p * 365 + p / 4 - p / 100 + p / 400)%Z.

Definition days_before_month (y m : Z) : Z :=
  foldr Z.add 0%Z (map (fun i => days_in_month y (Z.of_nat i)) (seq 1 (Z.to_nat m - 1))).

Definition ymd_to_ordinal (y m d : Z) : option Z :=
  if ((1 <=? y) && (y <=? 9999) && (1 <=? m) && (m <=? 12)
      && (1 <=? d) && (d <=? days_in_month y m))%Z
  then Some (days_before_year y + days_before_month y m + d)%Z
  else None.

(** The year of a day, by counting down from an upper estimate. *)
Fixpoint year_from (fuel : nat) (y ordinal : Z) : Z :=
  match fuel with
  | O => y
  | S fuel' => if (days_before_year y <? ordinal)%Z then y else year_from fuel' (y - 1) ordinal
  end.

Fixpoint month_from (fuel : nat) (y m rest : Z) : Z * Z :=
  match fuel with
  | O => (m, rest)
  | S fuel' =>
      if (rest <=? days_in_month y m)%Z then (m, rest)
      else month_from fuel' y (m + 1) (rest - days_in_month y m)
  end.

Definition ordinal_to_ymd (ordinal : Z) : Z * Z * Z :=
  let y := year_from 40 (ordinal / 365 + 1) ordinal in
  let '(m, d) := month_from 12 y 1 (ordinal - days_before_year y) in
  (y, m, d).

(** A number of exactly [width] digits, when it fits. *)
Definition pad (width : nat) (n : Z) : string :=
  let s := str_of_Z n in
  repeat_char "0" (width - String.length s) ++ s.

Definition all_digits (s : string) : bool :=
  forallb is_digit (list_ascii_of_string s) && negb (String.eqb s "").

Definition to_Z (s : string) : option Z :=
  if all_digits s then option_map Z.of_int (NilZero.int_of_string s) else None.

Definition parse_int (s : string) : option Z :=
  match s with
  | String "-" s' => option_map Z.opp (to_Z s')
  | String "+" s' => to_Z s'
  | _ => to_Z s
  end.

Definition parse_ymd (s : string) : option Z :=
  match split_on "-" s with
  | [y; m; d] =>
      if (String.length y =? 4)%nat && (String.length m <=? 2)%nat && (String.length d <=? 2)%nat
      then match to_Z y, to_Z m, to_Z d with
           | Some y, Some m, Some d => ymd_to_ordinal y m d
           | _, _, _ => None
           end
      else None
  | _ => None
  end.

Definition parse_hms (s : string) : option Z :=
  match split_on ":" s with
  | [h; m; sec] =>
      if (String.length h <=? 2)%nat && (String.length m <=? 2)%nat && (String.length sec <=? 2)%nat
      then match to_Z h, to_Z m, to_Z sec with
           | Some h, Some m, Some sec =>
               if ((h <=? 23) && (m <=? 59) && (sec <=? 59))%Z
               then Some (h * 3600 + m * 60 + sec)%Z else None
           | _, _, _ => None
           end
      else None
  | _ => None
  end.

Definition format_ymd (ordinal : Z) : string :=
  let '(y, m, d) := ordinal_to_ymd ordinal in
  pad 4 y ++ "-" ++ pad 2 m ++ "-" ++ pad 2 d.

Definition format_hms (t : Z) : string :=
  pad 2 (t / 3600) ++ ":" ++ pad 2 (t mod 3600 / 60) ++ ":" ++ pad 2 (t mod 60).

Definition format_datetime (d : DateTime) : string :=
  format_ymd (dt_ordinal d) ++ " " ++ format_hms (dt_second d)
  ++ (if (dt_micro d =? 0)%Z then "" else "." ++ pad 6 (dt_micro d)).

(** A float, to six decimals. *)
Definition format_float (x : Q) : string :=
  let n := round_half_even (Qabs x * 1000000) in
  (if Qle_bool 0 x then "" else "-")
  ++ str_of_Z (n / 1000000) ++ "." ++ pad 6 (n mod 1000000).

(** The iteration order of a set: insertion order under an even salt,
    the reverse under an odd one. *)
Definition order (salt : Z) (l : list Value) : list Value :=
  if Z.even salt then l else rev l.

End Demo.

Module DemoFacts.
Import Demo.

Lemma randint_range (a b : Z) (g : Rng) :
  a <= b -> a <= fst (randint a b g) <= b.
Proof.
  intros Hab. unfold randint. destruct (next g) as [x g']. simpl.
  pose proof (Z.mod_pos_bound x (b - a + 1)). lia.
Qed.

Lemma pick_from_spec (k : nat) : forall (pool : list nat) (g : Rng),
  NoDup pool -> (k <= length pool)%nat ->
  length (fst (pick_from pool k g)) = k /\
  NoDup (fst (pick_from pool k g)) /\
  (forall x, x ∈ fst (pick_from pool k g) -> x ∈ pool).
Proof.
  induction k as [|k IH]; intros pool g Hnd Hk; simpl.
  - split; [done|]. split; [constructor|]. intros x Hx. by apply elem_of_nil in Hx.
  - destruct (next g) as [x g'].
    set (j := Z.to_nat (x mod Z.of_nat (length pool))).
    assert (Hj : (j < length pool)%nat).
    { unfold j. pose proof (Z.mod_pos_bound x (Z.of_nat (length pool))). lia. }
    destruct (lookup_lt_is_Some_2 pool j Hj) as [y Hy]. rewrite Hy.
    pose proof (take_drop_middle pool j y Hy) as Hmid.
    assert (Hnd' : NoDup (take j pool ++ y :: drop (S j) pool)) by (by rewrite Hmid).
    apply NoDup_app in Hnd' as (Hnd1 & Hdisj & Hnd2).
    apply NoDup_cons in Hnd2 as (Hy2 & Hnd2).
    assert (Hrest : NoDup (take j pool ++ drop (S j) pool)).
    { apply NoDup_app. split; [done|]. split; [|done].
      intros z Hz1 Hz2. apply (Hdisj z Hz1). by right. }
    assert (Hlen : (k <= length (take j pool ++ drop (S j) pool))%nat).
    { rewrite length_app, length_take, length_drop. lia. }
    destruct (IH (take j pool ++ drop (S j) pool)%list g' Hrest Hlen) as (IH1 & IH2 & IH3).
    destruct (pick_from (take j pool ++ drop (S j) pool) k g') as [rest g'']. simpl in *.
    split; [by rewrite IH1|]. split.
    + apply NoDup_cons. split; [|done].
      intros Hin. apply IH3 in Hin. apply elem_of_app in Hin as [Hin|Hin].
      * apply (Hdisj y Hin). by left.
      * done.
    + intros z Hz. apply elem_of_cons in Hz as [->|Hz].
      * by eapply list_elem_of_lookup_2.
      * apply IH3 in Hz. rewrite <- Hmid.
        apply elem_of_app in Hz as [Hz|Hz]; apply elem_of_app; [by left|right; by right].
Qed.

Lemma sample_spec (n k : nat) (g : Rng) :
  (k <= n)%nat ->
  length (fst (sample n k g)) = k /\
  NoDup (fst (sample n k g)) /\
  Forall (fun i => (i < n)%nat) (fst (sample n k g)).
Proof.
  intros Hk. unfold sample.
  destruct (pick_from_spec k (seq 0 n) g) as (H1 & H2 & H3).
  - apply NoDup_seq.
  - by rewrite length_seq.
  - split; [done|]. split; [done|].
    apply Forall_forall. intros x Hx. apply H3, elem_of_seq in Hx. lia.
Qed.

Lemma choice_range (n : nat) (g : Rng) :
  (0 < n)%nat -> (fst (choice n g) < n)%nat.
Proof.
  intros Hn. unfold choice. destruct (next g) as [x g']. simpl.
  pose proof (Z.mod_pos_bound x (Z.of_nat n)). lia.
Qed.

Lemma choices_spec (n k : nat) (g : Rng) :
  (0 < n)%nat ->
  length (fst (choices n k g)) = k /\
  Forall (fun i => (i < n)%nat) (fst (choices n k g)).
Proof.
  intros Hn. revert g. induction k as [|k IH]; intros g; simpl.
  - split; [done|constructor].
  - pose proof (choice_range n g Hn) as Hc.
    destruct (choice n g) as [i g']. simpl in Hc.
    destruct (IH g') as [IH1 IH2].
    destruct (choices n k g') as [rest g'']. simpl in *.
    split; [by rewrite IH1|by constructor].
Qed.

Lemma order_perm (salt : Z) (l : list Value) : Permutation (order salt l) l.
Proof.
  unfold order. destruct (Z.even salt); [done|]. by rewrite reverse_Permutation || apply Permutation_sym, Permutation_rev.
Qed.

End DemoFacts.

Module DemoRuntime.

Definition runtime : PyRuntime := {|
  PyRng := Demo.Rng;
  random_seed := Demo.seed;
  rng_randint := Demo.randint;
  rng_uniform := Demo.uniform;
  rng_random := Demo.unit_draw;
  rng_sample := Demo.sample;
  rng_choice := Demo.choice;
  rng_choices := Demo.choices;
  NpRng := Demo.Rng;
  np_seed := Demo.seed;
  np_normal := Demo.normal;
  np_lognormal := Demo.lognormal;
  np_laplace := Demo.laplace;
  np_log := Demo.log_approx;
  np_sqrt := Demo.sqrt_approx;
  np_histogram := Demo.histogram;
  np_unique := Demo.unique;
  np_gaussian_scale := Demo.gaussian_scale;
  FkRng := Demo.Rng;
  faker_seed := Demo.seed;
  faker_provider := Demo.provider;
  float_str := Demo.format_float;
  date_str := Demo.format_ymd;
  datetime_str := Demo.format_datetime;
  time_str := Demo.format_hms;
  int_of_str := Demo.parse_int;
  strptime_ymd := Demo.parse_ymd;
  strptime_hms := Demo.parse_hms;
  strftime_ymd := Demo.format_ymd;
  set_order := Demo.order;
  rng_randint_range := DemoFacts.randint_range;
  rng_sample_spec := DemoFacts.sample_spec;
  rng_choice_range := DemoFacts.choice_range;
  rng_choices_spec := DemoFacts.choices_spec;
  set_order_perm := DemoFacts.order_perm
|}.

(** A clock that advances by one second per reading from [d]. *)
Definition clock_from (d : DateTime) : nat -> DateTime :=
  fun n => mkDateTime (dt_ordinal d) (dt_second d + Z.of_nat n) (dt_micro d).

(** The world of a process started at time [d] with hash salt [salt],
    the three generators about to deliver the raw outputs [tape]. *)
Definition world (tape : list Z) (d : DateTime) (salt : Z) : @World runtime :=
  @mkWorld runtime (tape, 1%Z) (tape, 2%Z) (tape, 3%Z) (clock_from d) 0 salt.

End DemoRuntime.

(* ===================================================================== *)
(** * Facts about strings *)
(* ===================================================================== *)

Module PyStrFacts.

Local Open Scope string_scope.

Lemma contains_char_app (c : ascii) (s t : string) :
  contains_char c (s ++ t) = contains_char c s || contains_char c t.
Proof.
  induction s as [|a s IH]; simpl; [done|].
  destruct (Ascii.eqb a c); [done|apply IH].
Qed.

Lemma split_on_nonempty (c : ascii) (s : string) : split_on c s <> [].
Proof.
  destruct s as [|a s]; simpl; [done|].
  destruct (Ascii.eqb a c); [done|]. by destruct (split_on c s).
Qed.

(** A string without the separator is not split. *)
Lemma split_on_absent (c : ascii) (s : string) :
  contains_char c s = false -> split_on c s = [s].
Proof.
  induction s as [|a s IH]; simpl; [done|].
  destruct (Ascii.eqb a c); [done|]. intros H. by rewrite (IH H).
Qed.

(** The first separator ends the first field. *)
Lemma split_on_first (c : ascii) (s t : string) :
  contains_char c s = false ->
  split_on c (s ++ String c t) = s :: split_on c t.
Proof.
  induction s as [|a s IH]; simpl.
  - intros _. by rewrite Ascii.eqb_refl.
  - destruct (Ascii.eqb a c); [done|]. intros H. by rewrite (IH H).
Qed.

Lemma length_repeat_char (c : ascii) (n : nat) : String.length (repeat_char c n) = n.
Proof. induction n; simpl; congruence. Qed.

End PyStrFacts.

(* ===================================================================== *)
(** * Facts about the monad of routines *)
(* ===================================================================== *)

Module MonadFacts.
Section Facts.
Context `{RT : PyRuntime}.

(** [returns m w a w']: started in [w], the routine ends normally with
    [a] in world [w']. *)
Definition returns {A} (m : M A) (w : World) (a : A) (w' : World) : Prop :=
  m w = (Ok a, w').

(** [total m]: whatever the world, the routine ends normally. *)
Definition total {A} (m : M A) : Prop :=
  forall w, exists a w', m w = (Ok a, w').

Lemma total_ret {A} (a : A) : total (ret a).
Proof. intros w. by exists a, w. Qed.

Lemma total_bind {A B} (m : M A) (f : A -> M B) :
  total m -> (forall a, total (f a)) -> total (bind m f).
Proof.
  intros Hm Hf w. destruct (Hm w) as (a & w1 & E).
  destruct (Hf a w1) as (b & w2 & E2).
  exists b, w2. unfold bind. by rewrite E.
Qed.

Lemma total_lift_py {A} (f : PyRng -> A * PyRng) : total (lift_py f).
Proof. intros w. unfold lift_py. destruct (f (py_rng w)) as [a g]. by eexists _, _. Qed.


Lemma total_lift_fk {A} (f : FkRng -> A * FkRng) : total (lift_fk f).
Proof. intros w. unfold lift_fk. destruct (f (fk_rng w)) as [a g]. by eexists _, _. Qed.

Lemma total_randint (a b : Z) : a <= b -> total (random_randint a b).
Proof.
  intros Hab. unfold random_randint.
  destruct (Z.ltb_spec b a) as [?|_]; [lia|apply total_lift_py].
Qed.

(** The value [random.randint(a, b)] returns lies between its bounds. *)
Lemma randint_returns (a b : Z) (w : World) :
  a <= b -> exists n w', random_randint a b w = (Ok n, w') /\ a <= n <= b.
Proof.
  intros Hab. unfold random_randint.
  destruct (Z.ltb_spec b a) as [?|_]; [lia|].
  unfold lift_py. pose proof (rng_randint_range a b (py_rng w) Hab) as Hr.
  destruct (rng_randint a b (py_rng w)) as [n g]. by eexists _, _.
Qed.

(** What [random.sample(range(n), k)] returns for 0 <= k <= n. *)
Lemma sample_returns (n : nat) (k : Z) (w : World) :
  0 <= k <= Z.of_nat n ->
  exists idxs w', random_sample_range n k w = (Ok idxs, w') /\
    Z.of_nat (length idxs) = k /\ NoDup idxs /\ Forall (fun i => (i < n)%nat) idxs.
Proof.
  intros Hk. unfold random_sample_range.
  destruct (Z.ltb_spec k 0) as [?|_]; [lia|].
  destruct (Z.ltb_spec (Z.of_nat n) k) as [?|_]; [lia|]. simpl.
  unfold lift_py.
  destruct (rng_sample_spec n (Z.to_nat k) (py_rng w)) as (H1 & H2 & H3); [lia|].
  destruct (rng_sample n (Z.to_nat k) (py_rng w)) as [idxs g]. simpl in *.
  exists idxs, (set_py g w). repeat split; try done. lia.
Qed.


(** ** Loops over a list *)

(** What a loop [out.append(f(x))] returns when every turn ends
    normally: one result per element. *)
Lemma map_m_returns {A B} (P : A -> Prop) (Q : A -> B -> Prop) (f : A -> M B) (l : list A) :
  (forall x w, P x -> exists y w', f x w = (Ok y, w') /\ Q x y) ->
  Forall P l ->
  forall w, exists out w', map_m f l w = (Ok out, w') /\ Forall2 Q l out.
Proof.
  intros Hf Hl. induction Hl as [|x l Hx Hl IH]; intros w; simpl.
  - by exists [], w.
  - destruct (Hf x w Hx) as (y & w1 & E & Hq).
    destruct (IH w1) as (out & w2 & E2 & Hall).
    exists (y :: out), w2. unfold bind. rewrite E, E2. simpl. split; [done|by constructor].
Qed.

End Facts.
End MonadFacts.

(* ===================================================================== *)
(** * Masking of e-mail addresses *)
(* ===================================================================== *)

Module MaskingFacts.

Import DataAnonymizer PyStrFacts MonadFacts.
Local Open Scope string_scope.

(** [local[0] + '*' * (len(local) - 1) + '@' + domain] *)
Definition starred (local domain : string) : string :=
  first_char local ++ repeat_char "*" (String.length local - 1) ++ "@" ++ domain.

(** What [mask_email] makes of [local@domain]. *)
Definition masked_email (local domain : string) : string :=
  if (2 <=? String.length local)%nat then starred local domain else "*@" ++ domain.

Lemma append_assoc (s t u : string) : (s ++ t) ++ u = s ++ t ++ u.
Proof.
  induction s as [|a s IH]; [done|].
  change (String a ((s ++ t) ++ u) = String a (s ++ t ++ u)). by rewrite IH.
Qed.

Lemma mask_email_spec (local domain : string) :
  contains_char "@" local = false ->
  contains_char "@" domain = false ->
  mask_email (local ++ "@" ++ domain) = masked_email local domain.
Proof.
  intros Hl Hd. unfold mask_email, masked_email.
  change (local ++ "@" ++ domain) with (local ++ String "@" domain).
  rewrite contains_char_app, Hl. simpl.
  rewrite (split_on_first "@" local domain Hl), (split_on_absent "@" domain Hd). simpl.
  destruct (String.length local) as [|[|n]] eqn:E; simpl; try done.
  unfold starred. rewrite E. simpl. by rewrite append_assoc.
Qed.

Section Masking.
Context `{RT : PyRuntime}.

Lemma anonymize_email_medium (data : list Value) (w : World) :
  anonymize_data data "email" "medium" w = (Ok (map (mask_item "email") data), w).
Proof. reflexivity. Qed.

(** C3, as the code has it.  At level medium, an e-mail address
    [local@domain] (one [@]) at position [i] of a column is replaced, at
    the same position, by the first character of [local], one star for
    each further character of [local], [@] and the unchanged [domain]
    whenever [local] has at least two characters; when [local] has one
    character (or none) the replacement is [*@domain], the character is
    not kept. *)
Theorem email_masking (data : list Value) (i : nat) (local domain : string) (w : World) :
  data !! i = Some (VStr (local ++ "@" ++ domain)) ->
  contains_char "@" local = false ->
  contains_char "@" domain = false ->
  exists out,
    anonymize_data data "email" "medium" w = (Ok out, w) /\
    length out = length data /\
    out !! i = Some (VStr (masked_email local domain)).
Proof.
  intros Hi Hl Hd. exists (map (mask_item "email") data).
  split; [apply anonymize_email_medium|]. split; [by rewrite length_map|].
  rewrite list_lookup_fmap, Hi. simpl. unfold mask_item. simpl.
  by rewrite mask_email_spec.
Qed.

End Masking.

(** Scenario 2 of the specification, on the demonstration runtime. *)
Lemma email_masking_witness :
  exists out,
    anonymize_data (RT := DemoRuntime.runtime) [VStr "alice@example.com"] "email" "medium"
      (DemoRuntime.world [] (mkDateTime 738000 0 0) 0)
    = (Ok out, DemoRuntime.world [] (mkDateTime 738000 0 0) 0) /\
    length out = 1%nat /\
    out !! 0%nat = Some (VStr "a****@example.com").
Proof.
  apply (email_masking (RT := DemoRuntime.runtime) [VStr "alice@example.com"] 0
           "alice" "example.com"); reflexivity.
Defined.

(** C3 as stated fails for a local part of one character: the claim
    asks for [a@example.com], the code returns [*@example.com]. *)
Lemma email_masking_single_char_counterexample :
  fst (anonymize_data (RT := DemoRuntime.runtime) [VStr "a@example.com"] "email" "medium"
         (DemoRuntime.world [] (mkDateTime 738000 0 0) 0))
  = Ok [VStr "*@example.com"] /\
  starred "a" "example.com" = "a@example.com" /\
  VStr "*@example.com" <> VStr (starred "a" "example.com").
Proof. split; [reflexivity|]. split; [reflexivity|]. discriminate. Qed.

End MaskingFacts.

(* ===================================================================== *)
(** * Routines that need no fuel *)
(* ===================================================================== *)

Module FuelFacts.
Section Facts.
Context `{RT : PyRuntime}.

(** [finishes m]: the routine ends, normally or with an exception. *)
Definition finishes {A} (m : M A) : Prop := forall w, fst (m w) <> NoFuel.








Lemma finishes_pure {A} (r : Res A) : r <> NoFuel -> finishes (fun w => (r, w)).
Proof. by intros H w. Qed.



Lemma finishes_total {A} (m : M A) : MonadFacts.total m -> finishes m.
Proof. intros H w. destruct (H w) as (a & w' & E). by rewrite E. Qed.




End Facts.


Ltac finishes_unfold :=
  progress unfold random_randint, random_uniform, random_random,
    random_sample_range, random_choice, np_random_normal,
    np_random_lognormal, np_random_laplace,
    as_num, as_int, as_str, val_min, val_max, val_round.


End FuelFacts.

(* ===================================================================== *)
(** * The noise routines with a non-positive epsilon *)
(* ===================================================================== *)

Module NoiseFacts.
Import DifferentialPrivacy.

Section Noise.
Context `{RT : PyRuntime}.

(** C10.  With [epsilon <= 0] both noise routines return their input
    list as it is; no noise is drawn, the world is left as it was. *)
Theorem noise_disabled (epsilon : Q) (data : list Value) (sensitivity delta : Q) (w : World) :
  (epsilon <= 0)%Q ->
  add_laplace_noise epsilon data sensitivity w = (Ok data, w) /\
  add_gaussian_noise epsilon data sensitivity delta w = (Ok data, w).
Proof.
  intros Heps. apply Qle_bool_iff in Heps.
  unfold add_laplace_noise, add_gaussian_noise, Qleb. by rewrite Heps.
Qed.

End Noise.

Lemma noise_disabled_witness :
  add_laplace_noise (RT := DemoRuntime.runtime) (-1) [VInt 100; VNone; VFloat (5 # 2)] 1
    (DemoRuntime.world [] (mkDateTime 738000 0 0) 0)
  = (Ok [VInt 100; VNone; VFloat (5 # 2)], DemoRuntime.world [] (mkDateTime 738000 0 0) 0) /\
  add_gaussian_noise (RT := DemoRuntime.runtime) (-1) [VInt 100; VNone; VFloat (5 # 2)] 1
    (1 # 100000) (DemoRuntime.world [] (mkDateTime 738000 0 0) 0)
  = (Ok [VInt 100; VNone; VFloat (5 # 2)], DemoRuntime.world [] (mkDateTime 738000 0 0) 0).
Proof.
  apply (noise_disabled (RT := DemoRuntime.runtime) (-1)). by vm_compute.
Defined.

End NoiseFacts.

(* ===================================================================== *)
(** * Null entries stay null *)
(* ===================================================================== *)

Module NullFacts.
Import DataAnonymizer DifferentialPrivacy MonadFacts FuelFacts.

Section Nulls.
Context `{RT : PyRuntime}.








(** ** The anonymization routines *)






Lemma total_new_alias (field_type : string) (n : nat) : total (new_alias field_type n).
Proof.
  unfold new_alias.
  repeat match goal with
         | |- total (if ?b then _ else _) => destruct b
         | |- total (ret _) => apply total_ret
         | |- total (bind _ _) => apply total_bind; [|intros ?]
         | |- total (random_randint _ _) => apply total_randint; lia
         end.
Qed.




(** ** The noise routines *)


Lemma Qltb_nonneg (x : Q) : (0 <= x)%Q -> Qltb x 0 = false.
Proof. intros H. unfold Qltb. apply Qle_bool_iff in H. by rewrite H. Qed.





End Nulls.


End NullFacts.

(* ===================================================================== *)
(** * Equality of values is an equivalence *)
(* ===================================================================== *)

Module PyEqFacts.

Lemma other_eqb_eq (a b : Value) :
  num_of a = None -> other_eqb a b = true -> a = b.
Proof.
  destruct a, b; simpl; try done; intros _ H.
  - by apply String.eqb_eq in H as ->.
  - by apply Z.eqb_eq in H as ->.
  - destruct d, d0. simpl in H.
    apply andb_prop in H as [H H3]. apply andb_prop in H as [H1 H2].
    apply Z.eqb_eq in H1, H2, H3. by subst.
  - by apply Z.eqb_eq in H as ->.
Qed.

Lemma other_eqb_refl (a : Value) : num_of a = None -> other_eqb a a = true.
Proof.
  destruct a; simpl; try done; intros _.
  - apply String.eqb_refl.
  - apply Z.eqb_refl.
  - by rewrite !Z.eqb_refl.
  - apply Z.eqb_refl.
Qed.

Lemma py_eqb_refl (a : Value) : py_eqb a a = true.
Proof.
  unfold py_eqb. destruct (num_of a) eqn:E.
  - apply Qeq_bool_iff. reflexivity.
  - by apply other_eqb_refl.
Qed.

Lemma py_eqb_sym (a b : Value) : py_eqb a b = py_eqb b a.
Proof.
  unfold py_eqb. destruct (num_of a) eqn:Ea, (num_of b) eqn:Eb; try done.
  - apply eq_true_iff_eq. rewrite !Qeq_bool_iff. split; intros H; by symmetry.
  - destruct (other_eqb a b) eqn:E1.
    + apply other_eqb_eq in E1 as ->; [|done]. symmetry. by apply other_eqb_refl.
    + destruct (other_eqb b a) eqn:E2; [|done].
      apply other_eqb_eq in E2 as ->; [|done]. by rewrite other_eqb_refl in E1.
Qed.

Lemma py_eqb_trans (a b c : Value) :
  py_eqb a b = true -> py_eqb b c = true -> py_eqb a c = true.
Proof.
  unfold py_eqb.
  destruct (num_of a) eqn:Ea, (num_of b) eqn:Eb, (num_of c) eqn:Ec; try done.
  - rewrite !Qeq_bool_iff. intros H1 H2. by rewrite H1.
  - intros H1 H2. apply other_eqb_eq in H1 as ->; done.
Qed.

End PyEqFacts.

(* ===================================================================== *)
(** * k-anonymity *)
(* ===================================================================== *)

Module KAnonymityFacts.
Import DifferentialPrivacy PyEqFacts.

(** ** Equality of tuples *)




Section Groups.
Variable quasi_identifiers : list string.

(** ** The groups, defined from the data alone *)











(** ** Adding a record at the end of the data *)









(** ** The first loop builds the partition *)






(** ** The second loop *)

Definition sizes_of (groups : list (list Value * list Record_)) : list Z :=
  map (fun g => Z.of_nat (length (snd g))) groups.

Lemma scan_from (k : Z) (groups : list (list Value * list Record_)) :
  forall (v0 : Z) (m0 : GroupSize),
    foldl (fun '(violations, min_group_size) '(_, group_records) =>
             let group_size := Z.of_nat (length group_records) in
             (if (group_size <? k)%Z then (violations + 1)%Z else violations,
              min_size min_group_size group_size))
          (v0, m0) groups
    = ((v0 + Z.of_nat (length (filter (fun s => (s < k)%Z) (sizes_of groups))))%Z,
       foldl min_size m0 (sizes_of groups)).
Proof.
  induction groups as [|[key records] groups IH]; intros v0 m0; simpl.
  - f_equal. lia.
  - rewrite IH. f_equal. rewrite filter_cons.
    destruct (Z.ltb_spec (Z.of_nat (length records)) k) as [Hlt|Hge].
    + rewrite decide_True by done. simpl. lia.
    + rewrite decide_False by lia. done.
Qed.

Lemma min_size_fold (sizes : list Z) : forall m : Z,
  exists m', foldl min_size (Size m) sizes = Size m' /\
    m' ∈ m :: sizes /\ forall s, s ∈ m :: sizes -> (m' <= s)%Z.
Proof.
  induction sizes as [|x sizes IH]; intros m; simpl.
  - exists m. split; [done|]. split; [by left|].
    intros s Hs. apply list_elem_of_singleton in Hs as ->. lia.
  - destruct (Z.ltb_spec x m) as [Hlt|Hge].
    + destruct (IH x) as (m' & E & Hin & Hmin). exists m'.
      split; [done|]. split; [by right|].
      intros s Hs. apply elem_of_cons in Hs as [->|Hs]; [|by apply Hmin].
      specialize (Hmin x (list_elem_of_here _ _)). lia.
    + destruct (IH m) as (m' & E & Hin & Hmin). exists m'.
      split; [done|]. split.
      * apply elem_of_cons in Hin as [->|Hin]; [by left|by do 2 right].
      * intros s Hs. apply elem_of_cons in Hs as [->|Hs]; [apply Hmin; by left|].
        apply elem_of_cons in Hs as [->|Hs].
        -- specialize (Hmin m (list_elem_of_here _ _)). lia.
        -- apply Hmin. by right.
Qed.



End Groups.


End KAnonymityFacts.

Module KAnonymityExample.
Import DifferentialPrivacy KAnonymityFacts.
Local Open Scope string_scope.

(** Three patients, two of them in the same postal area. *)
Definition patients : list Record_ :=
  [ {[ "zip" := VStr "12345"; "age" := VInt 30 ]};
    {[ "zip" := VStr "12345"; "age" := VInt 41 ]};
    {[ "zip" := VStr "99999"; "age" := VInt 30 ]} ].


(** The same check, evaluated. *)
Example patients_checked :
  check_k_anonymity patients ["zip"] 2
  = mkKAnonymity false (Size 1) 1 2 (Some 2).
Proof. by vm_compute. Qed.

End KAnonymityExample.

(* ===================================================================== *)
(** * De-duplication through a set *)
(* ===================================================================== *)

Module DedupFacts.
Import PyEqFacts.

(** No two elements are equal in the sense of [==]. *)
Inductive PyNoDup : list Value -> Prop :=
| PyNoDup_nil : PyNoDup []
| PyNoDup_cons x l : py_in x l = false -> PyNoDup l -> PyNoDup (x :: l).

Lemma py_in_app (x : Value) (l k : list Value) :
  py_in x (l ++ k) = py_in x l || py_in x k.
Proof. apply existsb_app. Qed.

Lemma py_in_Permutation (x : Value) (l k : list Value) :
  Permutation l k -> py_in x l = py_in x k.
Proof.
  induction 1 as [|y l k _ IH|y z l|l k m _ IH1 _ IH2]; simpl.
  - done.
  - by rewrite IH.
  - by destruct (py_eqb x y), (py_eqb x z).
  - by rewrite IH1.
Qed.

Lemma PyNoDup_Permutation (l k : list Value) :
  Permutation l k -> PyNoDup l -> PyNoDup k.
Proof.
  induction 1 as [|y l k Hp IH|y z l|l k m _ IH1 _ IH2]; intros Hl.
  - done.
  - inversion Hl as [|? ? Hy Hl']; subst. constructor; [|by apply IH].
    by rewrite <- (py_in_Permutation y l k Hp).
  - inversion Hl as [|? ? Hz Hl']; subst. inversion Hl' as [|? ? Hy Hl'']; subst.
    simpl in Hz. apply orb_false_iff in Hz as [Hzy Hz].
    constructor; [|by constructor].
    simpl. by rewrite py_eqb_sym, Hzy.
  - by apply IH2, IH1.
Qed.

(** Equal elements of such a list sit at the same position. *)
Lemma PyNoDup_lookup (l : list Value) (i j : nat) (x y : Value) :
  PyNoDup l -> l !! i = Some x -> l !! j = Some y -> py_eqb x y = true -> i = j.
Proof.
  intros Hl. revert i j. induction Hl as [|z l Hz Hl IH]; intros i j Hi Hj Hxy.
  - done.
  - assert (Hnot : forall k v, l !! k = Some v -> py_eqb z v = false).
    { intros k v Hk. destruct (py_eqb z v) eqn:E; [|done].
      assert (py_in z l = true); [|congruence].
      apply existsb_exists. exists v. split; [|done].
      apply list_elem_of_In. by eapply list_elem_of_lookup_2. }
    destruct i as [|i], j as [|j]; simpl in *.
    + done.
    + injection Hi as ->. by rewrite (Hnot j y Hj) in Hxy.
    + injection Hj as ->. rewrite py_eqb_sym, (Hnot i x Hi) in Hxy. done.
    + f_equal. by eapply IH.
Qed.

Lemma dedup_from_distinct (l seen : list Value) :
  PyNoDup (dedup_from seen l) /\
  Forall (fun x => py_in x seen = false) (dedup_from seen l).
Proof.
  revert seen. induction l as [|x l IH]; intros seen; simpl.
  - split; constructor.
  - destruct (py_in x seen) eqn:Hx; [apply IH|].
    destruct (IH (x :: seen)) as [IH1 IH2].
    assert (Hfar : Forall (fun y => py_eqb y x = false /\ py_in y seen = false)
                          (dedup_from (x :: seen) l)).
    { eapply Forall_impl; [exact IH2|]. simpl. intros y Hy.
      by apply orb_false_iff in Hy. }
    split.
    + constructor; [|done]. unfold py_in. apply not_true_is_false. intros H.
      apply existsb_exists in H as (y & Hy & Hxy).
      apply list_elem_of_In in Hy. rewrite Forall_forall in Hfar.
      destruct (Hfar y Hy) as [Hyx _]. rewrite py_eqb_sym in Hyx. congruence.
    + constructor; [done|]. eapply Forall_impl; [exact Hfar|]. by intros y [_ ?].
Qed.

Lemma py_dedup_distinct (l : list Value) : PyNoDup (py_dedup l).
Proof. apply dedup_from_distinct. Qed.

Lemma dedup_from_sublist (l seen : list Value) : sublist (dedup_from seen l) l.
Proof.
  revert seen. induction l as [|x l IH]; intros seen; simpl; [done|].
  destruct (py_in x seen); [apply sublist_cons, IH|apply sublist_skip, IH].
Qed.

Lemma py_in_proper (x y : Value) (l : list Value) :
  py_eqb x y = true -> py_in x l = py_in y l.
Proof.
  intros H. induction l as [|z l IH]; simpl; [done|]. rewrite IH. f_equal.
  apply eq_true_iff_eq. split; intros Hz.
  - apply (py_eqb_trans y x z); [by rewrite py_eqb_sym|done].
  - by apply (py_eqb_trans x y z).
Qed.

(** Every value of the list is equal to a value that was kept, or to
    one seen before. *)
Lemma dedup_from_cover (l seen : list Value) (x : Value) :
  py_in x (seen ++ l) = py_in x (seen ++ dedup_from seen l).
Proof.
  revert seen. induction l as [|y l IH]; intros seen; simpl; [done|].
  assert (E : forall k, py_in x (seen ++ y :: k) = py_in x ((y :: seen) ++ k)).
  { intros k. rewrite !py_in_app. simpl.
    destruct (py_eqb x y), (py_in x seen); done. }
  destruct (py_in y seen) eqn:Hy.
  - rewrite <- IH, !py_in_app. simpl.
    destruct (py_eqb x y) eqn:Hxy; [|done]. simpl.
    by rewrite (py_in_proper x y seen Hxy), Hy.
  - by rewrite E, IH, <- E.
Qed.

Lemma py_dedup_cover (l : list Value) (x : Value) : py_in x l = py_in x (py_dedup l).
Proof. apply (dedup_from_cover l [] x). Qed.

(** The set has as many elements as the list exactly when the list had
    no two equal values. *)
Lemma dedup_from_length (l seen : list Value) :
  (length (dedup_from seen l) <= length l)%nat /\
  (length (dedup_from seen l) = length l <->
   PyNoDup l /\ Forall (fun x => py_in x seen = false) l).
Proof.
  revert seen. induction l as [|x l IH]; intros seen; simpl.
  - split; [done|]. split; [intros _; split; constructor|done].
  - destruct (IH seen) as [IHa _]. destruct (IH (x :: seen)) as [IHb IHc].
    destruct (py_in x seen) eqn:Hx.
    + split; [lia|]. split; [lia|].
      intros [_ H]. apply Forall_cons in H as [H _]. congruence.
    + simpl. split; [lia|]. split.
      * intros H. assert (H' : length (dedup_from (x :: seen) l) = length l) by lia.
        apply IHc in H' as [H1 H2]. split.
        -- constructor; [|done]. unfold py_in. apply not_true_is_false. intros Hin.
           apply existsb_exists in Hin as (y & Hy & Hxy).
           apply list_elem_of_In in Hy. rewrite Forall_forall in H2.
           specialize (H2 y Hy). simpl in H2. apply orb_false_iff in H2 as [H2 _].
           rewrite py_eqb_sym in H2. congruence.
        -- constructor; [done|]. eapply Forall_impl; [exact H2|].
           simpl. intros y Hy. by apply orb_false_iff in Hy as [_ ?].
      * intros [H1 H2]. inversion H1 as [|? ? Hxl Hl]; subst.
        apply Forall_cons in H2 as [_ H2]. f_equal. apply IHc. split; [done|].
        apply Forall_forall. intros y Hy. simpl. apply orb_false_iff. split.
        -- destruct (py_eqb y x) eqn:E; [|done].
           assert (py_in x l = true); [|congruence].
           apply existsb_exists. exists y. split; [by apply list_elem_of_In|].
           by rewrite py_eqb_sym.
        -- rewrite Forall_forall in H2. by apply H2.
Qed.

Lemma py_dedup_length (l : list Value) :
  (length (py_dedup l) <= length l)%nat /\
  (length (py_dedup l) = length l <-> PyNoDup l).
Proof.
  destruct (dedup_from_length l []) as [H1 H2]. split; [done|].
  rewrite H2. split; [by intros [? _]|]. intros H. split; [done|].
  by apply Forall_true.
Qed.

End DedupFacts.

(* ===================================================================== *)
(** * The constraint engine: null rate and uniqueness *)
(* ===================================================================== *)

Module ConstraintFacts.
Import BaseGenerator MonadFacts DedupFacts.
Local Open Scope string_scope.

Lemma scaled_nonneg (n : nat) (q : Q) :
  (0 <= q)%Q -> (0 <= inject_Z (Z.of_nat n) * q / 100)%Q.
Proof.
  intros Hq.
  assert (Hn : (0 <= inject_Z (Z.of_nat n))%Q).
  { change 0%Q with (inject_Z 0). rewrite <- Zle_Qle. lia. }
  apply Qle_shift_div_l; [reflexivity|]. rewrite Qmult_0_l.
  by apply Qmult_le_0_compat.
Qed.

Lemma scaled_le (n : nat) (q : Q) :
  (q <= 100)%Q -> (inject_Z (Z.of_nat n) * q / 100 <= inject_Z (Z.of_nat n))%Q.
Proof.
  intros Hq.
  assert (Hn : (0 <= inject_Z (Z.of_nat n))%Q).
  { change 0%Q with (inject_Z 0). rewrite <- Zle_Qle. lia. }
  apply Qle_shift_div_r; [reflexivity|]. nra.
Qed.

(** [int(n * p / 100)] is the floor of [n * p / 100] and at most [n],
    for a percentage [p] between 0 and 100. *)
Lemma percent_count_floor (n : nat) (q : Q) :
  (0 <= q <= 100)%Q ->
  percent_count n q = Qfloor (inject_Z (Z.of_nat n) * q / 100) /\
  (0 <= percent_count n q <= Z.of_nat n)%Z.
Proof.
  intros [Hlo Hhi]. unfold percent_count, py_int.
  pose proof (scaled_nonneg n q Hlo) as H0.
  pose proof (scaled_le n q Hhi) as H1.
  apply Qle_bool_iff in H0 as H0'. rewrite H0'. split; [done|]. split.
  - etransitivity; [|apply Qfloor_resp_le, H0]. done.
  - etransitivity; [apply Qfloor_resp_le, H1|]. by rewrite Qfloor_Z.
Qed.


(** After [for idx in idxs: data[idx] = None] the positions listed hold
    [None] and every other position holds what it held. *)
Lemma set_nulls_lookup (idxs : list nat) (data : list Value) (i : nat) :
  Forall (fun j => (j < length data)%nat) idxs ->
  set_nulls idxs data !! i = if decide (i ∈ idxs) then Some VNone else data !! i.
Proof.
  revert data. induction idxs as [|j idxs IH]; intros data Hall.
  - destruct (decide (i ∈ [])) as [H|_]; [by apply elem_of_nil in H|done].
  - apply Forall_cons in Hall as [Hj Hall].
    unfold set_nulls in *. cbn [foldl]. rewrite IH.
    2:{ eapply Forall_impl; [exact Hall|]. intros k Hk. by rewrite length_insert. }
    destruct (decide (i ∈ idxs)) as [Hin|Hnin].
    + destruct (decide (i ∈ j :: idxs)) as [_|Hn]; [done|]. destruct Hn. by right.
    + destruct (decide (i = j)) as [->|Hne].
      * destruct (decide (j ∈ j :: idxs)) as [_|Hn]; [|destruct Hn; left].
        by apply list_lookup_insert_eq.
      * destruct (decide (i ∈ j :: idxs)) as [H|_].
        -- apply elem_of_cons in H as [?|?]; done.
        -- by apply list_lookup_insert_ne.
Qed.

Section Constraints.
Context `{RT : PyRuntime}.

Lemma apply_unique_off (fuel : nat) (self_generate : Z -> gmap string Value -> M (list Value))
    (data : list Value) (constraints : gmap string Value) (w : World) :
  py_truthy (arg constraints "unique" (VBool false)) = false ->
  apply_unique fuel self_generate data constraints w = (Ok data, w).
Proof. intros H. unfold apply_unique. by rewrite H. Qed.


(** ** Uniqueness *)

(** The guard of the regeneration loop. *)
Lemma regeneration_guard (data : list Value) : (length data <? length data)%nat = false.
Proof. apply Nat.ltb_irrefl. Qed.

(** The loop ends at its first test: no value is regenerated. *)
Lemma regeneration_never_runs (fuel : nat)
    (self_generate : Z -> gmap string Value -> M (list Value))
    (constraints : gmap string Value) (data : list Value) (w : World) :
  while_loop (S fuel) (fun data => (length data <? length data)%nat)
    (regenerate_one self_generate constraints) data w = (Ok data, w).
Proof. simpl. by rewrite regeneration_guard. Qed.

(** C2.  With a true [unique] constraint, and whatever column [d1] the
    [null_percentage] step left, [apply_constraints] ends normally (given
    fuel for one test of the loop guard) with a rearrangement of the
    values a set built from [d1] holds: no two of them are equal, every
    value of [d1] is equal to one of them, and there are at most as many
    as in the input, exactly as many only if [d1] held no value twice.
    The guard of the regeneration loop is false for every column, the
    loop returns at once without calling [generate], and the world is the
    one the [null_percentage] step left. *)
Theorem unique_shrinks (fuel : nat) (self_generate : Z -> gmap string Value -> M (list Value))
    (data d1 : list Value) (constraints : gmap string Value) (w w1 : World) :
  py_truthy (arg constraints "unique" (VBool false)) = true ->
  apply_null_percentage data constraints w = (Ok d1, w1) ->
  exists out,
    apply_constraints (S fuel) self_generate data constraints w = (Ok out, w1) /\
    Permutation out (py_dedup d1) /\
    PyNoDup out /\
    (forall x, x ∈ d1 -> py_in x out = true) /\
    (length out <= length d1)%nat /\
    (length out = length d1 <-> PyNoDup d1) /\
    (forall d : list Value, (length d <? length d)%nat = false) /\
    (forall d w', while_loop (S fuel) (fun data : list Value => (length data <? length data)%nat)
                    (regenerate_one self_generate constraints) d w' = (Ok d, w')).
Proof.
  intros Huniq Hnull. unfold apply_constraints.
  destruct (decide (constraints = ∅)) as [->|_].
  { unfold arg in Huniq. by rewrite lookup_empty in Huniq. }
  unfold bind. rewrite Hnull. unfold apply_unique. rewrite Huniq.
  unfold bind, list_of_set. rewrite regeneration_never_runs.
  pose proof (set_order_perm (hash_salt w1) (py_dedup d1)) as Hperm.
  destruct (py_dedup_length d1) as [Hle Hiff].
  exists (set_order (hash_salt w1) (py_dedup d1)).
  split; [done|]. split; [done|]. split.
  { eapply PyNoDup_Permutation; [symmetry; exact Hperm|apply py_dedup_distinct]. }
  split.
  { intros x Hx. rewrite (py_in_Permutation x _ _ Hperm), <- py_dedup_cover.
    apply existsb_exists. exists x. split; [by apply list_elem_of_In|].
    apply PyEqFacts.py_eqb_refl. }
  rewrite (Permutation_length Hperm).
  split; [done|]. split; [done|]. split; [apply regeneration_guard|].
  intros d w'. apply regeneration_never_runs.
Qed.

End Constraints.


(** Scenario 4 in small: five integers from a range of two values. *)
Lemma unique_shrinks_witness :
  exists out,
    apply_constraints (RT := DemoRuntime.runtime) 1 (fun _ _ => ret [])
      [VInt 1; VInt 2; VInt 1; VInt 1; VInt 2] {[ "unique" := VBool true ]}
      (DemoRuntime.world [] (mkDateTime 738000 0 0) 0)
    = (Ok out, DemoRuntime.world [] (mkDateTime 738000 0 0) 0) /\
    Permutation out (py_dedup [VInt 1; VInt 2; VInt 1; VInt 1; VInt 2]) /\
    PyNoDup out /\
    (forall x, x ∈ [VInt 1; VInt 2; VInt 1; VInt 1; VInt 2] -> py_in x out = true) /\
    (length out <= length [VInt 1; VInt 2; VInt 1; VInt 1; VInt 2])%nat /\
    (length out = length [VInt 1; VInt 2; VInt 1; VInt 1; VInt 2]
     <-> PyNoDup [VInt 1; VInt 2; VInt 1; VInt 1; VInt 2]) /\
    (forall d : list Value, (length d <? length d)%nat = false) /\
    (forall d w',
       while_loop (RT := DemoRuntime.runtime) 1
         (fun data : list Value => (length data <? length data)%nat)
         (regenerate_one (fun _ _ => ret []) {[ "unique" := VBool true ]}) d w' = (Ok d, w')).
Proof.
  apply (unique_shrinks (RT := DemoRuntime.runtime) 0 (fun _ _ => ret [])
           [VInt 1; VInt 2; VInt 1; VInt 1; VInt 2]); reflexivity.
Defined.

(** The column of the witness shrinks from five values to two. *)
Example unique_shrinks_run :
  fst (apply_constraints (RT := DemoRuntime.runtime) 1 (fun _ _ => ret [])
         [VInt 1; VInt 2; VInt 1; VInt 1; VInt 2] {[ "unique" := VBool true ]}
         (DemoRuntime.world [] (mkDateTime 738000 0 0) 0))
  = Ok [VInt 1; VInt 2].
Proof. by vm_compute. Qed.

End ConstraintFacts.

(* ===================================================================== *)
(** * Pseudonymization *)
(* ===================================================================== *)

Module PseudonymFacts.
Import DataAnonymizer MonadFacts.
Local Open Scope string_scope.

(** ** Strings of integers *)

Lemma str_of_Z_inj (a b : Z) : str_of_Z a = str_of_Z b -> a = b.
Proof.
  unfold str_of_Z. intros H. apply DecimalZ.to_int_inj.
  assert (Hn : forall z, Z.to_int z <> Decimal.Pos Decimal.Nil /\
                         Z.to_int z <> Decimal.Neg Decimal.Nil).
  { intros [|p|p]; simpl; split; try discriminate; intros E; injection E as E;
      by apply (DecimalPos.Unsigned.to_uint_nonnil p). }
  destruct (Hn a) as [Ha1 Ha2], (Hn b) as [Hb1 Hb2].
  pose proof (NilZero.isi _ Ha1 Ha2) as E1. pose proof (NilZero.isi _ Hb1 Hb2) as E2.
  rewrite H in E1. congruence.
Qed.

Lemma length_append (s t : string) :
  String.length (s ++ t) = (String.length s + String.length t)%nat.
Proof.
  induction s as [|a s IH]; [done|].
  change (S (String.length (s ++ t)) = S (String.length s + String.length t)).
  by rewrite IH.
Qed.

Lemma append_inj_r (s1 s2 t : string) : s1 ++ t = s2 ++ t -> s1 = s2.
Proof.
  revert s2. induction s1 as [|a s1 IH]; intros [|b s2] H.
  - done.
  - apply (f_equal String.length) in H. rewrite !length_append in H.
    simpl in H. lia.
  - apply (f_equal String.length) in H. rewrite !length_append in H.
    simpl in H. lia.
  - change (String a (s1 ++ t) = String b (s2 ++ t)) in H.
    injection H as -> H. f_equal. by apply IH.
Qed.

(** ** The order in which strings are first seen *)

(** The strings of [l] that are not in [seen], each once, in the order
    of their first occurrence. *)
Fixpoint first_seen_from (seen l : list string) : list string :=
  match l with
  | [] => []
  | s :: l' =>
      if decide (s ∈ seen) then first_seen_from seen l'
      else s :: first_seen_from (seen ++ [s]) l'
  end.

Definition first_seen (l : list string) : list string := first_seen_from [] l.

(** The index of the first occurrence of [s] in [l]. *)
Fixpoint position (s : string) (l : list string) : option nat :=
  match l with
  | [] => None
  | x :: l' => if decide (x = s) then Some 0%nat else S <$> position s l'
  end.

Lemma position_None (s : string) (l : list string) : position s l = None <-> s ∉ l.
Proof.
  induction l as [|x l IH]; simpl.
  - split; [intros _; apply not_elem_of_nil|done].
  - destruct (decide (x = s)) as [->|Hne].
    + split; [done|]. intros H. destruct H. left.
    + rewrite fmap_None, IH. rewrite not_elem_of_cons.
      split; [intros ?; split; [congruence|done]|by intros [_ ?]].
Qed.

Lemma position_lookup (s : string) (l : list string) (n : nat) :
  position s l = Some n -> l !! n = Some s.
Proof.
  revert n. induction l as [|x l IH]; intros n; simpl; [done|].
  destruct (decide (x = s)) as [->|Hne].
  - by intros [= <-].
  - intros H. apply fmap_Some in H as (m & Hm & ->). by apply IH.
Qed.

Lemma position_app (s : string) (l k : list string) :
  position s (l ++ k)
  = match position s l with
    | Some n => Some n
    | None => (fun n => (length l + n)%nat) <$> position s k
    end.
Proof.
  induction l as [|x l IH]; simpl.
  - by destruct (position s k).
  - destruct (decide (x = s)); [done|]. rewrite IH.
    destruct (position s l); [done|]. by destruct (position s k).
Qed.

(** ** Aliases *)

(** The alias number [k] of the two numbered field types. *)
Definition numbered_alias (field_type : string) (k : nat) : string :=
  if String.eqb field_type "email" then "user" ++ str_of_Z (Z.of_nat k) ++ "@example.com"
  else "Person " ++ str_of_Z (Z.of_nat k).

Definition numbered (field_type : string) : Prop :=
  field_type = "email" \/ field_type = "name".

Definition pii (field_type : string) : Prop :=
  field_type = "email" \/ field_type = "name" \/
  field_type = "phone" \/ field_type = "address".

Lemma numbered_alias_inj (field_type : string) (k k' : nat) :
  numbered_alias field_type k = numbered_alias field_type k' -> k = k'.
Proof.
  unfold numbered_alias. destruct (String.eqb field_type "email"); intros H.
  - apply (String.app_inj "user") in H. apply append_inj_r, str_of_Z_inj in H. lia.
  - apply (String.app_inj "Person ") in H. apply str_of_Z_inj in H. lia.
Qed.

Section Pseudonyms.
Context `{RT : PyRuntime}.

(** The strings of the entries that are not [None], in order. *)
Definition originals (data : list Value) : list string :=
  map py_str (filter (fun v => is_none v = false) data).

Lemma new_alias_numbered (field_type : string) (n : nat) (w : World) :
  numbered field_type ->
  new_alias field_type n w = (Ok (numbered_alias field_type (S n)), w).
Proof.
  assert (E : (Z.of_nat n + 1)%Z = Z.of_nat (S n)) by lia.
  intros [->| ->]; unfold new_alias, numbered_alias; simpl; by rewrite E.
Qed.

(** ** Equal originals, equal aliases: every field type *)

(** The loop returns, for each entry that is not [None], what the final
    dictionary holds for its string; the dictionary only grows. *)
Lemma pseudonymize_from_lookup (field_type : string) (data : list Value) :
  forall (pm : gmap string string) (w : World),
  exists out w' (final : gmap string string),
    pseudonymize_from field_type pm data w = (Ok out, w') /\
    pm ⊆ final /\
    length out = length data /\
    forall i v, data !! i = Some v -> v <> VNone ->
      exists alias, final !! py_str v = Some alias /\ out !! i = Some (VStr alias).
Proof.
  induction data as [|item rest IH]; intros pm w; simpl.
  - exists [], w, pm. by repeat split.
  - destruct (is_none item) eqn:Enone.
    + destruct (IH pm w) as (out & w' & final & E & Hsub & Hlen & Hout).
      exists (VNone :: out), w', final. unfold bind. rewrite E. simpl.
      split; [done|]. split; [done|]. split; [by rewrite Hlen|].
      intros [|i] v Hi Hv; simpl in *; [|by apply Hout].
      injection Hi as <-. by destruct item.
    + assert (Hpm : exists pm1 w1 alias,
                (match pm !! py_str item with
                 | Some _ => ret pm
                 | None => bind (new_alias field_type (size pm))
                             (fun alias => ret (<[py_str item := alias]> pm))
                 end) w = (Ok pm1, w1) /\ pm ⊆ pm1 /\ pm1 !! py_str item = Some alias).
      { destruct (pm !! py_str item) as [a|] eqn:Ea.
        - by exists pm, w, a.
        - destruct (NullFacts.total_new_alias field_type (size pm) w) as (a & w1 & E1).
          exists (<[py_str item := a]> pm), w1, a. unfold bind. rewrite E1.
          split; [done|]. split; [by apply insert_subseteq|by apply lookup_insert_eq]. }
      destruct Hpm as (pm1 & w1 & alias & E1 & Hsub1 & Halias).
      destruct (IH pm1 w1) as (out & w' & final & E & Hsub & Hlen & Hout).
      exists (VStr (default "" (pm1 !! py_str item)) :: out), w', final.
      unfold bind at 1. rewrite E1. unfold bind. rewrite E. simpl.
      split; [done|]. split; [by etransitivity|]. split; [by rewrite Hlen|].
      intros [|i] v Hi Hv; simpl in *; [|by apply Hout].
      injection Hi as <-. exists alias. rewrite Halias. split; [|done].
      by eapply lookup_weaken.
Qed.

(** ** Numbering in first-seen order: e-mail addresses and names *)

(** [pm] numbers the strings of [seen] from 1, in order. *)
Definition numbers (field_type : string) (pm : gmap string string) (seen : list string) : Prop :=
  size pm = length seen /\
  forall s, pm !! s = (fun n => numbered_alias field_type (S n)) <$> position s seen.

Lemma numbers_empty (field_type : string) : numbers field_type ∅ [].
Proof. split; [done|]. intros s. by rewrite lookup_empty. Qed.

Lemma numbers_insert (field_type : string) (pm : gmap string string)
    (seen : list string) (s : string) :
  numbers field_type pm seen -> pm !! s = None ->
  numbers field_type (<[s := numbered_alias field_type (S (size pm))]> pm) (seen ++ [s]).
Proof.
  intros [Hsize Hpm] Hs. split.
  - rewrite map_size_insert_None by done. rewrite length_app. simpl. lia.
  - intros t. rewrite position_app. destruct (decide (s = t)) as [<-|Hne].
    + rewrite lookup_insert_eq. rewrite Hpm in Hs. apply fmap_None in Hs. rewrite Hs.
      simpl. rewrite decide_True by done. simpl. by rewrite Hsize, Nat.add_0_r.
    + rewrite lookup_insert_ne by done. rewrite Hpm.
      destruct (position t seen); [done|]. simpl. by rewrite decide_False.
Qed.

Lemma pseudonymize_from_numbered (field_type : string) (data : list Value) :
  numbered field_type ->
  forall (pm : gmap string string) (seen : list string) (w : World),
    numbers field_type pm seen ->
    exists out,
      pseudonymize_from field_type pm data w = (Ok out, w) /\
      forall i v, data !! i = Some v -> v <> VNone ->
        exists n,
          position (py_str v) (seen ++ first_seen_from seen (originals data)) = Some n /\
          out !! i = Some (VStr (numbered_alias field_type (S n))).
Proof.
  intros Hft. induction data as [|item rest IH]; intros pm seen w Hnum; simpl.
  - by exists [].
  - destruct (is_none item) eqn:Enone.
    + destruct (IH pm seen w Hnum) as (out & E & Hout).
      exists (VNone :: out). unfold bind. rewrite E. split; [done|].
      assert (Eo : originals (item :: rest) = originals rest).
      { unfold originals. rewrite filter_cons, decide_False; [done|congruence]. }
      rewrite Eo. intros [|i] v Hi Hv; simpl in *; [|by apply Hout].
      injection Hi as <-. by destruct item.
    + assert (Eo : originals (item :: rest) = py_str item :: originals rest).
      { unfold originals. by rewrite filter_cons, decide_True. }
      rewrite Eo. simpl. destruct Hnum as [Hsize Hpm].
      destruct (pm !! py_str item) as [a|] eqn:Ea.
      * assert (Hin : py_str item ∈ seen).
        { destruct (decide (py_str item ∈ seen)) as [|Hn]; [done|].
          apply position_None in Hn. rewrite Hpm, Hn in Ea. done. }
        rewrite decide_True by done.
        destruct (IH pm seen w (conj Hsize Hpm)) as (out & E & Hout).
        exists (VStr (default "" (pm !! py_str item)) :: out).
        unfold bind. simpl. rewrite E. split; [done|].
        intros [|i] v Hi Hv; simpl in *; [|by apply Hout].
        injection Hi as <-. rewrite Ea. simpl.
        rewrite Hpm in Ea. apply fmap_Some in Ea as (n & Hn & ->).
        exists n. split; [|done]. by rewrite position_app, Hn.
      * assert (Hnin : py_str item ∉ seen).
        { apply position_None. rewrite Hpm in Ea. by apply fmap_None in Ea. }
        rewrite decide_False by done.
        pose proof (numbers_insert field_type pm seen (py_str item) (conj Hsize Hpm) Ea) as Hnum1.
        destruct (IH _ _ w Hnum1) as (out & E & Hout).
        exists (VStr (numbered_alias field_type (S (size pm))) :: out).
        unfold bind at 1. unfold bind at 1. rewrite new_alias_numbered by done.
        unfold ret at 1. unfold bind. rewrite E. rewrite lookup_insert_eq. simpl.
        split; [done|].
        replace (seen ++ py_str item :: first_seen_from (seen ++ [py_str item]) (originals rest))%list
          with ((seen ++ [py_str item]) ++ first_seen_from (seen ++ [py_str item]) (originals rest))%list
          by (by rewrite <- app_assoc).
        intros [|i] v Hi Hv; simpl in *; [|by apply Hout].
        injection Hi as <-. exists (size pm). split; [|done].
        rewrite !position_app.
        apply position_None in Hnin. rewrite Hnin. simpl.
        rewrite decide_True by done. simpl. by rewrite Hsize, Nat.add_0_r.
Qed.

Lemma anonymize_high_pii (data : list Value) (field_type : string) (w : World) :
  pii field_type ->
  anonymize_data data field_type "high" w = _pseudonymize data field_type w.
Proof. by intros [->|[->|[->| ->]]]. Qed.

(** C4, as the code has it.  At level high and for each of the four PII
    field types, entries with equal strings receive equal aliases within
    a call.  For e-mail addresses and names the alias of an entry is the
    numbered one whose number is the rank of the entry's string among the
    distinct strings of the column in order of first occurrence, so that
    different strings receive different aliases; the world is left
    untouched.  (For phone numbers and addresses the alias is drawn at
    random.) *)
Theorem pseudonym_map (data : list Value) (field_type : string) (w : World) :
  pii field_type ->
  exists out w',
    anonymize_data data field_type "high" w = (Ok out, w') /\
    length out = length data /\
    (forall i j vi vj,
       data !! i = Some vi -> data !! j = Some vj -> vi <> VNone -> vj <> VNone ->
       py_str vi = py_str vj -> out !! i = out !! j) /\
    (numbered field_type ->
       w' = w /\
       (forall i v, data !! i = Some v -> v <> VNone ->
          exists n,
            position (py_str v) (first_seen (originals data)) = Some n /\
            out !! i = Some (VStr (numbered_alias field_type (S n)))) /\
       (forall i j vi vj,
          data !! i = Some vi -> data !! j = Some vj -> vi <> VNone -> vj <> VNone ->
          out !! i = out !! j -> py_str vi = py_str vj)).
Proof.
  intros Hpii. rewrite anonymize_high_pii by done. unfold _pseudonymize.
  destruct (pseudonymize_from_lookup field_type data ∅ w)
    as (out & w' & final & E & _ & Hlen & Hout).
  exists out, w'. split; [done|]. split; [done|]. split.
  { intros i j vi vj Hi Hj Hvi Hvj Hstr.
    destruct (Hout i vi Hi Hvi) as (a & Ha & ->).
    destruct (Hout j vj Hj Hvj) as (b & Hb & ->). congruence. }
  intros Hnum.
  destruct (pseudonymize_from_numbered field_type data Hnum ∅ [] w (numbers_empty _))
    as (out' & E' & Hrank).
  rewrite E in E'. injection E' as <- <-.
  split; [done|]. split; [exact Hrank|].
  intros i j vi vj Hi Hj Hvi Hvj Hij.
  destruct (Hrank i vi Hi Hvi) as (n & Hn & Ei).
  destruct (Hrank j vj Hj Hvj) as (m & Hm & Ej).
  rewrite Ei, Ej in Hij. injection Hij as Hij. apply numbered_alias_inj in Hij.
  injection Hij as <-. apply position_lookup in Hn, Hm. congruence.
Qed.

End Pseudonyms.

(** Two customers, one of them twice, on the demonstration runtime. *)
Lemma pseudonym_map_witness :
  let data := [VStr "ann@x.org"; VNone; VStr "bob@x.org"; VStr "ann@x.org"] in
  let str := py_str (RT := DemoRuntime.runtime) in
  exists out w',
    anonymize_data (RT := DemoRuntime.runtime) data "email" "high"
      (DemoRuntime.world [] (mkDateTime 738000 0 0) 0) = (Ok out, w') /\
    length out = length data /\
    (forall i j vi vj,
       data !! i = Some vi -> data !! j = Some vj -> vi <> VNone -> vj <> VNone ->
       str vi = str vj -> out !! i = out !! j) /\
    (numbered "email" ->
       w' = DemoRuntime.world [] (mkDateTime 738000 0 0) 0 /\
       (forall i v, data !! i = Some v -> v <> VNone ->
          exists n,
            position (str v) (first_seen (originals (RT := DemoRuntime.runtime) data)) = Some n /\
            out !! i = Some (VStr (numbered_alias "email" (S n)))) /\
       (forall i j vi vj,
          data !! i = Some vi -> data !! j = Some vj -> vi <> VNone -> vj <> VNone ->
          out !! i = out !! j -> str vi = str vj)).
Proof.
  apply (pseudonym_map (RT := DemoRuntime.runtime)
           [VStr "ann@x.org"; VNone; VStr "bob@x.org"; VStr "ann@x.org"] "email").
  by left.
Defined.

Example pseudonyms_run :
  fst (anonymize_data (RT := DemoRuntime.runtime)
         [VStr "ann@x.org"; VNone; VStr "bob@x.org"; VStr "ann@x.org"] "email" "high"
         (DemoRuntime.world [] (mkDateTime 738000 0 0) 0))
  = Ok [VStr "user1@example.com"; VNone; VStr "user2@example.com"; VStr "user1@example.com"].
Proof. by vm_compute. Qed.

(** C4 as stated fails for addresses (and phone numbers): the alias is
    a random draw, not a number in first-seen order, and two different
    addresses receive the same alias as soon as the generator delivers
    the same value twice.  Here its next two raw outputs are both 7. *)
Lemma pseudonym_address_counterexample :
  fst (anonymize_data (RT := DemoRuntime.runtime)
         [VStr "12 Oak St"; VStr "99 Elm Rd"] "address" "high"
         (DemoRuntime.world [7; 7]%Z (mkDateTime 738000 0 0) 0))
  = Ok [VStr "107 Anonymized St"; VStr "107 Anonymized St"] /\
  VStr "12 Oak St" <> VStr "99 Elm Rd".
Proof. split; [by vm_compute|discriminate]. Qed.

End PseudonymFacts.

(* ===================================================================== *)
(** * Rounding *)
(* ===================================================================== *)

Module RoundFacts.

(** [round] moves a number by at most a half. *)
Lemma round_half_even_near (x : Q) :
  (inject_Z (round_half_even x) - (1 # 2) <= x <= inject_Z (round_half_even x) + (1 # 2))%Q.
Proof.
  unfold round_half_even.
  pose proof (Qfloor_le x) as H1. pose proof (Qlt_floor x) as H2.
  assert (H3 : (inject_Z (Qfloor x + 1) == inject_Z (Qfloor x) + 1)%Q)
    by (rewrite inject_Z_plus; reflexivity).
  rewrite H3 in H2.
  destruct (Qcompare_spec (x - inject_Z (Qfloor x)) (1 # 2)) as [E|E|E].
  - destruct (Z.even (Qfloor x)); rewrite ?H3; lra.
  - lra.
  - rewrite H3. lra.
Qed.

Lemma round_half_even_proper (x y : Q) :
  (x == y)%Q -> round_half_even x = round_half_even y.
Proof.
  intros H. unfold round_half_even. rewrite (Qfloor_comp x y H).
  assert (E : (x - inject_Z (Qfloor y) ?= 1 # 2)%Q = (y - inject_Z (Qfloor y) ?= 1 # 2)%Q).
  { apply Qcompare_comp; [|reflexivity]. by rewrite H. }
  by rewrite E.
Qed.

Lemma round_half_even_mono (x y : Q) :
  (x <= y)%Q -> (round_half_even x <= round_half_even y)%Z.
Proof.
  intros H.
  destruct (Z.le_gt_cases (round_half_even x) (round_half_even y)) as [|Hgt]; [done|].
  pose proof (round_half_even_near x) as Hx. pose proof (round_half_even_near y) as Hy.
  assert (Hz : (inject_Z (round_half_even y) + 1 <= inject_Z (round_half_even x))%Q).
  { change 1%Q with (inject_Z 1). rewrite <- inject_Z_plus, <- Zle_Qle. lia. }
  assert (E : (x == y)%Q) by lra.
  rewrite (round_half_even_proper x y E) in Hgt. lia.
Qed.

Lemma round_half_even_int (n : Z) : round_half_even (inject_Z n) = n.
Proof.
  pose proof (round_half_even_near (inject_Z n)) as [H1 H2].
  assert (Ha : (inject_Z (round_half_even (inject_Z n) - n) <= 1 # 2)%Q).
  { unfold Z.sub. rewrite inject_Z_plus, inject_Z_opp. lra. }
  assert (Hb : (- (1 # 2) <= inject_Z (round_half_even (inject_Z n) - n))%Q).
  { unfold Z.sub. rewrite inject_Z_plus, inject_Z_opp. lra. }
  assert (Hc : (inject_Z (round_half_even (inject_Z n) - n) < inject_Z 1)%Q).
  { eapply Qle_lt_trans; [exact Ha|]. reflexivity. }
  assert (Hd : (inject_Z (-1) < inject_Z (round_half_even (inject_Z n) - n))%Q).
  { eapply Qlt_le_trans; [|exact Hb]. reflexivity. }
  rewrite <- Zlt_Qlt in Hc, Hd. lia.
Qed.

(** [round(x, d)] is monotone. *)
Lemma py_round_mono (d : Z) (x y : Q) :
  (0 < Qpower (inject_Z 10) d)%Q -> (x <= y)%Q -> (py_round x d <= py_round y d)%Q.
Proof.
  intros Hp Hxy. unfold py_round. set (p := Qpower (inject_Z 10) d) in *.
  assert (Hm : (x * p <= y * p)%Q) by (apply Qmult_le_compat_r; lra).
  apply round_half_even_mono in Hm. rewrite Zle_Qle in Hm.
  apply Qle_shift_div_r; [done|].
  assert (E : (inject_Z (round_half_even (y * p)) / p * p
               == inject_Z (round_half_even (y * p)))%Q).
  { field. lra. }
  by rewrite E.
Qed.

(** [round(n, d)] is [n] for an integer [n] and [d >= 0]. *)
Lemma py_round_int (d : Z) (n k : Z) :
  (Qpower (inject_Z 10) d == inject_Z k)%Q -> (0 < k)%Z ->
  (py_round (inject_Z n) d == inject_Z n)%Q.
Proof.
  intros Hp Hk. unfold py_round. set (p := Qpower (inject_Z 10) d) in *.
  assert (E : (inject_Z n * p == inject_Z (n * k))%Q).
  { rewrite Hp, inject_Z_mult. reflexivity. }
  rewrite (round_half_even_proper _ _ E), round_half_even_int, Hp, inject_Z_mult.
  assert (Hk' : (0 < inject_Z k)%Q).
  { change 0%Q with (inject_Z 0). by rewrite <- Zlt_Qlt. }
  field. lra.
Qed.

Lemma scale_1 : (Qpower (inject_Z 10) 1 == inject_Z 10)%Q.
Proof. reflexivity. Qed.

Lemma scale_2 : (Qpower (inject_Z 10) 2 == inject_Z 100)%Q.
Proof. reflexivity. Qed.

End RoundFacts.

(* ===================================================================== *)
(** * Bounds of the numeric generator: age, salary, score *)
(* ===================================================================== *)

Module BoundsFacts.
Import BaseGenerator NumericGenerator MonadFacts RoundFacts ConstraintFacts.
Local Open Scope string_scope.

(** A number between [a] and [b]. *)
Definition within (a b : Q) (v : Value) : Prop :=
  exists x, num_of v = Some x /\ (a <= x <= b)%Q.

Section Bounds.
Context `{RT : PyRuntime}.

(** Keyword arguments that leave the generated column as it is. *)
Definition plain (kwargs : gmap string Value) : Prop :=
  kwargs !! "null_percentage" = None /\
  py_truthy (arg kwargs "unique" (VBool false)) = false /\
  kwargs !! "outlier_percentage" = None.

Lemma generate_values_returns (P : Value -> Prop) (generator_func fallback : M Value) :
  (forall w, exists v w', generator_func w = (Ok v, w') /\ P v) ->
  forall n w, exists out w',
    generate_values n generator_func fallback w = (Ok out, w') /\
    length out = n /\ Forall P out.
Proof.
  intros Hg. induction n as [|n IH]; intros w; simpl.
  - by exists [], w.
  - destruct (Hg w) as (v & w1 & E1 & Hv).
    destruct (IH w1) as (out & w2 & E2 & Hlen & Hall).
    exists (v :: out), w2. unfold bind, try_except. rewrite E1, E2. simpl.
    split; [done|]. split; [by rewrite Hlen|by constructor].
Qed.

Lemma apply_constraints_plain (fuel : nat)
    (self_generate : Z -> gmap string Value -> M (list Value))
    (data : list Value) (kwargs : gmap string Value) (w : World) :
  plain kwargs -> apply_constraints fuel self_generate data kwargs w = (Ok data, w).
Proof.
  intros (Hnull & Huniq & _). unfold apply_constraints.
  destruct (decide (kwargs = ∅)); [done|].
  unfold bind, apply_null_percentage. rewrite Hnull. simpl.
  by apply apply_unique_off.
Qed.

Lemma generate_unfold (fuel : nat) (count : Z) (numeric_type : string)
    (kwargs : gmap string Value) :
  generate fuel count numeric_type kwargs
  = match dispatch numeric_types numeric_type with
    | None => raise (ValueError ("Unknown numeric type: " ++ numeric_type))
    | Some generator_func =>
        bind (generate_values (Z.to_nat count) (generator_func kwargs) fallback)
          (fun data =>
             bind (apply_constraints fuel
                     (fun c kw => match fuel with
                                  | O => fun w => (NoFuel, w)
                                  | S fuel' => generate fuel' c "integer" kw
                                  end)
                     data kwargs)
               (fun data =>
                  match kwargs !! "outlier_percentage" with
                  | Some outlier_percentage => introduce_outliers data outlier_percentage
                  | None => ret data
                  end))
    end.
Proof. by destruct fuel. Qed.

Lemma generate_plain (P : Value -> Prop) (fuel : nat) (count : Z) (numeric_type : string)
    (generator_func : gmap string Value -> M Value) (kwargs : gmap string Value) (w : World) :
  dispatch numeric_types numeric_type = Some generator_func ->
  plain kwargs ->
  (forall w, exists v w', generator_func kwargs w = (Ok v, w') /\ P v) ->
  exists out w',
    generate fuel count numeric_type kwargs w = (Ok out, w') /\
    length out = Z.to_nat count /\ Forall P out.
Proof.
  intros Hd Hplain Hg. rewrite generate_unfold, Hd.
  destruct (generate_values_returns P (generator_func kwargs) fallback Hg (Z.to_nat count) w)
    as (out & w' & E & Hlen & Hall).
  exists out, w'. unfold bind at 1. rewrite E.
  unfold bind. rewrite apply_constraints_plain by done.
  destruct Hplain as (_ & _ & Hout). by rewrite Hout.
Qed.

(** ** Clamping *)

Lemma Qltb_true (x y : Q) : Qltb x y = true -> (x < y)%Q.
Proof.
  unfold Qltb. intros H. apply negb_true_iff in H. apply Qnot_le_lt.
  intros Hle. apply Qle_bool_iff in Hle. congruence.
Qed.

Lemma Qltb_false (x y : Q) : Qltb x y = false -> (y <= x)%Q.
Proof. unfold Qltb. intros H. by apply negb_false_iff, Qle_bool_iff in H. Qed.

(** [min(v, hi)] is a number not above [hi]. *)
Lemma val_min_returns (v hi : Value) (x b : Q) (w : World) :
  num_of v = Some x -> num_of hi = Some b ->
  exists r z, val_min v hi w = (Ok r, w) /\ num_of r = Some z /\ (z <= b)%Q.
Proof.
  intros Hv Hhi. unfold val_min, bind, as_num. rewrite Hv, Hhi. simpl.
  destruct (Qltb b x) eqn:E.
  - exists hi, b. split; [done|]. split; [done|apply Qle_refl].
  - exists v, x. split; [done|]. split; [done|by apply Qltb_false].
Qed.

(** [max(h, lo)], for [h] not above [hi], lies between [lo] and [hi]. *)
Lemma val_max_returns (h lo : Value) (z a b : Q) (w : World) :
  num_of h = Some z -> num_of lo = Some a -> (z <= b)%Q -> (a <= b)%Q ->
  exists r, val_max h lo w = (Ok r, w) /\ within a b r.
Proof.
  intros Hh Hlo Hzb Hab. unfold val_max, bind, as_num. rewrite Hh, Hlo. simpl.
  destruct (Qltb z a) eqn:E.
  - exists lo. split; [done|]. exists a. split; [done|]. split; [apply Qle_refl|done].
  - exists h. split; [done|]. exists z. split; [done|]. split; [by apply Qltb_false|done].
Qed.

(** [round(c, d)] of a number between [a] and [b] lies between the
    roundings of [a] and [b]. *)
Lemma val_round_returns (c : Value) (d k : Z) (a b : Q) (w : World) :
  (Qpower (inject_Z 10) d == inject_Z k)%Q -> (0 < k)%Z ->
  within a b c ->
  exists r, val_round c d w = (Ok r, w) /\ within (py_round a d) (py_round b d) r.
Proof.
  intros Hp Hk (x & Hx & Ha & Hb).
  assert (Hpos : (0 < Qpower (inject_Z 10) d)%Q).
  { rewrite Hp. change 0%Q with (inject_Z 0). by rewrite <- Zlt_Qlt. }
  assert (Hint : forall n : Z, x = inject_Z n ->
            (py_round a d <= inject_Z n <= py_round b d)%Q).
  { intros n ->. rewrite <- (py_round_int d n k Hp Hk) at 1 2.
    split; by apply py_round_mono. }
  destruct c; simpl in Hx; try done; injection Hx as <-; simpl.
  - eexists. split; [done|]. eexists. split; [done|]. by apply Hint.
  - eexists. split; [done|]. eexists. split; [done|]. by apply Hint.
  - eexists. split; [done|]. eexists. split; [done|].
    split; by apply py_round_mono.
Qed.

(** ** The three generators *)


Lemma normal_between_returns (lo hi : Value) (a b : Q) (d k : Z) (w : World) :
  num_of lo = Some a -> num_of hi = Some b -> (a <= b)%Q ->
  (Qpower (inject_Z 10) d == inject_Z k)%Q -> (0 < k)%Z ->
  exists v w', normal_between lo hi d w = (Ok v, w') /\
    within (py_round a d) (py_round b d) v.
Proof.
  intros Ha Hb Hab Hp Hk. unfold normal_between.
  unfold bind at 1. unfold as_num at 1. rewrite Ha.
  unfold bind at 1. unfold as_num at 1. rewrite Hb.
  cbv zeta. unfold ret at 1 2. cbv beta iota.
  unfold bind at 1. unfold np_random_normal.
  assert (Hstd : Qltb ((b - a) / 6) 0 = false).
  { apply NullFacts.Qltb_nonneg. apply Qle_shift_div_l; [reflexivity|]. lra. }
  rewrite Hstd. unfold lift_np.
  destruct (np_normal ((a + b) / 2) ((b - a) / 6) (np_rng w)) as [x g].
  destruct (val_min_returns (VFloat x) hi x b (set_np g w) eq_refl Hb)
    as (h & z & E1 & Hz & Hzb).
  unfold bind at 1. rewrite E1.
  destruct (val_max_returns h lo z a b (set_np g w) Hz Ha Hzb Hab) as (c & E2 & Hc).
  unfold bind. rewrite E2.
  destruct (val_round_returns c d k a b (set_np g w) Hp Hk Hc) as (r & E3 & Hr).
  by exists r, (set_np g w).
Qed.


End Bounds.



End BoundsFacts.

(* ===================================================================== *)
(** * Dispatch on the subtype; errors at the level of the column *)
(* ===================================================================== *)

Module DispatchFacts.
Import BaseGenerator MonadFacts FuelFacts ConstraintFacts.
Local Open Scope string_scope.

Create HintDb generators.

#[export] Hint Unfold
  NumericGenerator._generate_integer NumericGenerator._generate_float
  NumericGenerator._generate_percentage NumericGenerator._generate_currency
  NumericGenerator._generate_id NumericGenerator._generate_transaction_amount
  NumericGenerator._generate_salary NumericGenerator._generate_age
  NumericGenerator._generate_temperature NumericGenerator._generate_humidity
  NumericGenerator._generate_latitude NumericGenerator._generate_longitude
  NumericGenerator._generate_rating NumericGenerator._generate_score
  NumericGenerator.randint_args NumericGenerator.uniform_args
  NumericGenerator.round_float NumericGenerator.normal_between
  NumericGenerator.fallback : generators.

#[export] Hint Unfold
  TextGenerator._generate_name TextGenerator._generate_email
  TextGenerator._generate_address TextGenerator._generate_phone
  TextGenerator._generate_company TextGenerator._generate_job_title
  TextGenerator._generate_description TextGenerator._generate_sentence
  TextGenerator._generate_paragraph TextGenerator._generate_url
  TextGenerator._generate_user_agent TextGenerator._generate_mac_address
  TextGenerator._generate_credit_card TextGenerator._generate_bank_account
  TextGenerator._generate_patient_id TextGenerator._generate_medical_record
  TextGenerator._generate_diagnosis_code TextGenerator._generate_medication
  TextGenerator._generate_country TextGenerator._generate_city
  TextGenerator._generate_zip_code TextGenerator._generate_ipv4
  TextGenerator._generate_ipv6 TextGenerator._generate_custom_text
  TextGenerator.fake TextGenerator.fake_str TextGenerator.fill
  TextGenerator.fallback : generators.

#[export] Hint Unfold
  DateGenerator._generate_date DateGenerator._generate_datetime
  DateGenerator._generate_time DateGenerator._generate_date_range
  DateGenerator._generate_signup_date DateGenerator._generate_transaction_date
  DateGenerator._generate_hire_date DateGenerator._generate_visit_date
  DateGenerator._generate_post_date DateGenerator._generate_sensor_timestamp
  DateGenerator.datetime_with_hours DateGenerator.date_between
  DateGenerator.datetime_between DateGenerator.parse_ymd DateGenerator.parse_hms
  DateGenerator.datetime_add_seconds DateGenerator.datetime_add_days
  DataAnonymizer.add_days DateGenerator.fallback : generators.

(** Splits [dispatch table name = Some f] into one goal per entry. *)
Ltac table_cases H :=
  lazymatch type of H with
  | (if ?b then _ else _) = Some _ => destruct b; [injection H as <-|table_cases H]
  | _ => discriminate H
  end.

(** A percentage, when present under [key], is a number not above 100. *)
Definition percent_ok (kwargs : gmap string Value) (key : string) : Prop :=
  match kwargs !! key with
  | None => True
  | Some p => exists q, num_of p = Some q /\ (q <= 100)%Q
  end.

Section Dispatch.
Context `{RT : PyRuntime}.

(** ** The generation loop *)


(** A value whose generation raised is the fallback's. *)
Lemma generate_values_fallback (generator_func fallback : M Value) (n : nat)
    (e : exn) (w w1 : World) :
  generator_func w = (Raise e, w1) ->
  generate_values (S n) generator_func fallback w
  = bind fallback
      (fun value => bind (generate_values n generator_func fallback)
                      (fun data => ret (value :: data))) w1.
Proof. intros E. simpl. unfold bind at 1. unfold try_except. by rewrite E. Qed.

(** ** The constraints *)

Lemma apply_null_percentage_total (data : list Value) (kwargs : gmap string Value) :
  percent_ok kwargs "null_percentage" -> total (apply_null_percentage data kwargs).
Proof.
  unfold percent_ok, apply_null_percentage.
  destruct (kwargs !! "null_percentage") as [p|]; [|intros _; apply total_ret].
  intros (q & Hq & Hle) w. unfold bind, as_num. rewrite Hq. simpl.
  destruct (Qltb 0 q) eqn:Hpos; [|by eexists _, _].
  assert (Hrange : (0 <= q <= 100)%Q).
  { split; [|done]. apply Qlt_le_weak. by apply BoundsFacts.Qltb_true. }
  destruct (percent_count_floor (length data) q Hrange) as [_ Hk].
  destruct (sample_returns (length data) _ w Hk) as (idxs & w' & E & _).
  rewrite E. by eexists _, _.
Qed.

Lemma apply_constraints_total (fuel : nat)
    (self_generate : Z -> gmap string Value -> M (list Value))
    (data : list Value) (kwargs : gmap string Value) :
  percent_ok kwargs "null_percentage" ->
  total (apply_constraints (S fuel) self_generate data kwargs).
Proof.
  intros Hok. unfold apply_constraints.
  destruct (decide (kwargs = ∅)); [apply total_ret|].
  apply total_bind; [by apply apply_null_percentage_total|].
  intros d1. unfold apply_unique.
  destruct (py_truthy (arg kwargs "unique" (VBool false))); [|apply total_ret].
  intros w. unfold bind, list_of_set. rewrite regeneration_never_runs. by eexists _, _.
Qed.



(** ** The generating functions need no fuel *)






(** ** The three [generate] methods *)

Lemma text_generate_unfold (fuel : nat) (count : Z) (text_type : string)
    (kwargs : gmap string Value) :
  TextGenerator.generate fuel count text_type kwargs
  = match dispatch TextGenerator.text_types text_type with
    | None => raise (ValueError ("Unknown text type: " ++ text_type))
    | Some generator_func =>
        bind (generate_values (Z.to_nat count) (generator_func kwargs) TextGenerator.fallback)
          (fun data =>
             apply_constraints fuel
               (fun c kw => match fuel with
                            | O => fun w => (NoFuel, w)
                            | S fuel' => TextGenerator.generate fuel' c "name" kw
                            end)
               data kwargs)
    end.
Proof. by destruct fuel. Qed.

Lemma date_generate_unfold (fuel : nat) (count : Z) (date_type : string)
    (kwargs : gmap string Value) :
  DateGenerator.generate fuel count date_type kwargs
  = match dispatch (DateGenerator.date_types fuel) date_type with
    | None => raise (ValueError ("Unknown date type: " ++ date_type))
    | Some generator_func =>
        bind (generate_values (Z.to_nat count) (generator_func kwargs) DateGenerator.fallback)
          (fun data =>
             apply_constraints fuel
               (fun c kw => match fuel with
                            | O => fun w => (NoFuel, w)
                            | S fuel' => DateGenerator.generate fuel' c "date" kw
                            end)
               data kwargs)
    end.
Proof. by destruct fuel. Qed.








End Dispatch.



End DispatchFacts.

(* ===================================================================== *)
(** * Determinism: what a run depends on *)
(* ===================================================================== *)

Module DeterminismFacts.
Import Session BaseGenerator DispatchFacts.
Local Open Scope string_scope.

(** The parts of the world a routine may consult: the three generators
    of pseudorandom numbers, the hash salt and the clock. *)
Record Uses := mkUses {
  u_py : bool;
  u_np : bool;
  u_fk : bool;
  u_salt : bool;
  u_clock : bool
}.

Section Calm.
Context `{RT : PyRuntime}.
Variable U : Uses.

(** Two worlds agree on what [U] allows a routine to consult, the clock
    apart. *)
Definition agree (w1 w2 : World) : Prop :=
  (u_py U = true -> py_rng w1 = py_rng w2) /\
  (u_np U = true -> np_rng w1 = np_rng w2) /\
  (u_fk U = true -> fk_rng w1 = fk_rng w2) /\
  (u_salt U = true -> hash_salt w1 = hash_salt w2).

(** [calm m]: the routine only ever advances the clock, does not touch
    it when [U] forbids, and, run in two worlds that agree, ends in the
    same way in worlds that agree, provided the first run did not
    read the clock; then neither did the second. *)
Definition calm {A} (m : M A) : Prop :=
  (forall w, (ticks w <= ticks (snd (m w)))%nat) /\
  (u_clock U = false -> forall w, ticks (snd (m w)) = ticks w) /\
  (forall w1 w2, agree w1 w2 -> ticks (snd (m w1)) = ticks w1 ->
     fst (m w1) = fst (m w2) /\ agree (snd (m w1)) (snd (m w2)) /\
     ticks (snd (m w2)) = ticks w2).

Lemma calm_const {A} (r : Res A) : calm (fun w => (r, w)).
Proof. split; [done|]. split; [done|]. by intros w1 w2 Hw _. Qed.

Lemma calm_ret {A} (a : A) : calm (ret a).
Proof. apply calm_const. Qed.

Lemma calm_raise {A} (e : exn) : calm (raise (A := A) e).
Proof. apply calm_const. Qed.

Lemma calm_bind {A B} (m : M A) (f : A -> M B) :
  calm m -> (forall a, calm (f a)) -> calm (bind m f).
Proof.
  intros (Hm1 & Hm2 & Hm3) Hf. split; [|split].
  - intros w. unfold bind. specialize (Hm1 w).
    destruct (m w) as [[a|e|] w'] eqn:E; simpl in *; try done.
    destruct (Hf a) as (Hf1 & _). specialize (Hf1 w'). lia.
  - intros Hc w. unfold bind. specialize (Hm2 Hc w).
    destruct (m w) as [[a|e|] w'] eqn:E; simpl in *; try done.
    destruct (Hf a) as (_ & Hf2 & _). by rewrite (Hf2 Hc w').
  - intros w1 w2 Hw Ht. unfold bind in *.
    pose proof (Hm1 w1) as Hmono. specialize (Hm3 w1 w2 Hw).
    destruct (m w1) as [[a|e|] w1'] eqn:E1; simpl in *.
    + destruct (Hf a) as (Hf1 & _ & Hf3). pose proof (Hf1 w1') as Hmono'.
      destruct Hm3 as (Hr & Hw' & Ht'); [lia|].
      destruct (m w2) as [r2 w2'] eqn:E2. simpl in *. subst r2.
      destruct (Hf3 w1' w2' Hw') as (Hr' & Hw'' & Ht''); [lia|].
      split; [done|]. split; [done|]. lia.
    + destruct Hm3 as (Hr & Hw' & Ht'); [done|].
      destruct (m w2) as [r2 w2'] eqn:E2. simpl in *. by subst r2.
    + destruct Hm3 as (Hr & Hw' & Ht'); [done|].
      destruct (m w2) as [r2 w2'] eqn:E2. simpl in *. by subst r2.
Qed.

Lemma calm_try_except {A} (m : M A) (h : exn -> M A) :
  calm m -> (forall e, calm (h e)) -> calm (try_except m h).
Proof.
  intros (Hm1 & Hm2 & Hm3) Hh. split; [|split].
  - intros w. unfold try_except. specialize (Hm1 w).
    destruct (m w) as [[a|e|] w'] eqn:E; simpl in *; try done.
    destruct (Hh e) as (Hh1 & _). specialize (Hh1 w'). lia.
  - intros Hc w. unfold try_except. specialize (Hm2 Hc w).
    destruct (m w) as [[a|e|] w'] eqn:E; simpl in *; try done.
    destruct (Hh e) as (_ & Hh2 & _). by rewrite (Hh2 Hc w').
  - intros w1 w2 Hw Ht. unfold try_except in *.
    pose proof (Hm1 w1) as Hmono. specialize (Hm3 w1 w2 Hw).
    destruct (m w1) as [[a|e|] w1'] eqn:E1; simpl in *.
    + destruct Hm3 as (Hr & Hw' & Ht'); [done|].
      destruct (m w2) as [r2 w2'] eqn:E2. simpl in *. by subst r2.
    + destruct (Hh e) as (Hh1 & _ & Hh3). pose proof (Hh1 w1') as Hmono'.
      destruct Hm3 as (Hr & Hw' & Ht'); [lia|].
      destruct (m w2) as [r2 w2'] eqn:E2. simpl in *. subst r2.
      destruct (Hh3 w1' w2' Hw') as (Hr' & Hw'' & Ht''); [lia|].
      split; [done|]. split; [done|]. lia.
    + destruct Hm3 as (Hr & Hw' & Ht'); [done|].
      destruct (m w2) as [r2 w2'] eqn:E2. simpl in *. by subst r2.
Qed.

Lemma calm_lift_py {A} (f : PyRng -> A * PyRng) : u_py U = true -> calm (lift_py f).
Proof.
  intros Hu. unfold lift_py. split; [|split].
  - intros w. by destruct (f (py_rng w)).
  - intros _ w. by destruct (f (py_rng w)).
  - intros w1 w2 (H1 & H2 & H3 & H4) _. rewrite <- (H1 Hu).
    destruct (f (py_rng w1)) as [a g]. simpl. by repeat split.
Qed.

Lemma calm_lift_np {A} (f : NpRng -> A * NpRng) : u_np U = true -> calm (lift_np f).
Proof.
  intros Hu. unfold lift_np. split; [|split].
  - intros w. by destruct (f (np_rng w)).
  - intros _ w. by destruct (f (np_rng w)).
  - intros w1 w2 (H1 & H2 & H3 & H4) _. rewrite <- (H2 Hu).
    destruct (f (np_rng w1)) as [a g]. simpl. by repeat split.
Qed.

Lemma calm_lift_fk {A} (f : FkRng -> A * FkRng) : u_fk U = true -> calm (lift_fk f).
Proof.
  intros Hu. unfold lift_fk. split; [|split].
  - intros w. by destruct (f (fk_rng w)).
  - intros _ w. by destruct (f (fk_rng w)).
  - intros w1 w2 (H1 & H2 & H3 & H4) _. rewrite <- (H3 Hu).
    destruct (f (fk_rng w1)) as [a g]. simpl. by repeat split.
Qed.

(** Reading the clock is allowed only where [U] says so, and a run that
    read it is not compared. *)
Lemma calm_now : u_clock U = true -> calm datetime_now.
Proof.
  intros Hu. unfold datetime_now. split; [|split]; simpl.
  - intros w. lia.
  - congruence.
  - intros w1 w2 _ Ht. lia.
Qed.

Lemma calm_list_of_set (data : list Value) : u_salt U = true -> calm (list_of_set data).
Proof.
  intros Hu. unfold list_of_set. split; [done|]. split; [done|].
  intros w1 w2 Hw _. simpl. destruct Hw as (H1 & H2 & H3 & H4).
  rewrite (H4 Hu). by repeat split.
Qed.

Lemma calm_map_m {A B} (f : A -> M B) (l : list A) :
  (forall x, calm (f x)) -> calm (map_m f l).
Proof.
  intros Hf. induction l as [|x l IH]; simpl; [apply calm_ret|].
  apply calm_bind; [apply Hf|]. intros y.
  apply calm_bind; [apply IH|]. intros ys. apply calm_ret.
Qed.

Lemma calm_for_each {A S} (body : A -> S -> M S) (l : list A) (acc : S) :
  (forall x s, calm (body x s)) -> calm (for_each body l acc).
Proof.
  intros Hb. revert acc. induction l as [|x l IH]; intros acc; simpl; [apply calm_ret|].
  apply calm_bind; [apply Hb|]. intros s. apply IH.
Qed.

Lemma calm_while_loop {S} (fuel : nat) (cond : S -> bool) (body : S -> M S) (s : S) :
  (forall s, calm (body s)) -> calm (while_loop fuel cond body s).
Proof.
  intros Hb. revert s. induction fuel as [|fuel IH]; intros s; simpl.
  - apply calm_const.
  - destruct (cond s); [|apply calm_ret]. apply calm_bind; [apply Hb|apply IH].
Qed.

Lemma calm_attempt {A} (m : M A) : calm m -> calm (attempt m).
Proof.
  intros (Hm1 & Hm2 & Hm3). unfold attempt. split; [|split].
  - intros w. specialize (Hm1 w). by destruct (m w).
  - intros Hc w. specialize (Hm2 Hc w). by destruct (m w).
  - intros w1 w2 Hw Ht. specialize (Hm3 w1 w2 Hw).
    destruct (m w1) as [r1 w1'], (m w2) as [r2 w2']. simpl in *.
    destruct (Hm3 Ht) as (-> & ? & ?). done.
Qed.

End Calm.

(** Discharges [calm U m] for a routine built from the library calls. *)
Ltac calm_step :=
  first
    [ apply calm_const
    | apply calm_ret
    | apply calm_raise
    | apply calm_lift_py; assumption
    | apply calm_lift_np; assumption
    | apply calm_lift_fk; assumption
    | apply calm_now; assumption
    | apply calm_list_of_set; assumption
    | apply calm_bind; [|intros ?]
    | apply calm_try_except; [|intros ?]
    | apply calm_map_m; intros ?
    | apply calm_for_each; intros ? ?
    | apply calm_while_loop; intros ?
    | apply calm_attempt
    | match goal with
      | |- calm _ (match ?x with _ => _ end) => destruct x
      end ].

Ltac calm_auto :=
  autounfold with generators; cbv zeta;
  repeat first [ calm_step | FuelFacts.finishes_unfold
               | progress autounfold with generators ].


Create HintDb routines.

#[export] Hint Unfold
  DataAnonymizer.anonymize_data DataAnonymizer._medium_anonymization
  DataAnonymizer._high_anonymization DataAnonymizer._fuzz_dates
  DataAnonymizer._add_noise DataAnonymizer._pseudonymize
  DataAnonymizer.fuzz_item DataAnonymizer.noise_item DataAnonymizer.new_alias
  DataAnonymizer.add_days
  DifferentialPrivacy.add_laplace_noise DifferentialPrivacy.add_gaussian_noise
  DifferentialPrivacy.add_and_round DifferentialPrivacy.private_mean
  DifferentialPrivacy.private_median DifferentialPrivacy.private_std
  DifferentialPrivacy.private_stat DifferentialPrivacy.require_nums
  DifferentialPrivacy.py_div DifferentialPrivacy.apply_private_aggregation
  DifferentialPrivacy.apply_private_histogram
  apply_null_percentage introduce_outliers outlier_step create_duplicates
  column number : routines.

Ltac calm_routine :=
  autounfold with routines; cbv zeta;
  repeat first [ calm_step | FuelFacts.finishes_unfold
               | progress autounfold with routines ].

Section Routines.
Context `{RT : PyRuntime}.
Variable U : Uses.

(** ** The anonymizer consults [random] only *)

Lemma calm_pseudonymize_from (field_type : string) (data : list Value) :
  u_py U = true ->
  forall pm : gmap string string,
    calm U (DataAnonymizer.pseudonymize_from field_type pm data).
Proof.
  intros Hpy. induction data as [|item rest IH]; intros pm; simpl; [apply calm_ret|].
  destruct (is_none item).
  - apply calm_bind; [apply IH|]. intros out. apply calm_ret.
  - apply calm_bind; [calm_routine|]. intros pm1.
    apply calm_bind; [apply IH|]. intros out. apply calm_ret.
Qed.

Lemma calm_anonymize (data : list Value) (field_type level : string) :
  u_py U = true -> calm U (DataAnonymizer.anonymize_data data field_type level).
Proof.
  intros Hpy. pose proof (calm_pseudonymize_from field_type data Hpy ∅) as Hps.
  unfold DataAnonymizer.anonymize_data, DataAnonymizer._medium_anonymization,
    DataAnonymizer._high_anonymization, DataAnonymizer._pseudonymize.
  repeat match goal with
         | |- calm _ (if ?b then _ else _) => destruct b
         end; try exact Hps; calm_routine.
Qed.

(** ** The privacy engine consults [numpy.random] only *)

Lemma calm_dp_call (epsilon : Q) (c : DPCall) : u_np U = true -> calm U (dp_call epsilon c).
Proof. intros Hnp. destruct c; unfold dp_call; calm_routine. Qed.

(** ** The constraint engine *)

Lemma calm_apply_unique (fuel : nat)
    (self_generate : Z -> gmap string Value -> M (list Value))
    (data : list Value) (constraints : gmap string Value) :
  (py_truthy (arg constraints "unique" (VBool false)) = true -> u_salt U = true) ->
  calm U (apply_unique fuel self_generate data constraints).
Proof.
  intros Hsalt. unfold apply_unique.
  destruct (py_truthy (arg constraints "unique" (VBool false))); [|apply calm_ret].
  apply calm_bind; [by apply calm_list_of_set, Hsalt|]. intros d.
  destruct fuel as [|fuel]; simpl; [apply calm_const|].
  rewrite ConstraintFacts.regeneration_guard. apply calm_ret.
Qed.

Lemma calm_apply_constraints (fuel : nat)
    (self_generate : Z -> gmap string Value -> M (list Value))
    (data : list Value) (constraints : gmap string Value) :
  u_py U = true ->
  (py_truthy (arg constraints "unique" (VBool false)) = true -> u_salt U = true) ->
  calm U (apply_constraints fuel self_generate data constraints).
Proof.
  intros Hpy Hsalt. unfold apply_constraints.
  destruct (decide (constraints = ∅)); [apply calm_ret|].
  apply calm_bind; [calm_routine|]. intros d. by apply calm_apply_unique.
Qed.

(** ** The generators *)

Lemma calm_generate_values (generator_func fallback : M Value) (n : nat) :
  calm U generator_func -> calm U fallback ->
  calm U (generate_values n generator_func fallback).
Proof.
  intros Hg Hf. induction n as [|n IH]; simpl; [apply calm_ret|].
  apply calm_bind; [by apply calm_try_except|]. intros v.
  apply calm_bind; [done|]. intros data. apply calm_ret.
Qed.

Lemma numeric_calm (numeric_type : string) (f : gmap string Value -> M Value)
    (kwargs : gmap string Value) :
  u_py U = true -> u_np U = true ->
  dispatch NumericGenerator.numeric_types numeric_type = Some f -> calm U (f kwargs).
Proof.
  intros Hpy Hnp. unfold NumericGenerator.numeric_types. simpl. intros H.
  table_cases H; calm_auto.
Qed.

Lemma text_calm (text_type : string) (f : gmap string Value -> M Value)
    (kwargs : gmap string Value) :
  u_py U = true -> u_fk U = true ->
  dispatch TextGenerator.text_types text_type = Some f -> calm U (f kwargs).
Proof.
  intros Hpy Hfk. unfold TextGenerator.text_types. simpl. intros H.
  table_cases H; calm_auto.
Qed.

Lemma date_calm (fuel : nat) (date_type : string) (f : gmap string Value -> M Value)
    (kwargs : gmap string Value) :
  u_py U = true ->
  dispatch (DateGenerator.date_types fuel) date_type = Some f -> calm U (f kwargs).
Proof.
  intros Hpy. unfold DateGenerator.date_types. simpl. intros H.
  table_cases H; unfold DateGenerator.to_weekday; calm_auto.
Qed.

Lemma calm_generate (fuel : nat) (family : Family) (count : Z) (subtype : string)
    (kwargs : gmap string Value) :
  u_py U = true -> u_np U = true -> u_fk U = true ->
  (py_truthy (arg kwargs "unique" (VBool false)) = true -> u_salt U = true) ->
  (family = Date -> u_clock U = true) ->
  calm U (generate_of fuel family count subtype kwargs).
Proof.
  intros Hpy Hnp Hfk Hsalt Hclock. destruct family; simpl.
  - rewrite BoundsFacts.generate_unfold.
    destruct (dispatch NumericGenerator.numeric_types subtype) as [f|] eqn:Hf;
      [|apply calm_raise].
    apply calm_bind.
    { apply calm_generate_values; [by eapply numeric_calm|calm_auto]. }
    intros data. apply calm_bind; [by apply calm_apply_constraints|]. intros d.
    destruct (kwargs !! "outlier_percentage"); calm_routine.
  - rewrite text_generate_unfold.
    destruct (dispatch TextGenerator.text_types subtype) as [f|] eqn:Hf;
      [|apply calm_raise].
    apply calm_bind.
    { apply calm_generate_values; [by eapply text_calm|calm_auto]. }
    intros data. by apply calm_apply_constraints.
  - rewrite date_generate_unfold.
    destruct (dispatch (DateGenerator.date_types fuel) subtype) as [f|] eqn:Hf;
      [|apply calm_raise].
    specialize (Hclock eq_refl).
    apply calm_bind.
    { apply calm_generate_values; [by eapply date_calm|calm_auto]. }
    intros data. by apply calm_apply_constraints.
Qed.

Lemma calm_gen_call (fuel : nat) (family : Family) (c : GenCall) :
  u_py U = true -> u_np U = true -> u_fk U = true ->
  (call_wants_unique c = true -> u_salt U = true) ->
  (family = Date -> u_clock U = true) ->
  calm U (gen_call fuel family c).
Proof.
  intros Hpy Hnp Hfk Hsalt Hclock. destruct c; simpl in *.
  - unfold column. apply calm_bind; [by apply calm_generate|intros; apply calm_ret].
  - unfold column. apply calm_bind; [by apply calm_apply_constraints|intros; apply calm_ret].
  - calm_routine.
  - calm_routine.
Qed.

Lemma calm_map_m_in {A B} (f : A -> M B) (l : list A) :
  Forall (fun x => calm U (f x)) l -> calm U (map_m f l).
Proof.
  induction 1 as [|x l Hx Hl IH]; simpl; [apply calm_ret|].
  apply calm_bind; [done|]. intros y.
  apply calm_bind; [done|]. intros ys. apply calm_ret.
Qed.

End Routines.

Section Runs.
Context `{RT : PyRuntime}.

(** What the calls of a script may consult. *)
Definition uses_of (script : Script) : Uses :=
  match script with
  | GeneratorRun family calls =>
      mkUses true true true (existsb call_wants_unique calls)
        (match family with Date => true | _ => false end)
  | AnonymizerRun _ => mkUses true false false false false
  | PrivacyRun _ _ => mkUses false true false false false
  end.

(** The calls of a script, after the constructor. *)
Definition calls_of (fuel : nat) (script : Script) : M (list (Res Output)) :=
  match script with
  | GeneratorRun family calls => map_m (fun c => attempt (gen_call fuel family c)) calls
  | AnonymizerRun calls => map_m (fun c => attempt (anon_call c)) calls
  | PrivacyRun epsilon calls => map_m (fun c => attempt (dp_call epsilon c)) calls
  end.

(** The constructor of the object of a script. *)
Definition init_of (seed : Z) (script : Script) : M unit :=
  match script with
  | GeneratorRun _ _ => BaseGenerator.init (Some seed)
  | AnonymizerRun _ => DataAnonymizer.init (Some seed)
  | PrivacyRun _ _ => DifferentialPrivacy.init (Some seed)
  end.

Lemma run_unfold (fuel : nat) (seed : Z) (script : Script) :
  run fuel seed script = bind (init_of seed script) (fun _ => calls_of fuel script).
Proof. by destruct script. Qed.

Lemma calm_calls (fuel : nat) (script : Script) :
  calm (uses_of script) (calls_of fuel script).
Proof.
  destruct script as [family calls|calls|epsilon calls]; simpl.
  - apply calm_map_m_in. apply Forall_forall. intros c Hc.
    apply calm_attempt, calm_gen_call; try done.
    + simpl. intros Hu. apply existsb_exists. exists c.
      split; [by apply list_elem_of_In|done].
    + by intros ->.
  - apply calm_map_m. intros [data field_type level]. apply calm_attempt.
    unfold anon_call, column.
    apply calm_bind; [by apply calm_anonymize|intros; apply calm_ret].
  - apply calm_map_m. intros c. by apply calm_attempt, calm_dp_call.
Qed.

(** Seeding makes any two worlds agree on what the object consults; it
    leaves clock and salt alone and ends the same way in both. *)
Lemma init_resets (seed : Z) (script : Script) (w1 w2 : World) :
  (wants_unique script = true -> hash_salt w1 = hash_salt w2) ->
  fst (init_of seed script w1) = fst (init_of seed script w2) /\
  ticks (snd (init_of seed script w1)) = ticks w1 /\
  (forall u, fst (init_of seed script w1) = Ok u ->
     agree (uses_of script) (snd (init_of seed script w1)) (snd (init_of seed script w2))).
Proof.
  intros Hsalt. destruct script as [family calls|calls|epsilon calls]; simpl.
  - unfold bind, DifferentialPrivacy.np_random_seed. simpl.
    destruct ((0 <=? seed) && (seed <? 2 ^ 32))%Z; simpl.
    + split; [done|]. split; [done|]. intros _ _. by repeat split.
    + split; [done|]. split; [done|]. by intros u.
  - split; [done|]. split; [done|]. intros _ _. by repeat split.
  - unfold bind, DifferentialPrivacy.np_random_seed. simpl.
    destruct ((0 <=? seed) && (seed <? 2 ^ 32))%Z; simpl.
    + split; [done|]. split; [done|]. intros _ _. by repeat split.
    + split; [done|]. split; [done|]. by intros u.
Qed.

(** C1, as the code has it.  Two runs with the same seed and the same
    calls, started in any two worlds (whatever the earlier state of the
    pseudorandom generators and whatever the time), end every call in the
    same way: for a numeric or text generator, the anonymizer and the
    privacy engine without further condition; for a date generator when
    the first run never read the clock, that is, no value fell back to
    [datetime.now()].  When a call asks for [unique], the two worlds must
    have the same hash salt, which fixes the order of [list(set(data))]. *)
Theorem determinism (fuel : nat) (seed : Z) (script : Script) (w1 w2 : World) :
  (wants_unique script = true -> hash_salt w1 = hash_salt w2) ->
  (may_read_clock script = true -> ticks (snd (run fuel seed script w1)) = ticks w1) ->
  fst (run fuel seed script w1) = fst (run fuel seed script w2).
Proof.
  intros Hsalt Hclock. rewrite run_unfold in *.
  destruct (init_resets seed script w1 w2 Hsalt) as (Hr & Ht & Hagree).
  destruct (calm_calls fuel script) as (Hmono & Hquiet & Hdet).
  unfold bind in *.
  destruct (init_of seed script w1) as [[u1|e1|] w1'],
           (init_of seed script w2) as [[u2|e2|] w2']; simpl in *;
    try done; try congruence.
  apply (Hdet w1' w2'); [by eapply Hagree|].
  destruct (u_clock (uses_of script)) eqn:Hu.
  - rewrite Ht. apply Hclock. by destruct script as [[]| |].
  - by apply Hquiet.
Qed.

End Runs.

(** Two processes that differ in everything a run could see: the state
    the pseudorandom generators were left in, the time, the hash salt. *)
Definition morning : World (RT := DemoRuntime.runtime) :=
  DemoRuntime.world [1; 2; 3]%Z (mkDateTime 738000 32400 0) 0.
Definition evening : World (RT := DemoRuntime.runtime) :=
  DemoRuntime.world [9; 9]%Z (mkDateTime 738001 75600 5) 1.

(** The calls of a numeric run and of a date run with valid bounds. *)
Definition numeric_script : Script :=
  GeneratorRun Numeric
    [ Generate 3 "integer" ∅;
      Generate 2 "salary" {[ "null_percentage" := VInt 50 ]} ].
Definition date_script : Script :=
  GeneratorRun Date [ Generate 3 "signup_date" ∅; Generate 2 "date_range" ∅ ].

Lemma determinism_witness :
  fst (run (RT := DemoRuntime.runtime) 3 42 numeric_script morning)
  = fst (run (RT := DemoRuntime.runtime) 3 42 numeric_script evening) /\
  fst (run (RT := DemoRuntime.runtime) 3 42 date_script morning)
  = fst (run (RT := DemoRuntime.runtime) 3 42 date_script evening).
Proof.
  split.
  - apply (determinism (RT := DemoRuntime.runtime) 3 42 numeric_script morning evening);
      intros H; discriminate H.
  - apply (determinism (RT := DemoRuntime.runtime) 3 42 date_script morning evening).
    + intros H. discriminate H.
    + intros _. by vm_compute.
Defined.

(** Scenario 3: the same noisy value in both processes. *)
Example laplace_reproducible :
  fst (run (RT := DemoRuntime.runtime) 0 42 (PrivacyRun 1 [AddLaplaceNoise [VInt 100] 1]) morning)
  = fst (run (RT := DemoRuntime.runtime) 0 42 (PrivacyRun 1 [AddLaplaceNoise [VInt 100] 1]) evening).
Proof. by vm_compute. Qed.

(** C1 as stated fails on the fallback path of the date generator: a
    start date that does not parse makes every value the current time,
    and the two processes are started at different times. *)
Lemma determinism_date_fallback_counterexample :
  let script := GeneratorRun Date [Generate 1 "date" {[ "start_date" := VStr "soon" ]}] in
  fst (run (RT := DemoRuntime.runtime) 3 42 script morning)
  = Ok [Ok (Column [VDateTime (mkDateTime 738000 32400 0)])] /\
  fst (run (RT := DemoRuntime.runtime) 3 42 script evening)
  = Ok [Ok (Column [VDateTime (mkDateTime 738001 75600 5)])] /\
  fst (run (RT := DemoRuntime.runtime) 3 42 script morning)
  <> fst (run (RT := DemoRuntime.runtime) 3 42 script evening).
Proof.
  split; [by vm_compute|]. split; [by vm_compute|].
  intros H. vm_compute in H. discriminate H.
Qed.

(** With [unique], the order of the column follows the hash salt. *)
Example unique_order_follows_salt :
  let script := GeneratorRun Text [Generate 2 "name" {[ "unique" := VBool true ]}] in
  fst (run (RT := DemoRuntime.runtime) 3 42 script morning)
  = Ok [Ok (Column [VStr "name_6027"; VStr "name_2264"])] /\
  fst (run (RT := DemoRuntime.runtime) 3 42 script evening)
  = Ok [Ok (Column [VStr "name_2264"; VStr "name_6027"])].
Proof. split; by vm_compute. Qed.

End DeterminismFacts.

(* ===================================================================== *)
(** * The four divergences, on every runtime *)
(* ===================================================================== *)

(** The concrete runs above use the demonstration runtime.  None of the
    divergences depends on it: whatever the pseudorandom generators and
    the library functions are, the date fallback returns the reading of
    the clock, a score between 0.26 and 0.27 is rounded out of its
    bounds, a null percentage of 150 makes [generate] raise, and 9901
    different addresses cannot all receive different aliases. *)
Module EveryRuntime.
Import Session BaseGenerator MonadFacts.
Local Open Scope string_scope.

Section Any.
Context `{RT : PyRuntime}.

(** ** The date fallback *)

Lemma date_fallback_reads_clock (fuel : nat) (w : World) :
  fst (run fuel 42 (GeneratorRun Date [Generate 1 "date" {[ "start_date" := VInt 5 ]}]) w)
  = Ok [Ok (Column [VDateTime (wall_clock w (ticks w))])].
Proof.
  unfold run. simpl map_m. unfold gen_call, column, generate_of.
  rewrite DispatchFacts.date_generate_unfold.
  by destruct fuel.
Qed.

(** ** Scores between 0.26 and 0.27 *)

Lemma score_leaves_bounds (fuel : nat) (count : Z) (w : World) :
  exists out w',
    NumericGenerator.generate fuel count "score"
      {[ "min_val" := VFloat (26 # 100); "max_val" := VFloat (27 # 100) ]} w = (Ok out, w') /\
    length out = Z.to_nat count /\
    Forall (fun v => exists x, num_of v = Some x /\ (27 # 100 < x)%Q) out.
Proof.
  destruct (BoundsFacts.generate_plain
              (BoundsFacts.within (py_round (26 # 100) 1) (py_round (27 # 100) 1))
              fuel count "score" NumericGenerator._generate_score
              {[ "min_val" := VFloat (26 # 100); "max_val" := VFloat (27 # 100) ]} w)
    as (out & w' & E & Hlen & Hall).
  - reflexivity.
  - by repeat split.
  - intros w0. unfold NumericGenerator._generate_score.
    apply (BoundsFacts.normal_between_returns _ _ (26 # 100) (27 # 100) 1 10); by vm_compute.
  - exists out, w'. split; [done|]. split; [done|].
    eapply Forall_impl; [exact Hall|]. intros v (x & Hx & Hlo & _).
    exists x. split; [done|]. eapply Qlt_le_trans; [|exact Hlo]. by vm_compute.
Qed.

(** ** A null percentage above 100 *)

Lemma null_percentage_150_raises (fuel : nat) (w : World) :
  exists w',
    NumericGenerator.generate fuel 5 "integer" {[ "null_percentage" := VInt 150 ]} w
    = (Raise (ValueError "Sample larger than population or is negative"), w').
Proof.
  rewrite BoundsFacts.generate_unfold.
  change (dispatch NumericGenerator.numeric_types "integer")
    with (Some NumericGenerator._generate_integer).
  destruct (BoundsFacts.generate_values_returns (fun _ => True)
              (NumericGenerator._generate_integer {[ "null_percentage" := VInt 150 ]})
              NumericGenerator.fallback) with (n := Z.to_nat 5) (w := w)
    as (out & w' & E & Hlen & _).
  { intros w0. unfold NumericGenerator._generate_integer, NumericGenerator.randint_args.
    destruct (randint_returns 0 100 w0 ltac:(lia)) as (n & w1 & E & _).
    exists (VInt n), w1. split; [|done].
    change (arg {[ "null_percentage" := VInt 150 ]} "min_val" (VInt 0)) with (VInt 0).
    change (arg {[ "null_percentage" := VInt 150 ]} "max_val" (VInt 100)) with (VInt 100).
    unfold bind, as_int, ret. by rewrite E. }
  exists w'. unfold bind at 1. rewrite E.
  unfold bind at 1. unfold apply_constraints.
  destruct (decide _) as [Hempty|_].
  { apply (f_equal (fun m : gmap string Value => m !! "null_percentage")) in Hempty.
    by rewrite lookup_empty in Hempty. }
  unfold bind at 1. unfold apply_null_percentage.
  change ({[ "null_percentage" := VInt 150 ]} !! "null_percentage" : option Value)
    with (Some (VInt 150)).
  unfold bind, as_num, random_sample_range. simpl num_of. cbv beta iota.
  rewrite Hlen. by vm_compute.
Qed.

(** ** Addresses *)

(** The aliases an address can receive. *)
Definition address_alias (a : string) : Prop :=
  exists z, (100 <= z <= 9999)%Z /\ a = str_of_Z z ++ " Anonymized St".

Lemma new_address_alias (n : nat) (w : World) :
  exists a w', DataAnonymizer.new_alias "address" n w = (Ok a, w') /\ address_alias a.
Proof.
  unfold DataAnonymizer.new_alias. simpl.
  destruct (randint_returns 100 9999 w ltac:(lia)) as (z & w' & E & Hz).
  exists (str_of_Z z ++ " Anonymized St"), w'. unfold bind. rewrite E.
  split; [done|]. by exists z.
Qed.

Lemma pseudonymize_from_addresses (data : list Value) :
  Forall (fun v => v <> VNone) data ->
  forall (pm : gmap string string) (w : World),
    map_Forall (fun _ a => address_alias a) pm ->
    exists out w',
      DataAnonymizer.pseudonymize_from "address" pm data w = (Ok out, w') /\
      length out = length data /\
      Forall (fun o => exists a, o = VStr a /\ address_alias a) out.
Proof.
  induction 1 as [|item rest Hitem Hrest IH]; intros pm w Hpm; simpl.
  - by exists [], w.
  - destruct (is_none item) eqn:Enone; [by destruct item|].
    assert (Hstep : exists pm1 w1 alias,
              (match pm !! py_str item with
               | Some _ => ret pm
               | None => bind (DataAnonymizer.new_alias "address" (size pm))
                           (fun alias => ret (<[py_str item := alias]> pm))
               end) w = (Ok pm1, w1) /\
              map_Forall (fun _ a => address_alias a) pm1 /\
              pm1 !! py_str item = Some alias).
    { destruct (pm !! py_str item) as [a|] eqn:Ea.
      - by exists pm, w, a.
      - destruct (new_address_alias (size pm) w) as (a & w1 & E1 & Ha).
        exists (<[py_str item := a]> pm), w1, a. unfold bind. rewrite E1.
        split; [done|]. split; [by apply map_Forall_insert_2|by apply lookup_insert_eq]. }
    destruct Hstep as (pm1 & w1 & alias & E1 & Hpm1 & Halias).
    destruct (IH pm1 w1 Hpm1) as (out & w' & E & Hlen & Hall).
    exists (VStr (default "" (pm1 !! py_str item)) :: out), w'.
    unfold bind at 1. rewrite E1. unfold bind. rewrite E. simpl.
    split; [done|]. split; [by rewrite Hlen|].
    constructor; [|done]. exists alias. rewrite Halias. split; [done|].
    by apply (Hpm1 (py_str item)).
Qed.

(** The numbers behind a column of aliases. *)
Lemma alias_numbers (out : list Value) :
  Forall (fun o => exists a, o = VStr a /\ address_alias a) out ->
  NoDup out ->
  exists zs : list Z,
    length zs = length out /\ NoDup zs /\ Forall (fun z => (100 <= z <= 9999)%Z) zs /\
    out = map (fun z => VStr (str_of_Z z ++ " Anonymized St")) zs.
Proof.
  induction 1 as [|o out (a & -> & z & Hz & ->) Hout IH]; intros Hnd.
  - exists []. by repeat split; constructor.
  - apply NoDup_cons in Hnd as [Hnin Hnd].
    destruct (IH Hnd) as (zs & Hlen & Hzs & Hrange & ->).
    exists (z :: zs). split; [simpl; by rewrite Hlen|]. split; [|split].
    + apply NoDup_cons. split; [|done]. intros Hin. apply Hnin.
      apply list_elem_of_fmap. by exists z.
    + by constructor.
    + done.
Qed.

(** At most 9900 different numbers lie between 100 and 9999. *)
Lemma few_house_numbers (zs : list Z) :
  NoDup zs -> Forall (fun z => (100 <= z <= 9999)%Z) zs -> (Z.of_nat (length zs) <= 9900)%Z.
Proof.
  intros Hnd Hrange.
  assert (Hsub : zs ⊆ seqZ 100 9900).
  { intros z Hz. rewrite Forall_forall in Hrange. specialize (Hrange z Hz).
    apply elem_of_seqZ. lia. }
  pose proof (submseteq_length zs (seqZ 100 9900) (NoDup_submseteq _ _ Hnd Hsub)) as Hlen.
  rewrite length_seqZ in Hlen. lia.
Qed.

(** X1.  Pseudonymizing 9901 addresses, none of them [None], yields some
    alias twice, whatever the addresses and whatever the pseudorandom
    generator: there are 9900 house numbers to draw from. *)
Lemma addresses_collide (data : list Value) (w : World) :
  Forall (fun v => v <> VNone) data ->
  Z.of_nat (length data) = 9901%Z ->
  exists out w',
    DataAnonymizer.anonymize_data data "address" "high" w = (Ok out, w') /\
    length out = length data /\
    ~ NoDup out.
Proof.
  intros Hdata Hlen.
  destruct (pseudonymize_from_addresses data Hdata ∅ w (map_Forall_empty _))
    as (out & w' & E & Hlen' & Hall).
  exists out, w'. split; [exact E|]. split; [done|].
  intros Hnd. destruct (alias_numbers out Hall Hnd) as (zs & Hl & Hzs & Hrange & _).
  pose proof (few_house_numbers zs Hzs Hrange). lia.
Qed.

End Any.

(** 9901 different addresses. *)
Definition street : list Value :=
  map (fun n => VStr (str_of_Z n ++ " Main St")) (seqZ 1 9901).

Lemma addresses_collide_witness :
  exists out w',
    DataAnonymizer.anonymize_data (RT := DemoRuntime.runtime) street "address" "high"
      (DemoRuntime.world [] (mkDateTime 738000 0 0) 0) = (Ok out, w') /\
    length out = length street /\
    ~ NoDup out.
Proof.
  apply (addresses_collide (RT := DemoRuntime.runtime) street).
  - unfold street. apply Forall_fmap, Forall_forall. intros n _. discriminate.
  - unfold street. rewrite length_map, length_seqZ. reflexivity.
Defined.

End EveryRuntime.

(* ===================================================================== *)
(** * What masking keeps *)
(* ===================================================================== *)

Module MaskShapeFacts.
Import DataAnonymizer MonadFacts.
Local Open Scope string_scope.

(** ** Digits *)

Lemma digits_of_app (s t : string) : digits_of (s ++ t) = digits_of s ++ digits_of t.
Proof.
  induction s as [|a s IH]; [done|].
  change (String a s ++ t) with (String a (s ++ t)). simpl.
  destruct (is_digit a); [|done].
  change (String a (digits_of s) ++ digits_of t) with (String a (digits_of s ++ digits_of t)).
  by rewrite IH.
Qed.

Lemma digits_of_stars (n : nat) : digits_of (repeat_char "*" n) = "".
Proof. induction n as [|n IH]; [done|]. simpl. exact IH. Qed.

Lemma length_digits_of (s : string) : (String.length (digits_of s) <= String.length s)%nat.
Proof.
  induction s as [|a s IH]; [done|]. simpl. destruct (is_digit a); simpl; lia.
Qed.

(** A string of digits stays one when its head is cut off. *)
Lemma digits_of_drop (d : string) :
  digits_of d = d -> forall n, digits_of (str_drop n d) = str_drop n d.
Proof.
  induction d as [|a d IH]; intros Hd n.
  - by destruct n.
  - simpl in Hd. destruct (is_digit a) eqn:Ea.
    + injection Hd as Hd. destruct n as [|n]; simpl.
      * by rewrite Ea, Hd.
      * by apply IH.
    + pose proof (length_digits_of d) as Hlen. rewrite Hd in Hlen. simpl in Hlen. lia.
Qed.

Lemma digits_of_idem (s : string) : digits_of (digits_of s) = digits_of s.
Proof.
  induction s as [|a s IH]; [done|]. simpl.
  destruct (is_digit a) eqn:Ea; [|done]. simpl. by rewrite Ea, IH.
Qed.

(** ** Slices *)

Lemma str_take_drop (n : nat) (s : string) : str_take n s ++ str_drop n s = s.
Proof.
  revert s. induction n as [|n IH]; intros [|a s]; try done.
  simpl. change (String a (str_take n s) ++ str_drop n s)
    with (String a (str_take n s ++ str_drop n s)). by rewrite IH.
Qed.

Lemma str_drop_drop (n m : nat) (s : string) :
  str_drop n (str_drop m s) = str_drop (m + n) s.
Proof.
  revert s. induction m as [|m IH]; intros s; [done|].
  destruct s as [|a s]; simpl; [by destruct n|]. apply IH.
Qed.

(** Cutting a string in three at positions 3 and 6 loses nothing. *)
Lemma three_parts (m : string) :
  str_take 3 m ++ str_slice 3 6 m ++ str_drop 6 m = m.
Proof.
  unfold str_slice. change (6 - 3)%nat with 3%nat.
  change 6%nat with (3 + 3)%nat. rewrite <- str_drop_drop.
  by rewrite (str_take_drop 3 (str_drop 3 m)), str_take_drop.
Qed.

Lemma digits_of_three_parts (m a b c : string) :
  digits_of a = "" -> digits_of b = "" -> digits_of c = "" ->
  digits_of (a ++ str_take 3 m ++ b ++ str_slice 3 6 m ++ c ++ str_drop 6 m) = digits_of m.
Proof.
  intros Ha Hb Hc. rewrite <- (three_parts m) at 4.
  rewrite !digits_of_app, Ha, Hb, Hc. done.
Qed.

(** The digits of a masked telephone number. *)
Lemma mask_phone_digits (s : string) :
  digits_of (mask_phone s)
  = if (4 <=? String.length (digits_of s))%nat then str_last 4 (digits_of s) else "".
Proof.
  unfold mask_phone. destruct (4 <=? String.length (digits_of s))%nat; [|done].
  set (masked := repeat_char "*" (String.length (digits_of s) - 4) ++ str_last 4 (digits_of s)).
  assert (Hm : digits_of masked = str_last 4 (digits_of s)).
  { unfold masked. rewrite digits_of_app, digits_of_stars. unfold str_last.
    apply digits_of_drop, digits_of_idem. }
  destruct (contains_char "-" s); [|destruct (contains_char "(" s)]; [| |done].
  - rewrite <- Hm. apply (digits_of_three_parts masked "" "-" "-"); done.
  - rewrite <- Hm. apply (digits_of_three_parts masked "(" ") " "-"); done.
Qed.

(** ** Words *)
















Section Columns.
Context `{RT : PyRuntime}.

Lemma anonymize_medium_pii (data : list Value) (field_type : string) (w : World) :
  str_in field_type ["email"; "name"; "phone"; "address"] = true ->
  anonymize_data data field_type "medium" w = (Ok (_mask_pii data field_type), w).
Proof.
  intros H. unfold anonymize_data.
  change (String.eqb "medium" "low") with false.
  change (String.eqb "medium" "medium") with true. cbv iota.
  unfold _medium_anonymization. by rewrite H.
Qed.

Lemma mask_pii_lookup (data : list Value) (field_type : string) (i : nat) (s : string) :
  data !! i = Some (VStr s) ->
  _mask_pii data field_type !! i = Some (mask_item field_type (VStr s)).
Proof. intros H. unfold _mask_pii. by rewrite list_lookup_fmap, H. Qed.

(** X2.  Masking a telephone number at level medium leaves in the clear the
    last four of its digits and nothing else of them; a number of fewer
    than four digits leaves none. *)
Theorem phone_mask_reveals_last_four (data : list Value) (i : nat) (s : string) (w : World) :
  data !! i = Some (VStr s) ->
  exists out masked,
    anonymize_data data "phone" "medium" w = (Ok out, w) /\
    length out = length data /\
    out !! i = Some (VStr masked) /\
    digits_of masked
    = if (4 <=? String.length (digits_of s))%nat then str_last 4 (digits_of s) else "".
Proof.
  intros Hi. exists (_mask_pii data "phone"), (mask_phone s).
  split; [by apply anonymize_medium_pii|]. split; [apply length_fmap|].
  split; [by rewrite (mask_pii_lookup _ _ _ _ Hi)|apply mask_phone_digits].
Qed.



End Columns.

Lemma phone_mask_reveals_last_four_witness :
  exists out masked,
    anonymize_data (RT := DemoRuntime.runtime) [VNone; VStr "(555) 123-4567"] "phone" "medium"
      (DemoRuntime.world [] (mkDateTime 738000 0 0) 0)
    = (Ok out, DemoRuntime.world [] (mkDateTime 738000 0 0) 0) /\
    length out = 2%nat /\
    out !! 1%nat = Some (VStr masked) /\
    digits_of masked = "4567".
Proof.
  exact (phone_mask_reveals_last_four (RT := DemoRuntime.runtime)
           [VNone; VStr "(555) 123-4567"] 1 "(555) 123-4567"
           (DemoRuntime.world [] (mkDateTime 738000 0 0) 0) eq_refl).
Defined.



End MaskShapeFacts.

(* ===================================================================== *)
(** * How far date fuzzing moves a day *)
(* ===================================================================== *)

Module FuzzFacts.
Import DataAnonymizer MonadFacts.
Local Open Scope string_scope.

Section Fuzz.
Context `{RT : PyRuntime}.

(** What [_fuzz_dates] may make of an item: a [datetime] keeps its time
    of day and moves by at most [days_range] days; a string that parses
    as a day is replaced by a day at most [days_range] days away, or
    stays; everything else, a [date] included, stays. *)
Definition fuzzed (days_range : Z) (item y : Value) : Prop :=
  match item with
  | VDateTime d =>
      exists o, y = VDateTime (mkDateTime o (dt_second d) (dt_micro d)) /\
                Z.abs (o - dt_ordinal d) <= days_range
  | VStr s =>
      y = item \/
      exists day o, strptime_ymd s = Some day /\ y = VStr (strftime_ymd o) /\
                    Z.abs (o - day) <= days_range
  | _ => y = item
  end.

Lemma shifted_day (days_range ordinal : Z) (w : World) :
  0 <= days_range ->
  (exists e w', (random_days <- random_randint (- days_range) days_range ;;
                 add_days ordinal random_days) w = (Raise e, w')) \/
  (exists o w', (random_days <- random_randint (- days_range) days_range ;;
                 add_days ordinal random_days) w = (Ok o, w') /\
                Z.abs (o - ordinal) <= days_range).
Proof.
  intros Hd. destruct (randint_returns (- days_range) days_range w ltac:(lia))
    as (n & w1 & E & Hn).
  unfold bind. rewrite E. unfold add_days.
  destruct ((1 <=? ordinal + n) && (ordinal + n <=? MAX_ORDINAL))%Z.
  - right. exists (ordinal + n), w1. split; [done|]. lia.
  - left. by eexists _, _.
Qed.

Lemma fuzz_item_returns (days_range : Z) (item : Value) (w : World) :
  0 <= days_range ->
  exists y w', fuzz_item days_range item w = (Ok y, w') /\ fuzzed days_range item y.
Proof.
  intros Hd. destruct item as [| | | |s| |d|]; try (by eexists _, _).
  - (* a string *)
    simpl. unfold try_except. destruct (strptime_ymd s) as [day|] eqn:Es.
    + destruct (shifted_day days_range day w Hd) as [(e & w' & E)|(o & w' & E & Ho)].
      * unfold bind in *.
        destruct (random_randint (- days_range) days_range w) as [[n| |] w1]; try done.
        -- rewrite E. exists (VStr s), w'. split; [done|by left].
        -- injection E as <- <-. exists (VStr s), w1. split; [done|by left].
      * unfold bind in *.
        destruct (random_randint (- days_range) days_range w) as [[n| |] w1]; try done.
        rewrite E. exists (VStr (strftime_ymd o)), w'. split; [done|].
        right. by exists day, o.
    + exists (VStr s), w. split; [done|by left].
  - (* a datetime *)
    simpl. unfold try_except.
    destruct (shifted_day days_range (dt_ordinal d) w Hd) as [(e & w' & E)|(o & w' & E & Ho)].
    + unfold bind in *.
      destruct (random_randint (- days_range) days_range w) as [[n| |] w1]; try done.
      * rewrite E. exists (VDateTime d), w'. split; [done|].
        exists (dt_ordinal d). split; [by destruct d|]. lia.
      * injection E as <- <-. exists (VDateTime d), w1. split; [done|].
        exists (dt_ordinal d). split; [by destruct d|]. lia.
    + unfold bind in *.
      destruct (random_randint (- days_range) days_range w) as [[n| |] w1]; try done.
      rewrite E. by eexists _, _; split; [done|exists o].
Qed.

(** The window of the level: 30 days at medium, 365 at high. *)
Definition window (level : string) : Z :=
  if String.eqb level "medium" then 30 else 365.

(** X5.  Anonymizing a column of dates at level medium or high ends normally.
    Each [datetime] keeps its time of day and lands at most 30 (medium)
    or 365 (high) days from where it was; a string is left as it is or
    replaced by a day within that window of the day it denotes; a
    [datetime.date] or [datetime.time] object is returned unchanged. *)
Theorem fuzz_dates_window (data : list Value) (field_type level : string) (w : World) :
  field_type = "date" \/ field_type = "datetime" ->
  level = "medium" \/ level = "high" ->
  exists out w',
    anonymize_data data field_type level w = (Ok out, w') /\
    Forall2 (fuzzed (window level)) data out.
Proof.
  intros Hf Hl.
  assert (E : anonymize_data data field_type level = _fuzz_dates data (window level)).
  { by destruct Hf as [-> | ->], Hl as [-> | ->]. }
  rewrite E. unfold _fuzz_dates.
  apply (map_m_returns (fun _ => True)); [|by apply Forall_true].
  intros x w0 _. apply fuzz_item_returns. by destruct Hl as [-> | ->].
Qed.

End Fuzz.

(** A column holding a [datetime], a [date] and [None], at level medium
    on the demonstration runtime. *)
Lemma fuzz_dates_window_witness :
  exists out w',
    anonymize_data (RT := DemoRuntime.runtime)
      [VDateTime (mkDateTime 738000 3600 0); VDate 738000; VNone] "date" "medium"
      (DemoRuntime.world [] (mkDateTime 738000 0 0) 0) = (Ok out, w') /\
    Forall2 (fuzzed (RT := DemoRuntime.runtime) 30)
      [VDateTime (mkDateTime 738000 3600 0); VDate 738000; VNone] out.
Proof.
  apply (fuzz_dates_window (RT := DemoRuntime.runtime)
           [VDateTime (mkDateTime 738000 3600 0); VDate 738000; VNone] "date" "medium");
    by left.
Defined.

End FuzzFacts.

(* ===================================================================== *)
(** * The private statistics *)
(* ===================================================================== *)

Module PrivateStatFacts.
Import DifferentialPrivacy MonadFacts NullFacts RoundFacts.
Local Open Scope string_scope.

Lemma clean_nothing (data : list Value) :
  Forall (fun v => v = VNone) data -> clean data = [].
Proof.
  induction 1 as [|v data -> _ IH]; [done|].
  unfold clean in *. rewrite filter_cons, decide_False; done.
Qed.


Lemma clean_nil_inv (data : list Value) : clean data <> [] -> data <> [].
Proof. by intros H ->. Qed.

(** ** The smallest and the largest of a list *)





Lemma nums_of_length (l : list Value) (xs : list Q) :
  nums_of l = Some xs -> length xs = length l.
Proof.
  revert xs. induction l as [|v l IH]; intros xs; simpl.
  - by intros [= <-].
  - destruct (num_of v); [|done]. destruct (nums_of l) as [ys|]; [|done].
    intros [= <-]. simpl. by rewrite (IH ys).
Qed.

Lemma Forall2_right_all {A B} (P : B -> Prop) (l : list A) (k : list B) :
  Forall2 (fun _ y => P y) l k -> Forall P k.
Proof. induction 1; by constructor. Qed.

Lemma py_round_0 : (py_round 0 2 == 0)%Q.
Proof. reflexivity. Qed.

Section Stats.
Context `{RT : PyRuntime}.

(** ** One statistic *)

(** With numbers to work on, an epsilon other than zero and a scale
    that is not negative, a private statistic is the true one plus one
    Laplace draw, rounded. *)
Lemma private_stat_returns (stat : list Q -> Q) (post : Q -> Q)
    (epsilon : Q) (data : list Value) (sensitivity : Q) (xs : list Q) (w : World) :
  nums_of (clean data) = Some xs -> xs <> [] ->
  ~ (epsilon == 0)%Q -> (0 <= sensitivity / epsilon)%Q ->
  exists noise w',
    private_stat stat post epsilon data sensitivity w
    = (Ok (py_round (post (stat xs + noise)%Q) 2), w').
Proof.
  intros Hxs Hne Heps Hscale. unfold private_stat.
  destruct data as [|v data]; [by injection Hxs as <-|].
  destruct (clean (v :: data)) as [|c cs] eqn:Ec; [by injection Hxs as <-|].
  unfold bind at 1. unfold require_nums. rewrite Hxs. unfold ret at 1.
  unfold bind at 1. unfold py_div.
  destruct (Qeq_bool epsilon 0) eqn:E; [by apply Qeq_bool_iff in E|].
  unfold ret at 1. unfold bind. unfold np_random_laplace.
  rewrite (Qltb_nonneg _ Hscale). unfold lift_np.
  destruct (np_laplace 0 (sensitivity / epsilon) (np_rng w)) as [noise g].
  by exists noise, (set_np g w).
Qed.

(** Without any number, nothing is computed and nothing is drawn. *)
Lemma private_stat_nothing (stat : list Q -> Q) (post : Q -> Q)
    (epsilon : Q) (data : list Value) (sensitivity : Q) (w : World) :
  Forall (fun v => v = VNone) data ->
  private_stat stat post epsilon data sensitivity w = (Ok 0%Q, w).
Proof.
  intros H. unfold private_stat. destruct data as [|v data]; [done|].
  by rewrite (clean_nothing _ H).
Qed.

Lemma private_stat_zero_epsilon (stat : list Q -> Q) (post : Q -> Q)
    (epsilon : Q) (data : list Value) (sensitivity : Q) (xs : list Q) (w : World) :
  nums_of (clean data) = Some xs -> xs <> [] -> (epsilon == 0)%Q ->
  private_stat stat post epsilon data sensitivity w
  = (Raise (ZeroDivisionError "float division by zero"), w).
Proof.
  intros Hxs Hne Heps. unfold private_stat.
  destruct data as [|v data]; [by injection Hxs as <-|].
  destruct (clean (v :: data)) as [|c cs] eqn:Ec; [by injection Hxs as <-|].
  unfold bind at 1. unfold require_nums. rewrite Hxs. unfold ret at 1.
  unfold bind at 1. unfold py_div.
  apply Qeq_bool_iff in Heps. by rewrite Heps.
Qed.

Lemma private_stat_negative_scale (stat : list Q -> Q) (post : Q -> Q)
    (epsilon : Q) (data : list Value) (sensitivity : Q) (xs : list Q) (w : World) :
  nums_of (clean data) = Some xs -> xs <> [] ->
  (epsilon < 0)%Q -> (0 < sensitivity)%Q ->
  private_stat stat post epsilon data sensitivity w = (Raise (ValueError "scale < 0"), w).
Proof.
  intros Hxs Hne Heps Hs. unfold private_stat.
  destruct data as [|v data]; [by injection Hxs as <-|].
  destruct (clean (v :: data)) as [|c cs] eqn:Ec; [by injection Hxs as <-|].
  unfold bind at 1. unfold require_nums. rewrite Hxs. unfold ret at 1.
  unfold bind at 1. unfold py_div.
  destruct (Qeq_bool epsilon 0) eqn:E.
  { apply Qeq_bool_iff in E. rewrite E in Heps. by apply Qlt_irrefl in Heps. }
  unfold ret at 1. unfold bind. unfold np_random_laplace.
  assert (Hneg : Qltb (sensitivity / epsilon) 0 = true); [|by rewrite Hneg].
  unfold Qltb. apply negb_true_iff. apply not_true_is_false. intros H.
  apply Qle_bool_iff in H.
  assert (Hinv : (/ epsilon < 0)%Q).
  { destruct epsilon as [[|p|p] d]; try done. }
  assert (Hpos : (0 < sensitivity * - / epsilon)%Q) by (apply Qmult_lt_0_compat; lra).
  assert (E2 : (sensitivity / epsilon == - (sensitivity * - / epsilon))%Q)
    by (unfold Qdiv; ring).
  rewrite E2 in H. lra.
Qed.

(** X6.  On a column that holds no value (empty, or [None] throughout) the
    three private statistics are 0, the aggregation is all zeros and
    the histogram is empty, both with no budget used; the world is left
    as it was, and epsilon is not looked at: it may be zero or negative. *)
Theorem nothing_to_release (epsilon : Q) (data : list Value) (sensitivity : Q)
    (nbins : Z) (w : World) :
  Forall (fun v => v = VNone) data ->
  private_mean epsilon data sensitivity w = (Ok 0%Q, w) /\
  private_median epsilon data sensitivity w = (Ok 0%Q, w) /\
  private_std epsilon data sensitivity w = (Ok 0%Q, w) /\
  apply_private_aggregation epsilon data w = (Ok (mkAggregates 0 0 0 0 0 0), w) /\
  apply_private_histogram epsilon data nbins w = (Ok (mkHistogram [] [] 0), w).
Proof.
  intros H. split; [by apply private_stat_nothing|].
  split; [by apply private_stat_nothing|]. split; [by apply private_stat_nothing|].
  unfold apply_private_aggregation, apply_private_histogram.
  destruct data as [|v data]; [done|]. by rewrite (clean_nothing _ H).
Qed.

(** X7.  The private statistics do not guard epsilon the way the noise
    routines do.  On a column with at least one number, an epsilon of
    zero makes each of them raise [ZeroDivisionError], and a negative
    epsilon with a positive sensitivity makes numpy refuse the scale
    with a [ValueError]; in both cases nothing has been drawn. *)
Theorem private_stats_need_positive_epsilon (epsilon : Q) (data : list Value)
    (sensitivity : Q) (xs : list Q) (w : World) :
  nums_of (clean data) = Some xs -> xs <> [] ->
  ((epsilon == 0)%Q ->
   private_mean epsilon data sensitivity w
   = (Raise (ZeroDivisionError "float division by zero"), w) /\
   private_median epsilon data sensitivity w
   = (Raise (ZeroDivisionError "float division by zero"), w) /\
   private_std epsilon data sensitivity w
   = (Raise (ZeroDivisionError "float division by zero"), w)) /\
  ((epsilon < 0)%Q -> (0 < sensitivity)%Q ->
   private_mean epsilon data sensitivity w = (Raise (ValueError "scale < 0"), w) /\
   private_median epsilon data sensitivity w = (Raise (ValueError "scale < 0"), w) /\
   private_std epsilon data sensitivity w = (Raise (ValueError "scale < 0"), w)).
Proof.
  intros Hxs Hne. split.
  - intros Heps. repeat split; by apply (private_stat_zero_epsilon _ _ _ _ _ xs).
  - intros Heps Hs. repeat split; by apply (private_stat_negative_scale _ _ _ _ _ xs).
Qed.

Lemma py_round_nonneg (x : Q) : (0 <= x)%Q -> (0 <= py_round x 2)%Q.
Proof.
  intros Hx. rewrite <- py_round_0. apply py_round_mono; [reflexivity|done].
Qed.

Lemma py_max_0_nonneg (x : Q) : (0 <= py_max 0 x)%Q.
Proof.
  unfold py_max. destruct (Qlt_le_dec 0 x); [by apply Qlt_le_weak|apply Qle_refl].
Qed.

(** X8.  With a positive epsilon and a sensitivity that is not negative,
    [private_std] ends normally on every column of numbers and [None],
    and what it returns is never negative, whatever the noise drawn. *)
Theorem private_std_not_negative (epsilon : Q) (data : list Value) (sensitivity : Q)
    (xs : list Q) (w : World) :
  nums_of (clean data) = Some xs -> (0 < epsilon)%Q -> (0 <= sensitivity)%Q ->
  exists x w', private_std epsilon data sensitivity w = (Ok x, w') /\ (0 <= x)%Q.
Proof.
  intros Hxs Heps Hs. destruct xs as [|x0 xs].
  - exists 0%Q, w. split; [|apply Qle_refl].
    apply private_stat_nothing.
    assert (Hc : clean data = []).
    { apply nums_of_length in Hxs. by destruct (clean data). }
    apply Forall_forall. intros v Hv. destruct (is_none v) eqn:Hn; [by destruct v|].
    assert (Hin : v ∈ clean data) by (by apply list_elem_of_filter).
    rewrite Hc in Hin. by apply elem_of_nil in Hin.
  - destruct (private_stat_returns np_std (fun x => py_max 0 x) epsilon data sensitivity
                (x0 :: xs) w Hxs) as (noise & w' & E); [done| | |].
    + intros H. rewrite H in Heps. by apply Qlt_irrefl in Heps.
    + apply Qle_shift_div_l; [done|]. by rewrite Qmult_0_l.
    + eexists _, w'. split; [exact E|]. apply py_round_nonneg, py_max_0_nonneg.
Qed.

(** ** The aggregation *)


(** ** The histogram *)

Lemma noisy_counts_returns (epsilon : Q) (cs : list Z) (w : World) :
  (0 < epsilon)%Q ->
  exists out w',
    map_m (fun count =>
             scale <- py_div 1 epsilon ;;
             noise <- np_random_laplace 0 scale ;;
             ret (Z.max 0 (round_half_even (inject_Z count + noise)))) cs w = (Ok out, w') /\
    Forall2 (fun _ n => 0 <= n) cs out.
Proof.
  intros Heps. apply (map_m_returns (fun _ => True)); [|by apply Forall_true].
  intros count w0 _. unfold bind at 1. unfold py_div.
  destruct (Qeq_bool epsilon 0) eqn:E.
  { apply Qeq_bool_iff in E. rewrite E in Heps. by apply Qlt_irrefl in Heps. }
  unfold ret at 1. unfold bind. unfold np_random_laplace.
  rewrite Qltb_nonneg.
  - unfold lift_np. destruct (np_laplace 0 (1 / epsilon) (np_rng w0)) as [noise g].
    eexists _, _. split; [reflexivity|]. lia.
  - apply Qle_shift_div_l; [done|]. by rewrite Qmult_0_l.
Qed.

(** X10.  On a column of numbers and [None] with at least one number, with a
    positive epsilon and bins numpy accepts, [apply_private_histogram]
    ends normally with one count for each bin; no count is negative,
    however large the noise; the bins are the midpoints of the edges and
    the budget reported is epsilon. *)
Theorem histogram_counts_not_negative (epsilon : Q) (data : list Value) (nbins : Z)
    (xs : list Q) (hist : list Z) (bin_edges : list Q) (w : World) :
  nums_of (clean data) = Some xs -> xs <> [] -> (0 < epsilon)%Q ->
  np_histogram xs nbins = Ok (hist, bin_edges) ->
  exists h w',
    apply_private_histogram epsilon data nbins w = (Ok h, w') /\
    length (counts h) = length hist /\
    Forall (fun n => 0 <= n) (counts h) /\
    bins h = bin_centers bin_edges /\
    (hist_budget_used h == epsilon)%Q.
Proof.
  intros Hxs Hne Heps Hh. unfold apply_private_histogram.
  destruct data as [|v data]; [by injection Hxs as <-|].
  destruct (clean (v :: data)) as [|c cs] eqn:Ec; [by injection Hxs as <-|].
  assert (Hc : isinstance_int_float c = true).
  { unfold isinstance_int_float. simpl in Hxs. by destruct (num_of c). }
  rewrite Hc. cbv iota. unfold bind at 1. unfold bind at 1.
  unfold require_nums. rewrite Hxs.
  unfold ret at 1. unfold bind at 1. rewrite Hh. unfold ret at 1. simpl fst. simpl snd.
  destruct (noisy_counts_returns epsilon hist w Heps) as (out & w' & E & Hall).
  unfold bind at 1. rewrite E.
  eexists _, w'. split; [reflexivity|]. simpl.
  split; [symmetry; by eapply Forall2_length|].
  split; [|split; [done|reflexivity]].
  by apply (Forall2_right_all _ hist).
Qed.

End Stats.

(** Two columns without a value, epsilon being zero. *)
Lemma nothing_to_release_witness :
  let w := DemoRuntime.world [] (mkDateTime 738000 0 0) 0 in
  private_mean (RT := DemoRuntime.runtime) 0 [VNone; VNone] 1 w = (Ok 0%Q, w) /\
  private_median (RT := DemoRuntime.runtime) 0 [VNone; VNone] 1 w = (Ok 0%Q, w) /\
  private_std (RT := DemoRuntime.runtime) 0 [VNone; VNone] 1 w = (Ok 0%Q, w) /\
  apply_private_aggregation (RT := DemoRuntime.runtime) 0 [VNone; VNone] w
  = (Ok (mkAggregates 0 0 0 0 0 0), w) /\
  apply_private_histogram (RT := DemoRuntime.runtime) 0 [VNone; VNone] 10 w
  = (Ok (mkHistogram [] [] 0), w).
Proof.
  apply (nothing_to_release (RT := DemoRuntime.runtime) 0 [VNone; VNone] 1 10).
  by repeat constructor.
Defined.

(** Epsilon zero on the column 1, None, 3. *)
Lemma private_stats_need_positive_epsilon_witness :
  let w := DemoRuntime.world [] (mkDateTime 738000 0 0) 0 in
  private_mean (RT := DemoRuntime.runtime) 0 [VInt 1; VNone; VInt 3] 1 w
  = (Raise (ZeroDivisionError "float division by zero"), w) /\
  private_median (RT := DemoRuntime.runtime) (-1) [VInt 1; VNone; VInt 3] 1 w
  = (Raise (ValueError "scale < 0"), w).
Proof.
  destruct (private_stats_need_positive_epsilon (RT := DemoRuntime.runtime)
              0 [VInt 1; VNone; VInt 3] 1 [1; 3]%Q
              (DemoRuntime.world [] (mkDateTime 738000 0 0) 0) eq_refl ltac:(discriminate))
    as [Hzero _].
  destruct (private_stats_need_positive_epsilon (RT := DemoRuntime.runtime)
              (-1) [VInt 1; VNone; VInt 3] 1 [1; 3]%Q
              (DemoRuntime.world [] (mkDateTime 738000 0 0) 0) eq_refl ltac:(discriminate))
    as [_ Hneg].
  split; [exact (proj1 (Hzero ltac:(reflexivity)))|].
  exact (proj1 (proj2 (Hneg ltac:(reflexivity) ltac:(reflexivity)))).
Defined.

Lemma private_std_not_negative_witness :
  exists x w',
    private_std (RT := DemoRuntime.runtime) 1 [VInt 1; VNone; VInt 3] 1
      (DemoRuntime.world [-30] (mkDateTime 738000 0 0) 0) = (Ok x, w') /\ (0 <= x)%Q.
Proof.
  apply (private_std_not_negative (RT := DemoRuntime.runtime) 1 [VInt 1; VNone; VInt 3] 1
           [1; 3]%Q); [reflexivity|reflexivity|discriminate].
Defined.


Lemma histogram_counts_not_negative_witness :
  exists h w',
    apply_private_histogram (RT := DemoRuntime.runtime) 1 [VInt 1; VNone; VInt 3; VInt 3] 2
      (DemoRuntime.world [0; 0] (mkDateTime 738000 0 0) 0) = (Ok h, w') /\
    length (counts h) = 2%nat /\
    Forall (fun n => 0 <= n) (counts h) /\
    bins h = bin_centers [2 # 2; 4 # 2; 6 # 2]%Q /\
    (hist_budget_used h == 1)%Q.
Proof.
  destruct (histogram_counts_not_negative (RT := DemoRuntime.runtime) 1
              [VInt 1; VNone; VInt 3; VInt 3] 2 [1; 3; 3]%Q [1; 2] [2 # 2; 4 # 2; 6 # 2]%Q
              (DemoRuntime.world [0; 0] (mkDateTime 738000 0 0) 0))
    as (h & w' & E & Hlen & Hpos & Hbins & Hbudget);
    [reflexivity|discriminate|reflexivity|by vm_compute|].
  exists h, w'. by repeat split.
Defined.

End PrivateStatFacts.

(* ===================================================================== *)
(** * k-anonymity: bounds and monotonicity *)
(* ===================================================================== *)

Module KAnonymityBounds.
Import DifferentialPrivacy KAnonymityFacts.
Local Open Scope string_scope.

(** The number of sizes below [k]. *)
Definition below (k : Z) (sizes : list Z) : Z :=
  Z.of_nat (length (filter (fun s => (s < k)%Z) sizes)).

(** The dictionary [check_k_anonymity] returns, from the sizes of the
    groups its first loop builds. *)
Lemma check_by_sizes (data : list Record_) (quasi_identifiers : list string) (k : Z) :
  data <> [] -> quasi_identifiers <> [] ->
  check_k_anonymity data quasi_identifiers k
  = let sizes := sizes_of (build_groups quasi_identifiers data) in
    mkKAnonymity (below k sizes =? 0)%Z
      (match foldl min_size Infinite sizes with Infinite => Size 0 | Size n => Size n end)
      (below k sizes) (Z.of_nat (length sizes)) (Some k).
Proof.
  intros Hd Hq. unfold check_k_anonymity.
  destruct data as [|r data]; [done|]. destruct quasi_identifiers as [|q qis]; [done|].
  unfold scan_groups. rewrite scan_from. cbv zeta. unfold below, sizes_of.
  by rewrite Z.add_0_l, length_map.
Qed.

Definition records_in (sizes : list Z) : Z := foldr Z.add 0 sizes.

(** One more record: one group grows by one, or a group of one is added. *)
Lemma groups_add_sizes (key : list Value) (r : Record_)
    (groups : list (list Value * list Record_)) :
  records_in (sizes_of (groups_add key r groups)) = records_in (sizes_of groups) + 1 /\
  (Forall (fun s => 1 <= s) (sizes_of groups) ->
   Forall (fun s => 1 <= s) (sizes_of (groups_add key r groups))).
Proof.
  induction groups as [|[key' records] groups [IH1 IH2]]; simpl.
  - split; [done|]. intros _. by repeat constructor.
  - destruct (key_eqb key key'); simpl.
    + split.
      * rewrite length_app. unfold records_in, sizes_of. simpl. lia.
      * intros H. apply Forall_cons in H as [H1 H2]. constructor; [|done].
        simpl in *. rewrite length_app. simpl. lia.
    + split.
      * unfold records_in, sizes_of in *. simpl. lia.
      * intros H. apply Forall_cons in H as [H1 H2]. constructor; [done|by apply IH2].
Qed.

(** Every record is counted in exactly one group, and no group is empty. *)
Lemma build_groups_sizes (quasi_identifiers : list string) (data : list Record_) :
  records_in (sizes_of (build_groups quasi_identifiers data)) = Z.of_nat (length data) /\
  Forall (fun s => 1 <= s) (sizes_of (build_groups quasi_identifiers data)).
Proof.
  unfold build_groups. induction data as [|r data [IH1 IH2]] using rev_ind.
  - split; [done|constructor].
  - rewrite foldl_snoc.
    destruct (groups_add_sizes (group_key quasi_identifiers r) r
                (foldl (fun groups record =>
                          groups_add (group_key quasi_identifiers record) record groups)
                       [] data)) as [H1 H2].
    split; [|by apply H2]. rewrite H1, IH1, length_app. simpl. lia.
Qed.

Lemma total_bounds (sizes : list Z) :
  Forall (fun s => 1 <= s) sizes ->
  Z.of_nat (length sizes) <= records_in sizes /\ forall s, s ∈ sizes -> s <= records_in sizes.
Proof.
  induction 1 as [|x sizes Hx Hs [IH1 IH2]]; unfold records_in in *; simpl.
  - split; [done|]. intros s Hs. by apply elem_of_nil in Hs.
  - split; [lia|]. intros s Hin. apply elem_of_cons in Hin as [->|Hin].
    + lia.
    + specialize (IH2 s Hin). lia.
Qed.

Lemma below_mono (k k' : Z) (sizes : list Z) : k' <= k -> below k' sizes <= below k sizes.
Proof.
  intros Hk. unfold below. induction sizes as [|s sizes IH]; [done|].
  rewrite !filter_cons.
  destruct (decide (s < k')), (decide (s < k)); simpl; lia.
Qed.

Lemma below_le_length (k : Z) (sizes : list Z) : 0 <= below k sizes <= Z.of_nat (length sizes).
Proof.
  unfold below. pose proof (length_filter (fun s => s < k) sizes). lia.
Qed.

Lemma below_none (k : Z) (sizes : list Z) :
  Forall (fun s => k <= s) sizes -> below k sizes = 0.
Proof.
  unfold below. induction 1 as [|s sizes Hs _ IH]; [done|].
  rewrite filter_cons, decide_False by lia. exact IH.
Qed.

Lemma below_all (k : Z) (sizes : list Z) :
  Forall (fun s => s < k) sizes -> below k sizes = Z.of_nat (length sizes).
Proof.
  unfold below. induction 1 as [|s sizes Hs _ IH]; [done|].
  rewrite filter_cons, decide_True by done. simpl length. lia.
Qed.

(** X11.  A data set that is k-anonymous is k'-anonymous for every smaller
    k', and lowering k never adds a violation.  This holds for every
    input, the empty ones included. *)
Theorem k_anonymity_monotone (data : list Record_) (quasi_identifiers : list string)
    (k k' : Z) :
  k' <= k ->
  violations (check_k_anonymity data quasi_identifiers k')
  <= violations (check_k_anonymity data quasi_identifiers k) /\
  (k_anonymity_satisfied (check_k_anonymity data quasi_identifiers k) = true ->
   k_anonymity_satisfied (check_k_anonymity data quasi_identifiers k') = true).
Proof.
  intros Hk.
  destruct data as [|r data]; [done|].
  destruct quasi_identifiers as [|q qis]; [done|].
  rewrite !check_by_sizes by done. cbv zeta. simpl.
  set (sizes := sizes_of (build_groups (q :: qis) (r :: data))).
  pose proof (below_mono k k' sizes Hk). pose proof (below_le_length k' sizes).
  split; [done|]. rewrite !Z.eqb_eq. lia.
Qed.

(** X12.  For a non-empty list of [n] records and a non-empty list of
    quasi-identifiers: there are between 1 and [n] groups, the smallest
    has between 1 and [n] records, the violations are at most the number
    of groups; every such data set is 1-anonymous, and none is
    k-anonymous for a k above [n], every group then being a violation. *)
Theorem k_anonymity_bounds (data : list Record_) (quasi_identifiers : list string) (k : Z) :
  data <> [] -> quasi_identifiers <> [] ->
  let result := check_k_anonymity data quasi_identifiers k in
  let n := Z.of_nat (length data) in
  (exists m, min_group_size result = Size m /\ 1 <= m <= n) /\
  1 <= total_groups result <= n /\
  0 <= violations result <= total_groups result /\
  (k <= 1 -> k_anonymity_satisfied result = true) /\
  (n < k -> k_anonymity_satisfied result = false /\
            violations result = total_groups result).
Proof.
  intros Hd Hq result n. unfold result. rewrite check_by_sizes by done. cbv zeta. simpl.
  destruct (build_groups_sizes quasi_identifiers data) as [Hsum Hpos].
  set (sizes := sizes_of (build_groups quasi_identifiers data)) in *. fold n in Hsum.
  destruct (total_bounds sizes Hpos) as [Hlen Hmax].
  assert (Hn : 1 <= n) by (unfold n; destruct data; [done|simpl; lia]).
  destruct sizes as [|s0 rest] eqn:Es; [unfold records_in in Hsum; simpl in Hsum; lia|].
  rewrite <- Es in *. assert (Hl : 1 <= Z.of_nat (length sizes)) by (rewrite Es; simpl; lia).
  split; [|split; [lia|split; [apply below_le_length|split]]].
  - rewrite Es. simpl foldl.
    destruct (min_size_fold rest s0) as (m & Em & Hin & _). rewrite Em.
    exists m. split; [done|]. rewrite <- Es in Hin.
    split; [by apply (proj1 (Forall_forall _ _) Hpos)|].
    specialize (Hmax m Hin). lia.
  - intros Hk. rewrite below_none; [done|].
    eapply Forall_impl; [exact Hpos|]. intros s Hs. simpl in Hs. lia.
  - intros Hk. rewrite below_all.
    + split; [|done]. apply Z.eqb_neq. lia.
    + apply Forall_forall. intros s Hs. specialize (Hmax s Hs). lia.
Qed.

(** Four visits, three of them from the same postal area. *)
Definition visits : list Record_ :=
  [ {[ "zip" := VStr "12345"; "age" := VInt 30 ]};
    {[ "zip" := VStr "12345"; "age" := VInt 41 ]};
    {[ "zip" := VStr "99999" ]};
    {[ "zip" := VStr "12345"; "age" := VInt 30 ]} ].

Lemma k_anonymity_monotone_witness :
  violations (check_k_anonymity visits ["zip"] 2)
  <= violations (check_k_anonymity visits ["zip"] 3) /\
  (k_anonymity_satisfied (check_k_anonymity visits ["zip"] 3) = true ->
   k_anonymity_satisfied (check_k_anonymity visits ["zip"] 2) = true).
Proof. apply (k_anonymity_monotone visits ["zip"] 3 2). lia. Defined.

Lemma k_anonymity_bounds_witness :
  let result := check_k_anonymity visits ["zip"; "age"] 5 in
  (exists m, min_group_size result = Size m /\ 1 <= m <= 4) /\
  1 <= total_groups result <= 4 /\
  0 <= violations result <= total_groups result /\
  (5 <= 1 -> k_anonymity_satisfied result = true) /\
  (4 < 5 -> k_anonymity_satisfied result = false /\
            violations result = total_groups result).
Proof. apply (k_anonymity_bounds visits ["zip"; "age"] 5); discriminate. Defined.

End KAnonymityBounds.

(* ===================================================================== *)
(** * Data quality controls: duplicates, outliers, null percentages *)
(* ===================================================================== *)

Module QualityFacts.
Import BaseGenerator MonadFacts ConstraintFacts.
Local Open Scope string_scope.


Lemma Qleb_false_pos (q : Q) : Qleb q 0 = false -> (0 < q)%Q.
Proof.
  unfold Qleb. intros H. apply Qnot_le_lt. intros Hle.
  apply Qle_bool_iff in Hle. congruence.
Qed.


Section Quality.
Context `{RT : PyRuntime}.


(** ** [create_duplicates] *)


(** ** [introduce_outliers] *)




(** ** Null percentages outside 0..100 *)

(** X15.  The generator does not check [null_percentage].  A percentage that
    is zero or negative is ignored: the column comes back as it was and
    nothing is drawn.  A percentage for which [int(n * p / 100)] exceeds
    the length [n] of the column (so some p above 100) makes
    [apply_constraints] raise the [ValueError] of [random.sample]. *)
Theorem null_percentage_out_of_range (fuel : nat)
    (self_generate : Z -> gmap string Value -> M (list Value))
    (data : list Value) (constraints : gmap string Value) (p : Value) (q : Q) (w : World) :
  constraints !! "null_percentage" = Some p ->
  num_of p = Some q ->
  ((q <= 0)%Q -> py_truthy (arg constraints "unique" (VBool false)) = false ->
   apply_constraints fuel self_generate data constraints w = (Ok data, w)) /\
  (Z.of_nat (length data) < percent_count (length data) q ->
   apply_constraints fuel self_generate data constraints w
   = (Raise (ValueError "Sample larger than population or is negative"), w)).
Proof.
  intros Hp Hq.
  assert (Hunfold : apply_constraints fuel self_generate data constraints w
                    = if Qltb 0 q
                      then bind (bind (random_sample_range (length data)
                                         (percent_count (length data) q))
                                      (fun null_indices => ret (set_nulls null_indices data)))
                                (fun data => apply_unique fuel self_generate data constraints) w
                      else apply_unique fuel self_generate data constraints w).
  { unfold apply_constraints.
    destruct (decide (constraints = ∅)) as [->|_]; [by rewrite lookup_empty in Hp|].
    unfold bind at 1. unfold apply_null_percentage. rewrite Hp.
    unfold bind at 1, as_num. rewrite Hq. unfold ret at 1. cbv beta iota.
    by destruct (Qltb 0 q). }
  rewrite Hunfold. clear Hunfold. split.
  - intros Hle Hu. assert (H0 : Qltb 0 q = false).
    { unfold Qltb. apply Qle_bool_iff in Hle. by rewrite Hle. }
    rewrite H0. by apply apply_unique_off.
  - intros Hbig. assert (Hpos : Qltb 0 q = true).
    { unfold Qltb. apply negb_true_iff, not_true_is_false. intros Hle.
      apply Qle_bool_iff in Hle.
      assert (percent_count (length data) q <= 0); [|lia].
      unfold percent_count, py_int.
      assert (Hs : (inject_Z (Z.of_nat (length data)) * q / 100 <= 0)%Q).
      { apply Qle_shift_div_r; [reflexivity|]. rewrite Qmult_0_l.
        assert (0 <= inject_Z (Z.of_nat (length data)))%Q.
        { change 0%Q with (inject_Z 0). rewrite <- Zle_Qle. lia. }
        nra. }
      destruct (Qle_bool 0 _) eqn:E.
      - apply Qfloor_resp_le in Hs. exact Hs.
      - apply Qceiling_resp_le in Hs. exact Hs. }
    rewrite Hpos. unfold bind, random_sample_range.
    destruct (Z.ltb_spec (Z.of_nat (length data)) (percent_count (length data) q)); [|lia].
    by rewrite orb_true_r.
Qed.

End Quality.



Lemma null_percentage_out_of_range_witness :
  let w := DemoRuntime.world [] (mkDateTime 738000 0 0) 0 in
  apply_constraints (RT := DemoRuntime.runtime) 1 (fun _ _ => ret [])
    [VInt 1; VInt 2] {[ "null_percentage" := VInt (-5) ]} w = (Ok [VInt 1; VInt 2], w) /\
  apply_constraints (RT := DemoRuntime.runtime) 1 (fun _ _ => ret [])
    [VInt 1; VInt 2] {[ "null_percentage" := VInt 150 ]} w
  = (Raise (ValueError "Sample larger than population or is negative"), w).
Proof.
  split.
  - destruct (null_percentage_out_of_range (RT := DemoRuntime.runtime) 1 (fun _ _ => ret [])
                [VInt 1; VInt 2] {[ "null_percentage" := VInt (-5) ]} (VInt (-5)) (-5)
                (DemoRuntime.world [] (mkDateTime 738000 0 0) 0)) as [H _];
      [reflexivity|reflexivity|].
    apply H; [discriminate|reflexivity].
  - destruct (null_percentage_out_of_range (RT := DemoRuntime.runtime) 1 (fun _ _ => ret [])
                [VInt 1; VInt 2] {[ "null_percentage" := VInt 150 ]} (VInt 150) 150
                (DemoRuntime.world [] (mkDateTime 738000 0 0) 0)) as [_ H];
      [reflexivity|reflexivity|].
    apply H. reflexivity.
Defined.

End QualityFacts.

(* ===================================================================== *)
(** * Columns with bounds: integers, dates, weekdays, custom text *)
(* ===================================================================== *)

Module ColumnFacts.
Import BaseGenerator MonadFacts BoundsFacts DispatchFacts.
Local Open Scope string_scope.

Section Columns.
Context `{RT : PyRuntime}.

(** The loop of [generate], each turn of which ends normally, by the
    generator or by the fallback. *)
Lemma generate_values_attempts (P : Value -> Prop) (generator_func fallback : M Value) :
  (forall w, exists v w',
      try_except generator_func (fun _ => fallback) w = (Ok v, w') /\ P v) ->
  forall n w, exists out w',
    generate_values n generator_func fallback w = (Ok out, w') /\
    length out = n /\ Forall P out.
Proof.
  intros Hg. induction n as [|n IH]; intros w; simpl.
  - by exists [], w.
  - destruct (Hg w) as (v & w1 & E1 & Hv).
    destruct (IH w1) as (out & w2 & E2 & Hlen & Hall).
    exists (v :: out), w2. unfold bind. rewrite E1, E2.
    split; [done|]. split; [simpl; by rewrite Hlen|by constructor].
Qed.

(** ** Integers *)

Lemma numeric_generate_attempts (P : Value -> Prop) (fuel : nat) (count : Z)
    (numeric_type : string) (generator_func : gmap string Value -> M Value)
    (kwargs : gmap string Value) (w : World) :
  dispatch NumericGenerator.numeric_types numeric_type = Some generator_func ->
  plain kwargs ->
  (forall w, exists v w',
      try_except (generator_func kwargs) (fun _ => NumericGenerator.fallback) w = (Ok v, w')
      /\ P v) ->
  exists out w',
    NumericGenerator.generate fuel count numeric_type kwargs w = (Ok out, w') /\
    length out = Z.to_nat count /\ Forall P out.
Proof.
  intros Hd Hplain Hg. rewrite generate_unfold, Hd.
  destruct (generate_values_attempts P (generator_func kwargs) NumericGenerator.fallback Hg
              (Z.to_nat count) w) as (out & w' & E & Hlen & Hall).
  exists out, w'. unfold bind at 1. rewrite E.
  unfold bind. rewrite apply_constraints_plain by done.
  destruct Hplain as (_ & _ & Hout). by rewrite Hout.
Qed.

(** X16.  An [integer] column with integer bounds [a <= b] holds integers
    between [a] and [b].  With the bounds the wrong way round, [a > b],
    no error is reported: [random.randint] raises for every value, the
    fallback replaces it, and the column holds integers between 1 and
    100, whatever [a] and [b] were. *)
Theorem integer_column_bounds (fuel : nat) (count : Z) (kwargs : gmap string Value)
    (a b : Z) (w : World) :
  plain kwargs ->
  arg kwargs "min_val" (VInt 0) = VInt a ->
  arg kwargs "max_val" (VInt 100) = VInt b ->
  exists out w',
    NumericGenerator.generate fuel count "integer" kwargs w = (Ok out, w') /\
    length out = Z.to_nat count /\
    Forall (fun v => exists n, v = VInt n /\
                       if (a <=? b)%Z then a <= n <= b else 1 <= n <= 100) out.
Proof.
  intros Hplain Ha Hb.
  apply (numeric_generate_attempts _ fuel count "integer" NumericGenerator._generate_integer);
    [done|done|].
  intros w0. unfold NumericGenerator._generate_integer, NumericGenerator.randint_args.
  rewrite Ha, Hb. unfold try_except, as_int. unfold bind at 1. unfold ret at 1.
  unfold bind at 1. unfold ret at 1.
  destruct (Z.leb_spec a b) as [Hab|Hab].
  - destruct (randint_returns a b w0 Hab) as (n & w1 & E & Hn).
    unfold bind. rewrite E. exists (VInt n), w1. split; [done|by exists n].
  - unfold bind at 1. unfold random_randint at 1.
    destruct (Z.ltb_spec b a) as [_|?]; [|lia]. unfold raise.
    unfold NumericGenerator.fallback.
    destruct (randint_returns 1 100 w0 ltac:(lia)) as (n & w1 & E & Hn).
    unfold bind. rewrite E. exists (VInt n), w1. split; [done|by exists n].
Qed.

(** ** Dates *)

Lemma date_generate_attempts (P : Value -> Prop) (fuel : nat) (count : Z)
    (date_type : string) (generator_func : gmap string Value -> M Value)
    (kwargs : gmap string Value) (w : World) :
  dispatch (DateGenerator.date_types fuel) date_type = Some generator_func ->
  plain kwargs ->
  (forall w, exists v w',
      try_except (generator_func kwargs) (fun _ => DateGenerator.fallback) w = (Ok v, w')
      /\ P v) ->
  exists out w',
    DateGenerator.generate fuel count date_type kwargs w = (Ok out, w') /\
    length out = Z.to_nat count /\ Forall P out.
Proof.
  intros Hd Hplain Hg. rewrite date_generate_unfold, Hd.
  destruct (generate_values_attempts P (generator_func kwargs) DateGenerator.fallback Hg
              (Z.to_nat count) w) as (out & w' & E & Hlen & Hall).
  exists out, w'. unfold bind. rewrite E. by rewrite apply_constraints_plain.
Qed.

(** The successive readings of the clock, from world [w] on. *)
Definition clock_readings (w : World) (n : nat) : list Value :=
  map (fun i => VDateTime (wall_clock w (ticks w + i)%nat)) (seq 0 n).

Lemma clock_readings_S (w : World) (n : nat) :
  clock_readings w (S n) = VDateTime (wall_clock w (ticks w)) :: clock_readings (tick w) n.
Proof.
  unfold clock_readings. simpl. rewrite Nat.add_0_r. f_equal.
  rewrite <- seq_shift, map_map. apply map_ext. intros i.
  by rewrite Nat.add_succ_r.
Qed.

(** A generator that raises each time, leaving the world as it was,
    yields the readings of the clock. *)
Lemma generate_values_clock (generator_func : M Value) :
  (forall w, exists e, generator_func w = (Raise e, w)) ->
  forall n w,
    generate_values n generator_func DateGenerator.fallback w
    = (Ok (clock_readings w n), Nat.iter n tick w).
Proof.
  intros Hg. induction n as [|n IH]; intros w; [done|].
  destruct (Hg w) as (e & E).
  rewrite (generate_values_fallback _ _ n e w w E).
  unfold DateGenerator.fallback. unfold bind at 1. unfold bind at 1.
  unfold datetime_now. unfold ret at 1. unfold bind. rewrite IH.
  unfold ret. rewrite clock_readings_S. f_equal.
  by rewrite Nat.iter_succ_r.
Qed.

(** X17.  A [date] column between two days given in the right order holds
    [date] objects between them.  With the start after the end no error
    is reported: every value is the fallback [datetime.now()], so the
    column holds the successive readings of the clock, which are
    [datetime] objects and lie outside the range asked for. *)
Theorem date_column_bounds (fuel : nat) (count : Z) (kwargs : gmap string Value)
    (start_date end_date : string) (a b : Z) (w : World) :
  plain kwargs ->
  DateGenerator.start_of kwargs = VStr start_date ->
  DateGenerator.end_of kwargs = VStr end_date ->
  strptime_ymd start_date = Some a ->
  strptime_ymd end_date = Some b ->
  (1 <= a -> a <= b -> b <= MAX_ORDINAL ->
   exists out w',
     DateGenerator.generate fuel count "date" kwargs w = (Ok out, w') /\
     length out = Z.to_nat count /\
     Forall (fun v => exists d, v = VDate d /\ a <= d <= b) out) /\
  (b < a ->
   DateGenerator.generate fuel count "date" kwargs w
   = (Ok (clock_readings w (Z.to_nat count)), Nat.iter (Z.to_nat count) tick w)).
Proof.
  intros Hplain Hs He Ha Hb.
  assert (Hdate : forall w0,
            DateGenerator._generate_date kwargs w0
            = bind (bind (random_randint 0 (b - a)) (DataAnonymizer.add_days a))
                   (fun d => ret (VDate d)) w0).
  { intros w0. unfold DateGenerator._generate_date, DateGenerator.date_between.
    rewrite Hs, He. unfold DateGenerator.parse_ymd, as_str.
    unfold bind at 1. unfold bind at 1. unfold bind at 1. unfold ret at 1.
    rewrite Ha. unfold ret at 1. unfold bind at 1. unfold bind at 1. unfold ret at 1.
    rewrite Hb. unfold ret at 1. reflexivity. }
  split.
  - intros H1 Hab Hmax.
    apply (date_generate_attempts _ fuel count "date" DateGenerator._generate_date);
      [done|done|].
    intros w0. unfold try_except. rewrite Hdate.
    destruct (randint_returns 0 (b - a) w0 ltac:(lia)) as (n & w1 & E & Hn).
    unfold bind. rewrite E. unfold DataAnonymizer.add_days.
    destruct (Z.leb_spec 1 (a + n)); [|lia].
    destruct (Z.leb_spec (a + n) MAX_ORDINAL); [|lia]. simpl.
    exists (VDate (a + n)), w1. split; [done|]. exists (a + n). split; [done|lia].
  - intros Hba. rewrite date_generate_unfold.
    change (dispatch (DateGenerator.date_types fuel) "date")
      with (Some DateGenerator._generate_date).
    unfold bind. rewrite generate_values_clock.
    + by rewrite apply_constraints_plain.
    + intros w0. rewrite Hdate. unfold bind, random_randint.
      destruct (Z.ltb_spec (b - a) 0); [|lia]. by eexists.
Qed.

(** ** Weekdays *)

(** X18.  The loop of [_generate_signup_date] leaves a day from Monday to
    Friday where it is and moves a Saturday or a Sunday forward to the
    Monday that follows, at the same time of day; three tests of its
    condition are enough. *)
Theorem signup_date_moves_to_monday (fuel : nat) (d : DateTime) (w : World) :
  (3 <= fuel)%nat -> 1 <= dt_ordinal d -> dt_ordinal d + 2 <= MAX_ORDINAL ->
  exists d',
    DateGenerator.to_weekday fuel d w = (Ok d', w) /\
    DateGenerator.weekday d' < 5 /\
    dt_second d' = dt_second d /\ dt_micro d' = dt_micro d /\
    dt_ordinal d' = dt_ordinal d
                    + (if (DateGenerator.weekday d =? 5)%Z then 2
                       else if (DateGenerator.weekday d =? 6)%Z then 1 else 0).
Proof.
  intros Hfuel H1 Hmax. destruct fuel as [|[|[|fuel]]]; try lia.
  unfold DateGenerator.to_weekday, DateGenerator.weekday. simpl while_loop.
  pose proof (Z.mod_pos_bound (dt_ordinal d + 6) 7 ltac:(lia)) as B1.
  pose proof (Z.div_mod (dt_ordinal d + 6) 7 ltac:(lia)) as D1.
  pose proof (Z.mod_pos_bound (dt_ordinal d + 1 + 6) 7 ltac:(lia)) as B2.
  pose proof (Z.div_mod (dt_ordinal d + 1 + 6) 7 ltac:(lia)) as D2.
  pose proof (Z.mod_pos_bound (dt_ordinal d + 1 + 1 + 6) 7 ltac:(lia)) as B3.
  pose proof (Z.div_mod (dt_ordinal d + 1 + 1 + 6) 7 ltac:(lia)) as D3.
  destruct (Z.leb_spec 5 ((dt_ordinal d + 6) mod 7)) as [E1|E1].
  2:{ exists d. split; [done|]. split; [done|]. split; [done|]. split; [done|].
      destruct (Z.eqb_spec ((dt_ordinal d + 6) mod 7) 5); [lia|].
      destruct (Z.eqb_spec ((dt_ordinal d + 6) mod 7) 6); lia. }
  unfold bind at 1, DateGenerator.datetime_add_days, bind at 1, DataAnonymizer.add_days.
  destruct (Z.leb_spec 1 (dt_ordinal d + 1)); [|lia].
  destruct (Z.leb_spec (dt_ordinal d + 1) MAX_ORDINAL); [|lia].
  cbn [andb ret dt_ordinal dt_second dt_micro fst snd].
  destruct (Z.leb_spec 5 ((dt_ordinal d + 1 + 6) mod 7)) as [E2|E2].
  2:{ eexists. split; [reflexivity|]. cbn [dt_ordinal dt_second dt_micro].
      split; [done|]. split; [done|]. split; [done|].
      destruct (Z.eqb_spec ((dt_ordinal d + 6) mod 7) 5); [lia|].
      destruct (Z.eqb_spec ((dt_ordinal d + 6) mod 7) 6); lia. }
  unfold bind at 1, bind at 1.
  destruct (Z.leb_spec 1 (dt_ordinal d + 1 + 1)); [|lia].
  destruct (Z.leb_spec (dt_ordinal d + 1 + 1) MAX_ORDINAL); [|lia].
  cbn [andb ret dt_ordinal dt_second dt_micro fst snd].
  destruct (Z.leb_spec 5 ((dt_ordinal d + 1 + 1 + 6) mod 7)) as [E3|E3]; [lia|].
  eexists. split; [reflexivity|]. cbn [dt_ordinal dt_second dt_micro].
  split; [done|]. split; [done|]. split; [done|].
  destruct (Z.eqb_spec ((dt_ordinal d + 6) mod 7) 5); [lia|].
  destruct (Z.eqb_spec ((dt_ordinal d + 6) mod 7) 6); lia.
Qed.

(** ** Custom text *)

(** X19.  A [custom] column whose pattern is a non-empty string without any
    of the placeholders [{name}], [{email}], [{company}] holds the
    pattern itself in every row, and Faker is not called. *)
Theorem custom_pattern_without_placeholder (fuel : nat) (count : Z)
    (kwargs : gmap string Value) (pattern : string) (w : World) :
  plain kwargs ->
  kwargs !! "pattern" = Some (VStr pattern) ->
  pattern <> "" ->
  str_contains "{name}" pattern = false ->
  str_contains "{email}" pattern = false ->
  str_contains "{company}" pattern = false ->
  TextGenerator.generate fuel count "custom" kwargs w
  = (Ok (replicate (Z.to_nat count) (VStr pattern)), w).
Proof.
  intros Hplain Hp Hne Hn He Hc. rewrite text_generate_unfold.
  change (dispatch TextGenerator.text_types "custom")
    with (Some TextGenerator._generate_custom_text).
  assert (Hg : forall w0, TextGenerator._generate_custom_text kwargs w0 = (Ok (VStr pattern), w0)).
  { intros w0. unfold TextGenerator._generate_custom_text, arg. rewrite Hp.
    change (default VNone (Some (VStr pattern))) with (VStr pattern).
    assert (Ht : py_truthy (VStr pattern) = true).
    { simpl. apply negb_true_iff. by apply String.eqb_neq. }
    rewrite Ht. unfold try_except, as_str, TextGenerator.fill.
    unfold bind at 1. unfold ret at 1. rewrite Hn.
    unfold bind at 1. unfold ret at 1. rewrite He.
    unfold bind at 1. unfold ret at 1. rewrite Hc.
    unfold bind at 1. by unfold ret. }
  assert (Hv : forall n w0,
            generate_values n (TextGenerator._generate_custom_text kwargs)
              TextGenerator.fallback w0 = (Ok (replicate n (VStr pattern)), w0)).
  { induction n as [|n IH]; intros w0; [done|]. simpl.
    unfold bind at 1. unfold try_except. rewrite Hg. unfold bind. by rewrite IH. }
  unfold bind. rewrite Hv. by apply apply_constraints_plain.
Qed.

End Columns.

Lemma integer_column_bounds_witness :
  exists out w',
    NumericGenerator.generate (RT := DemoRuntime.runtime) 1 3 "integer"
      {[ "min_val" := VInt 50; "max_val" := VInt 10 ]}
      (DemoRuntime.world [] (mkDateTime 738000 0 0) 0) = (Ok out, w') /\
    length out = 3%nat /\
    Forall (fun v => exists n, v = VInt n /\ 1 <= n <= 100) out.
Proof.
  apply (integer_column_bounds (RT := DemoRuntime.runtime) 1 3
           {[ "min_val" := VInt 50; "max_val" := VInt 10 ]} 50 10);
    [by repeat split|reflexivity|reflexivity].
Defined.

Lemma date_column_bounds_witness :
  let w := DemoRuntime.world [] (mkDateTime 738000 0 0) 0 in
  (exists out w',
     DateGenerator.generate (RT := DemoRuntime.runtime) 1 2 "date"
       {[ "start_date" := VStr "2024-01-01"; "end_date" := VStr "2024-01-31" ]} w
     = (Ok out, w') /\
     length out = 2%nat /\
     Forall (fun v => exists d, v = VDate d /\ 738886 <= d <= 738916) out) /\
  DateGenerator.generate (RT := DemoRuntime.runtime) 1 2 "date"
    {[ "start_date" := VStr "2024-01-31"; "end_date" := VStr "2024-01-01" ]} w
  = (Ok (clock_readings w 2), Nat.iter 2 tick w).
Proof.
  split.
  - destruct (date_column_bounds (RT := DemoRuntime.runtime) 1 2
                {[ "start_date" := VStr "2024-01-01"; "end_date" := VStr "2024-01-31" ]}
                "2024-01-01" "2024-01-31" 738886 738916
                (DemoRuntime.world [] (mkDateTime 738000 0 0) 0)) as [H _];
      [by repeat split|reflexivity|reflexivity|by vm_compute|by vm_compute|].
    apply H; by vm_compute.
  - destruct (date_column_bounds (RT := DemoRuntime.runtime) 1 2
                {[ "start_date" := VStr "2024-01-31"; "end_date" := VStr "2024-01-01" ]}
                "2024-01-31" "2024-01-01" 738916 738886
                (DemoRuntime.world [] (mkDateTime 738000 0 0) 0)) as [_ H];
      [by repeat split|reflexivity|reflexivity|by vm_compute|by vm_compute|].
    apply H. reflexivity.
Defined.

(** Saturday 6 January 2024 at 01:00. *)
Lemma signup_date_moves_to_monday_witness :
  exists d',
    DateGenerator.to_weekday (RT := DemoRuntime.runtime) 3 (mkDateTime 738891 3600 0)
      (DemoRuntime.world [] (mkDateTime 738000 0 0) 0)
    = (Ok d', DemoRuntime.world [] (mkDateTime 738000 0 0) 0) /\
    DateGenerator.weekday d' < 5 /\
    dt_second d' = 3600 /\ dt_micro d' = 0 /\
    dt_ordinal d' = 738891 + 2.
Proof.
  apply (signup_date_moves_to_monday (RT := DemoRuntime.runtime) 3 (mkDateTime 738891 3600 0));
    [lia|by vm_compute|by vm_compute].
Defined.

Lemma custom_pattern_without_placeholder_witness :
  TextGenerator.generate (RT := DemoRuntime.runtime) 1 3 "custom"
    {[ "pattern" := VStr "SKU-{id}" ]} (DemoRuntime.world [] (mkDateTime 738000 0 0) 0)
  = (Ok [VStr "SKU-{id}"; VStr "SKU-{id}"; VStr "SKU-{id}"],
     DemoRuntime.world [] (mkDateTime 738000 0 0) 0).
Proof.
  apply (custom_pattern_without_placeholder (RT := DemoRuntime.runtime) 1 3
           {[ "pattern" := VStr "SKU-{id}" ]} "SKU-{id}");
    [by repeat split|reflexivity|discriminate|reflexivity|reflexivity|reflexivity].
Defined.

End ColumnFacts.

(* ===================================================================== *)
(** * The schema validator *)
(* ===================================================================== *)

Module ValidatorFacts.
Import SchemaValidator MonadFacts DispatchFacts.
Local Open Scope string_scope.

Lemma append_cancel_l (p a b : string) : p ++ a = p ++ b -> a = b.
Proof.
  induction p as [|c p IH]; [done|].
  change (String c p ++ a) with (String c (p ++ a)).
  change (String c p ++ b) with (String c (p ++ b)). intros [= H]. by apply IH.
Qed.

Lemma and_then_Ok {A B} (r : Res A) (f : A -> Res B) (b : B) :
  and_then r f = Ok b -> exists a, r = Ok a /\ f a = Ok b.
Proof. destruct r as [a| |]; try done. intros H. by exists a. Qed.

Section Validator.
Context `{RT : PyRuntime}.

(** ** The null percentage *)

Definition complaint (index : Z) : string :=
  field_prefix index ++ "null_percentage must be between 0 and 100".

(** A percentage the validator lets through. *)
Definition percentage (x : Json) : Prop :=
  exists p q, x = JVal p /\ num_of p = Some q /\ (0 <= q <= 100)%Q.

Lemma null_percentage_errors_spec (d : list (string * Json)) (index : Z) :
  (null_percentage_errors d index = [] \/ null_percentage_errors d index = [complaint index]) /\
  (null_percentage_errors d index = [complaint index] <->
   exists x, dict_get d "null_percentage" = Some x /\ ~ percentage x).
Proof.
  unfold null_percentage_errors, complaint.
  destruct (dict_get d "null_percentage") as [[p|l|e]|].
  - destruct (num_of p) as [q|] eqn:Hq.
    + destruct (Qltb q 0) eqn:H0; [|destruct (Qltb 100 q) eqn:H1]; simpl.
      * split; [by right|]. split; [|done]. intros _. eexists. split; [done|].
        intros (p' & q' & [= <-] & Hq' & Hlo & _). rewrite Hq in Hq'. injection Hq' as <-.
        apply BoundsFacts.Qltb_true in H0. lra.
      * split; [by right|]. split; [|done]. intros _. eexists. split; [done|].
        intros (p' & q' & [= <-] & Hq' & _ & Hhi). rewrite Hq in Hq'. injection Hq' as <-.
        apply BoundsFacts.Qltb_true in H1. lra.
      * split; [by left|]. split; [done|]. intros (x & [= <-] & Hx). destruct Hx.
        exists p, q. split; [done|]. split; [done|].
        apply BoundsFacts.Qltb_false in H0, H1. by split.
    + split; [by right|]. split; [|done]. intros _. eexists. split; [done|].
      intros (p' & q' & [= <-] & Hq' & _). congruence.
  - split; [by right|]. split; [|done]. intros _. eexists. split; [done|].
    by intros (p' & q' & [=] & _).
  - split; [by right|]. split; [|done]. intros _. eexists. split; [done|].
    by intros (p' & q' & [=] & _).
  - split; [by left|]. split; [done|]. by intros (x & [=] & _).
Qed.

Lemma range_errors_other (d : list (string * Json)) (index : Z) (errs : list string) :
  range_errors d index = Ok errs -> complaint index ∉ errs.
Proof.
  unfold range_errors.
  destruct (dict_get d "min_val"), (dict_get d "max_val");
    try (intros [= <-]; apply not_elem_of_nil).
  intros H. apply and_then_Ok in H as (b & _ & [= <-]).
  destruct b; [|apply not_elem_of_nil].
  intros Hin. apply list_elem_of_singleton in Hin.
  apply append_cancel_l in Hin. discriminate.
Qed.

Lemma day_errors_other (d : list (string * Json)) (key : string) (index : Z)
    (errs : list string) :
  key = "start_date" \/ key = "end_date" ->
  day_errors d key index = Ok errs -> complaint index ∉ errs.
Proof.
  intros Hkey. unfold day_errors.
  destruct (dict_get d key); [|intros [= <-]; apply not_elem_of_nil].
  intros H. apply and_then_Ok in H as (o & _ & [= <-]).
  destruct o; [apply not_elem_of_nil|].
  intros Hin. apply list_elem_of_singleton in Hin.
  apply append_cancel_l in Hin. by destruct Hkey as [-> | ->].
Qed.

Lemma order_errors_other (d : list (string * Json)) (index : Z) (errs : list string) :
  order_errors d index = Ok errs -> complaint index ∉ errs.
Proof.
  unfold order_errors.
  destruct (dict_get d "start_date"), (dict_get d "end_date");
    try (intros [= <-]; apply not_elem_of_nil).
  intros H. apply and_then_Ok in H as ([start|] & _ & H).
  - apply and_then_Ok in H as (e & _ & [= <-]).
    destruct e as [e|]; [|apply not_elem_of_nil].
    destruct (e <? start)%Z; [|apply not_elem_of_nil].
    intros Hin. apply list_elem_of_singleton in Hin.
    apply append_cancel_l in Hin. discriminate.
  - injection H as <-. apply not_elem_of_nil.
Qed.

Lemma date_errors_other (d : list (string * Json)) (index : Z) (errs : list string) :
  date_errors d index = Ok errs -> complaint index ∉ errs.
Proof.
  unfold date_errors. intros H.
  apply and_then_Ok in H as (e1 & H1 & H). apply and_then_Ok in H as (e2 & H2 & H).
  apply and_then_Ok in H as (e3 & H3 & [= <-]).
  intros Hin. apply elem_of_app in Hin as [Hin|Hin].
  - by apply (day_errors_other _ _ _ _ (or_introl eq_refl) H1).
  - apply elem_of_app in Hin as [Hin|Hin].
    + by apply (day_errors_other _ _ _ _ (or_intror eq_refl) H2).
    + by apply (order_errors_other _ _ _ H3).
Qed.

Lemma categories_errors_other (d : list (string * Json)) (index : Z) :
  complaint index ∉ categories_errors d index.
Proof.
  unfold categories_errors.
  destruct (dict_get d "categories") as [[?|[|? ?]|?]|]; try apply not_elem_of_nil;
    intros Hin; apply list_elem_of_singleton in Hin;
    apply append_cancel_l in Hin; discriminate.
Qed.

(** X20.  When [validate_constraints] returns, its errors hold the complaint
    about [null_percentage] exactly when the key is present with a value
    that is not a number between 0 and 100 (a boolean counts as the
    number 0 or 1); no other check produces or hides that complaint. *)
Theorem null_percentage_is_checked (d : list (string * Json)) (field_type : Json)
    (index : Z) (errs : list string) :
  validate_constraints (JDict d) field_type index = Ok errs ->
  (complaint index ∈ errs <->
   exists x, dict_get d "null_percentage" = Some x /\ ~ percentage x).
Proof.
  unfold validate_constraints. intros H.
  apply and_then_Ok in H as (e1 & H1 & H). apply and_then_Ok in H as (e2 & H2 & [= <-]).
  assert (N1 : complaint index ∉ e1).
  { destruct (in_strs field_type ["integer"; "float"]).
    - by apply (range_errors_other d).
    - injection H1 as <-. apply not_elem_of_nil. }
  assert (N2 : complaint index ∉ e2).
  { destruct (is_str field_type "date").
    - by apply (date_errors_other d).
    - injection H2 as <-. apply not_elem_of_nil. }
  assert (N3 : complaint index ∉ (if is_str field_type "categorical"
                                   then categories_errors d index else [])).
  { destruct (is_str field_type "categorical");
      [apply categories_errors_other|apply not_elem_of_nil]. }
  destruct (null_percentage_errors_spec d index) as [Hshape Hiff].
  rewrite <- Hiff. rewrite !elem_of_app. split.
  - intros [?|[?|[?|Hin]]]; try done.
    destruct Hshape as [E|E]; [|done]. rewrite E in Hin. by apply elem_of_nil in Hin.
  - intros E. do 3 right. rewrite E. by left.
Qed.

(** X21.  The validator and the generator agree on [null_percentage]: if the
    constraints of a field pass [validate_constraints] without the
    complaint, then [apply_constraints], given the same percentage,
    ends normally on every column; it cannot raise the [ValueError] of
    [random.sample]. *)
Theorem accepted_null_percentage_never_raises (d : list (string * Json)) (field_type : Json)
    (index : Z) (errs : list string) (p : Value) (kwargs : gmap string Value)
    (fuel : nat) (self_generate : Z -> gmap string Value -> M (list Value))
    (data : list Value) (w : World) :
  validate_constraints (JDict d) field_type index = Ok errs ->
  complaint index ∉ errs ->
  dict_get d "null_percentage" = Some (JVal p) ->
  kwargs !! "null_percentage" = Some p ->
  exists out w',
    BaseGenerator.apply_constraints (S fuel) self_generate data kwargs w = (Ok out, w').
Proof.
  intros Hv Hok Hd Hk.
  assert (Hp : percentage (JVal p)).
  { unfold validate_constraints in Hv.
    apply and_then_Ok in Hv as (e1 & _ & Hv). apply and_then_Ok in Hv as (e2 & _ & [= <-]).
    assert (Hn : complaint index ∉ null_percentage_errors d index).
    { intros Hin. apply Hok. rewrite !elem_of_app. by do 3 right. }
    unfold null_percentage_errors in Hn. rewrite Hd in Hn.
    destruct (num_of p) as [q|] eqn:Hq.
    - destruct (Qltb q 0 || Qltb 100 q) eqn:Hb.
      + destruct Hn. by left.
      + apply orb_false_iff in Hb as [H0 H1].
        apply BoundsFacts.Qltb_false in H0, H1. by exists p, q.
    - destruct Hn. by left. }
  destruct Hp as (p' & q & [= <-] & Hq & _ & Hhi).
  apply apply_constraints_total. unfold percent_ok. rewrite Hk. by exists q.
Qed.

(** ** Ill-typed bounds *)

(** X22.  The validator reports a day that does not parse, but a bound of the
    wrong type makes it raise instead of reporting: a [start_date] that
    is not a string in a field of type date, and a [min_val] and
    [max_val] that Python cannot compare in a field of type integer or
    float, end [validate_field] with a [TypeError]. *)
Theorem ill_typed_bounds_raise (d c : list (string * Json)) (index : Z) :
  dict_get d "constraints" = Some (JDict c) ->
  (dict_get d "type" = Some (JVal (VStr "date")) ->
   (forall x, dict_get c "start_date" = Some x ->
              (forall s, x <> JVal (VStr s)) ->
              validate_field (JDict d) index
              = Raise (TypeError "strptime() argument 1 must be str"))) /\
  (dict_get d "type" = Some (JVal (VStr "integer")) ->
   (forall s n, dict_get c "min_val" = Some (JVal (VStr s)) ->
                dict_get c "max_val" = Some (JVal (VInt n)) ->
                validate_field (JDict d) index
                = Raise (TypeError "'>' not supported between instances"))).
Proof.
  intros Hc. split.
  - intros Ht x Hx Hns. unfold validate_field. rewrite Hc, Ht.
    unfold validate_constraints. simpl in_strs. simpl is_str. cbv iota.
    unfold and_then at 2. unfold and_then at 2.
    unfold date_errors, day_errors. rewrite Hx.
    destruct x as [[]|?|?]; try done. by destruct (Hns s).
  - intros Ht s n Hlo Hhi. unfold validate_field. rewrite Hc, Ht.
    unfold validate_constraints. simpl in_strs. cbv iota.
    unfold range_errors. by rewrite Hlo, Hhi.
Qed.

(** ** Field names *)

(** An identifier: a letter or underscore, then letters, digits and
    underscores. *)
Definition identifier (s : string) : Prop :=
  exists a rest, s = String a rest /\ is_name_start a = true /\
                 forallb is_name_char (list_ascii_of_string rest) = true.

Lemma name_rest_spec (s : string) :
  name_rest s = true <->
  forallb is_name_char (list_ascii_of_string s) = true \/
  exists r, s = r ++ String "010" "" /\ forallb is_name_char (list_ascii_of_string r) = true.
Proof.
  induction s as [|a s IH]; simpl.
  - split; [by left|done].
  - destruct (is_name_char a) eqn:Ea.
    + rewrite IH. simpl. split.
      * intros [H|(r & -> & Hr)]; [by left|]. right. exists (String a r).
        split; [done|]. simpl. by rewrite Ea.
      * intros [H|(r & Hs & Hr)]; [by left|]. right.
        destruct r as [|b r]; [by injection Hs as -> ->|].
        injection Hs as <- ->. exists r. split; [done|].
        simpl in Hr. by apply andb_prop in Hr as [_ ?].
    + simpl. split.
      * intros H. apply andb_prop in H as [H1 H2].
        apply Ascii.eqb_eq in H1 as ->. apply String.eqb_eq in H2 as ->.
        right. by exists "".
      * intros [?|(r & Hs & Hr)]; [done|].
        destruct r as [|b r].
        -- by injection Hs as -> ->.
        -- injection Hs as <- ->. simpl in Hr. by rewrite Ea in Hr.
Qed.

Lemma name_start_not_space (a : ascii) : is_name_start a = true -> is_space a = false.
Proof. by destruct a as [[] [] [] [] [] [] [] []]. Qed.

Lemma matches_identifier_spec (s : string) :
  matches_identifier s = true <->
  exists body, identifier body /\ (s = body \/ s = body ++ String "010" "").
Proof.
  destruct s as [|a s]; simpl.
  - split; [done|]. intros (body & (b & rest & -> & _) & [?|?]); done.
  - rewrite andb_true_iff, name_rest_spec. split.
    + intros [Ha [Hs|(r & -> & Hr)]].
      * exists (String a s). split; [by exists a, s|by left].
      * exists (String a r). split; [by exists a, r|by right].
    + intros (body & (b & rest & -> & Hb & Hrest) & [Hs|Hs]).
      * injection Hs as -> ->. split; [done|by left].
      * injection Hs as -> ->. split; [done|]. right. by exists rest.
Qed.

(** X23.  A field that has a name, a type among the six known ones and no
    constraints passes [validate_field] exactly when its name is an
    identifier, or an identifier followed by one line feed: the [$] of
    the pattern also matches before a final line feed. *)
Theorem field_name_accepted (d : list (string * Json)) (index : Z) (name type : string) :
  dict_get d "name" = Some (JVal (VStr name)) ->
  dict_get d "type" = Some (JVal (VStr type)) ->
  In type valid_types ->
  dict_get d "constraints" = None ->
  (validate_field (JDict d) index = Ok [] <->
   exists body, identifier body /\ (name = body \/ name = body ++ String "010" "")).
Proof.
  intros Hn Ht Hv Hc. unfold validate_field. rewrite Hc.
  unfold missing_errors, missing_error, dict_has, name_errors, type_errors.
  rewrite Hn, Ht.
  assert (Hin : in_strs (JVal (VStr type)) valid_types = true).
  { unfold in_strs. apply existsb_exists. exists type. split; [done|].
    simpl. apply String.eqb_refl. }
  rewrite Hin. rewrite <- matches_identifier_spec. simpl app.
  destruct (is_blank name) eqn:Hb.
  - split; [done|]. intros Hm. destruct name as [|a name]; [done|].
    simpl in Hm. apply andb_prop in Hm as [Ha _].
    apply name_start_not_space in Ha. unfold is_blank in Hb. simpl in Hb.
    by rewrite Ha in Hb.
  - destruct (matches_identifier name); split; done.
Qed.

End Validator.

(** The validator and the generator on a percentage of 40. *)
Lemma accepted_null_percentage_never_raises_witness :
  exists out w',
    BaseGenerator.apply_constraints (RT := DemoRuntime.runtime) 1 (fun _ _ => ret [])
      [VInt 1; VInt 2; VInt 3] {[ "null_percentage" := VInt 40 ]}
      (DemoRuntime.world [] (mkDateTime 738000 0 0) 0) = (Ok out, w').
Proof.
  apply (accepted_null_percentage_never_raises (RT := DemoRuntime.runtime)
           [("null_percentage", JVal (VInt 40))] (JVal (VStr "integer")) 0 [] (VInt 40)
           {[ "null_percentage" := VInt 40 ]} 0);
    [reflexivity|apply not_elem_of_nil|reflexivity|reflexivity].
Defined.

Lemma null_percentage_is_checked_witness :
  complaint 3 ∈ ["Field 3: null_percentage must be between 0 and 100"] <->
  exists x, dict_get [("null_percentage", JVal (VInt 150))] "null_percentage" = Some x /\
            ~ percentage x.
Proof.
  apply (null_percentage_is_checked (RT := DemoRuntime.runtime)
           [("null_percentage", JVal (VInt 150))] (JVal (VStr "text")) 3).
  reflexivity.
Defined.

Lemma ill_typed_bounds_raise_witness :
  validate_field (RT := DemoRuntime.runtime)
    (JDict [("name", JVal (VStr "born")); ("type", JVal (VStr "date"));
            ("constraints", JDict [("start_date", JVal (VInt 2020))])]) 0
  = Raise (TypeError "strptime() argument 1 must be str").
Proof.
  destruct (ill_typed_bounds_raise (RT := DemoRuntime.runtime)
              [("name", JVal (VStr "born")); ("type", JVal (VStr "date"));
               ("constraints", JDict [("start_date", JVal (VInt 2020))])]
              [("start_date", JVal (VInt 2020))] 0 eq_refl) as [H _].
  apply (H eq_refl (JVal (VInt 2020)) eq_refl). discriminate.
Defined.

(** A name that ends with a line feed. *)
Lemma field_name_accepted_witness :
  validate_field (RT := DemoRuntime.runtime)
    (JDict [("name", JVal (VStr (String "a" (String "010" ""))));
            ("type", JVal (VStr "text"))]) 0 = Ok [] <->
  exists body, identifier body /\
    (String "a" (String "010" "") = body \/
     String "a" (String "010" "") = body ++ String "010" "").
Proof.
  apply (field_name_accepted (RT := DemoRuntime.runtime)
           [("name", JVal (VStr (String "a" (String "010" ""))));
            ("type", JVal (VStr "text"))] 0 (String "a" (String "010" "")) "text");
    [reflexivity|reflexivity|by left|reflexivity].
Defined.

End ValidatorFacts.

(* ===================================================================== *)
(** * The scale of the quality score *)
(* ===================================================================== *)

Module QualityScoreFacts.
Import DataValidator RoundFacts DedupFacts.
Local Open Scope string_scope.

Lemma count_of_bounds {A} (p : A -> bool) (l : list A) :
  0 <= count_of p l <= Z.of_nat (length l).
Proof. unfold count_of. pose proof (List.filter_length_le p l). lia. Qed.

Lemma count_of_all {A} (p : A -> bool) (l : list A) :
  Forall (fun x => p x = true) l -> List.filter p l = l.
Proof.
  induction 1 as [|x l Hx _ IH]; [done|]. simpl. by rewrite Hx, IH.
Qed.

Lemma count_of_none {A} (p : A -> bool) (l : list A) :
  Forall (fun x => p x = false) l -> List.filter p l = [].
Proof.
  induction 1 as [|x l Hx _ IH]; [done|]. simpl. by rewrite Hx, IH.
Qed.

(** A part of a whole, as a fraction. *)
Lemma fraction_bounds (a b : Z) :
  0 <= a <= b -> 0 < b -> (0 <= inject_Z a / inject_Z b <= 1)%Q.
Proof.
  intros [Ha Hab] Hb.
  assert (Hb' : (0 < inject_Z b)%Q) by (change 0%Q with (inject_Z 0); by rewrite <- Zlt_Qlt).
  assert (Ha' : (0 <= inject_Z a)%Q) by (change 0%Q with (inject_Z 0); by rewrite <- Zle_Qle).
  assert (Hab' : (inject_Z a <= inject_Z b)%Q) by (by rewrite <- Zle_Qle).
  split.
  - apply Qle_shift_div_l; [done|]. by rewrite Qmult_0_l.
  - apply Qle_shift_div_r; [done|]. by rewrite Qmult_1_l.
Qed.

Lemma fraction_whole (b : Z) : 0 < b -> (inject_Z b / inject_Z b == 1)%Q.
Proof.
  intros Hb.
  assert (Hb' : (0 < inject_Z b)%Q) by (change 0%Q with (inject_Z 0); by rewrite <- Zlt_Qlt).
  field. lra.
Qed.

Lemma raw_score_bounds (r u t : Q) :
  (0 <= r <= 100)%Q -> (0 <= u <= 1)%Q -> (0 <= t <= 1)%Q ->
  (0 <= raw_score r u t <= 10000)%Q.
Proof.
  intros Hr Hu Ht. unfold raw_score.
  assert (E : (r / 100 == r * (1 # 100))%Q) by (unfold Qdiv; reflexivity).
  rewrite E. split; lra.
Qed.

Lemma round_whole (n : Z) : (py_round (inject_Z n) 2 == inject_Z n)%Q.
Proof. apply (py_round_int 2 n 100); [apply scale_2|done]. Qed.

Lemma py_round_proper (x y : Q) (d : Z) : (x == y)%Q -> (py_round x d == py_round y d)%Q.
Proof.
  intros H. unfold py_round.
  assert (E : (x * Qpower (inject_Z 10) d == y * Qpower (inject_Z 10) d)%Q) by (by rewrite H).
  by rewrite (round_half_even_proper _ _ E).
Qed.

(** The three ingredients of the score. *)
Definition null_share (values : list Value) : Q :=
  if (0 <? Z.of_nat (length values))%Z
  then (inject_Z (count_of is_none values) / inject_Z (Z.of_nat (length values)) * 100)%Q
  else 0%Q.

Definition present (values : list Value) : list Value :=
  List.filter (fun v => negb (is_none v)) values.

Definition unique_share (values : list Value) : Q :=
  if (0 <? Z.of_nat (length values) - count_of is_none values)%Z
  then (inject_Z (Z.of_nat (length (py_dedup (present values))))
        / inject_Z (Z.of_nat (length values) - count_of is_none values))%Q
  else 0%Q.

Definition type_share (values : list Value) : Q :=
  match present values with
  | first :: _ =>
      (inject_Z (count_of (fun v => String.eqb (type_name v) (type_name first))
                          (present values))
       / inject_Z (Z.of_nat (length (present values))))%Q
  | [] => 1%Q
  end.

Lemma quality_score_eq (data : list (gmap string Value)) (field_name : string) :
  quality_score (analyze_field data field_name)
  = py_round (raw_score (null_share (column_of data field_name))
                        (unique_share (column_of data field_name))
                        (type_share (column_of data field_name))) 2.
Proof.
  unfold analyze_field, null_share, unique_share, type_share, present.
  by destruct (List.filter (fun v => negb (is_none v)) (column_of data field_name)).
Qed.

Lemma present_length (values : list Value) :
  Z.of_nat (length (present values)) = Z.of_nat (length values) - count_of is_none values.
Proof.
  unfold present, count_of. induction values as [|v values IH]; [done|].
  simpl. destruct (is_none v); simpl; lia.
Qed.

Lemma null_share_bounds (values : list Value) : (0 <= null_share values <= 100)%Q.
Proof.
  unfold null_share. destruct (Z.ltb_spec 0 (Z.of_nat (length values))) as [H|H]; [|lra].
  destruct (fraction_bounds (count_of is_none values) (Z.of_nat (length values))
              (count_of_bounds _ _) H). lra.
Qed.

Lemma unique_share_bounds (values : list Value) : (0 <= unique_share values <= 1)%Q.
Proof.
  unfold unique_share.
  destruct (Z.ltb_spec 0 (Z.of_nat (length values) - count_of is_none values)) as [H|H]; [|lra].
  apply fraction_bounds; [|done]. rewrite <- present_length.
  destruct (py_dedup_length (present values)) as [Hle _]. lia.
Qed.

Lemma type_share_bounds (values : list Value) : (0 <= type_share values <= 1)%Q.
Proof.
  unfold type_share. destruct (present values) as [|first rest] eqn:E; [lra|].
  apply fraction_bounds; [apply count_of_bounds|simpl; lia].
Qed.

(** X24.  The comment in [analyze_field] announces a score from 0 to 100.
    The weights 40, 30 and 30 already add up to 100 and the sum is then
    multiplied by 100: the score lies between 0 and 10000.  A column
    that is complete, free of duplicates and of one type scores 10000;
    a non-empty column of [None] scores 3000, and no data at all 7000. *)
Theorem quality_score_scale (data : list (gmap string Value)) (field_name : string) :
  let values := column_of data field_name in
  let score := quality_score (analyze_field data field_name) in
  (0 <= score <= 10000)%Q /\
  (values <> [] ->
   Forall (fun v => v <> VNone) values ->
   PyNoDup values ->
   (forall v v', v ∈ values -> v' ∈ values -> type_name v = type_name v') ->
   (score == 10000)%Q) /\
  (values <> [] -> Forall (fun v => v = VNone) values -> (score == 3000)%Q) /\
  (values = [] -> (score == 7000)%Q).
Proof.
  intros values score. unfold score. rewrite quality_score_eq. fold values.
  split; [|split; [|split]].
  - destruct (raw_score_bounds _ _ _ (null_share_bounds values) (unique_share_bounds values)
                (type_share_bounds values)) as [Hlo Hhi].
    split.
    + rewrite <- (round_whole 0). by apply py_round_mono.
    + rewrite <- (round_whole 10000). by apply py_round_mono.
  - intros Hne Hfull Hnd Htype.
    assert (Hnone : List.filter is_none values = []).
    { apply count_of_none. eapply Forall_impl; [exact Hfull|]. by intros [] ?. }
    assert (Hpresent : present values = values).
    { apply count_of_all. eapply Forall_impl; [exact Hfull|]. by intros [] ?. }
    assert (Hlen : 0 < Z.of_nat (length values)) by (destruct values; [done|simpl; lia]).
    assert (Hr : (null_share values == 0)%Q).
    { unfold null_share, count_of. rewrite Hnone.
      destruct (0 <? Z.of_nat (length values))%Z; [|reflexivity].
      simpl. unfold Qdiv. by rewrite !Qmult_0_l. }
    assert (Hu : (unique_share values == 1)%Q).
    { unfold unique_share, count_of. rewrite Hnone, Hpresent. simpl length.
      rewrite Z.sub_0_r. destruct (Z.ltb_spec 0 (Z.of_nat (length values))); [|lia].
      destruct (py_dedup_length values) as [_ Hiff]. rewrite (proj2 Hiff Hnd).
      by apply fraction_whole. }
    assert (Ht : (type_share values == 1)%Q).
    { unfold type_share. rewrite Hpresent. destruct values as [|first rest] eqn:E; [done|].
      rewrite <- E in *. unfold count_of. rewrite count_of_all.
      - by apply fraction_whole.
      - apply Forall_forall. intros v Hv. apply String.eqb_eq. apply Htype; [done|].
        rewrite E. by left. }
    assert (E : (raw_score (null_share values) (unique_share values) (type_share values)
                 == inject_Z 10000)%Q).
    { unfold raw_score. rewrite Hr, Hu, Ht. reflexivity. }
    rewrite (py_round_proper _ _ 2 E). apply round_whole.
  - intros Hne Hall.
    assert (Hnone : List.filter is_none values = values).
    { apply count_of_all. eapply Forall_impl; [exact Hall|]. by intros ? ->. }
    assert (Hpresent : present values = []).
    { apply count_of_none. eapply Forall_impl; [exact Hall|]. by intros ? ->. }
    assert (Hlen : 0 < Z.of_nat (length values)) by (destruct values; [done|simpl; lia]).
    assert (Hr : (null_share values == 100)%Q).
    { unfold null_share, count_of. rewrite Hnone.
      destruct (Z.ltb_spec 0 (Z.of_nat (length values))); [|lia].
      rewrite (fraction_whole _ Hlen). reflexivity. }
    assert (Hu : (unique_share values == 0)%Q).
    { unfold unique_share, count_of. rewrite Hnone, Z.sub_diag. reflexivity. }
    assert (Ht : (type_share values == 1)%Q).
    { unfold type_share. by rewrite Hpresent. }
    assert (E : (raw_score (null_share values) (unique_share values) (type_share values)
                 == inject_Z 3000)%Q).
    { unfold raw_score. rewrite Hr, Hu, Ht. reflexivity. }
    rewrite (py_round_proper _ _ 2 E). apply round_whole.
  - intros ->. reflexivity.
Qed.

(** Three different names: a perfect column. *)
Lemma quality_score_scale_witness :
  (quality_score (analyze_field [ {[ "name" := VStr "Ada" ]}; {[ "name" := VStr "Bob" ]};
                                  {[ "name" := VStr "Cy" ]} ] "name") == 10000)%Q.
Proof.
  destruct (quality_score_scale [ {[ "name" := VStr "Ada" ]}; {[ "name" := VStr "Bob" ]};
                                  {[ "name" := VStr "Cy" ]} ] "name") as (_ & H & _).
  apply H.
  - discriminate.
  - repeat constructor; discriminate.
  - repeat constructor.
  - intros v v' Hv Hv'.
    repeat (apply elem_of_cons in Hv as [->|Hv]); try (by apply elem_of_nil in Hv);
      repeat (apply elem_of_cons in Hv' as [->|Hv']); try (by apply elem_of_nil in Hv');
      reflexivity.
Defined.

End QualityScoreFacts.

(* ===================================================================== *)
(** * [unique] together with [null_percentage] *)
(* ===================================================================== *)

Module UniqueNullFacts.
Import BaseGenerator MonadFacts DedupFacts ConstraintFacts.
Local Open Scope string_scope.

(** The [None] of a column. *)
Definition nones (data : list Value) : list Value := List.filter is_none data.

Lemma py_in_none (l : list Value) : py_in VNone l = true <-> VNone ∈ l.
Proof.
  unfold py_in. rewrite existsb_exists. split.
  - intros (y & Hy & Hxy). apply list_elem_of_In in Hy. by destruct y.
  - intros H. exists VNone. split; [by apply list_elem_of_In|done].
Qed.

Lemma nones_nil (l : list Value) : VNone ∉ l -> nones l = [].
Proof.
  unfold nones. induction l as [|x l IH]; [done|]. intros H.
  apply not_elem_of_cons in H as [Hx Hl]. simpl.
  destruct x; try done; by apply IH.
Qed.

(** Among values no two of which are equal there is at most one [None]. *)
Lemma PyNoDup_nones (l : list Value) : PyNoDup l -> (length (nones l) <= 1)%nat.
Proof.
  induction 1 as [|x l Hx Hl IH]; [simpl; lia|].
  destruct (is_none x) eqn:E.
  - destruct x; try done. unfold nones. simpl. fold (nones l).
    rewrite nones_nil; [simpl; lia|]. intros Hin. apply py_in_none in Hin. congruence.
  - unfold nones in *. simpl. by rewrite E.
Qed.

Lemma nones_one (l : list Value) :
  PyNoDup l -> VNone ∈ l -> length (nones l) = 1%nat.
Proof.
  intros Hnd Hin. pose proof (PyNoDup_nones l Hnd) as Hle.
  destruct (nones l) as [|x rest] eqn:E; [|simpl in *; lia].
  assert (Hn : VNone ∈ nones l).
  { unfold nones. apply list_elem_of_In, filter_In. split; [by apply list_elem_of_In|done]. }
  rewrite E in Hn. by apply elem_of_nil in Hn.
Qed.

Section UniqueNull.
Context `{RT : PyRuntime}.

(** X25.  With [unique] and a [null_percentage] between 0 and 100 together,
    the [None] values set by the first step are equal to one another and
    the set keeps one of them: the column [apply_constraints] returns
    holds at most one [None], and exactly one as soon as the percentage
    selects a position, however many it selects. *)
Theorem unique_leaves_one_null (fuel : nat)
    (self_generate : Z -> gmap string Value -> M (list Value))
    (data : list Value) (constraints : gmap string Value) (p : Value) (q : Q) (w : World) :
  constraints !! "null_percentage" = Some p ->
  num_of p = Some q ->
  (0 <= q <= 100)%Q ->
  py_truthy (arg constraints "unique" (VBool false)) = true ->
  exists out w',
    apply_constraints (S fuel) self_generate data constraints w = (Ok out, w') /\
    PyNoDup out /\
    (length (nones out) <= 1)%nat /\
    (1 <= Qfloor (inject_Z (Z.of_nat (length data)) * q / 100) ->
     length (nones out) = 1%nat).
Proof.
  intros Hp Hq Hrange Huniq.
  destruct (percent_count_floor (length data) q Hrange) as [Hfloor Hk].
  assert (Hnull : exists d1 w1,
            apply_null_percentage data constraints w = (Ok d1, w1) /\
            (1 <= percent_count (length data) q -> VNone ∈ d1)).
  { unfold apply_null_percentage. rewrite Hp. unfold bind at 1, as_num. rewrite Hq.
    unfold ret at 1. destruct (Qltb 0 q) eqn:Hpos.
    - destruct (sample_returns (length data) (percent_count (length data) q) w Hk)
        as (idxs & w1 & E & Hlen & Hnd & Hall).
      exists (set_nulls idxs data), w1. unfold bind. rewrite E. split; [done|].
      intros H1. destruct idxs as [|i idxs]; [simpl in Hlen; lia|].
      apply (list_elem_of_lookup_2 _ i).
      rewrite set_nulls_lookup by done. rewrite decide_True; [done|by left].
    - exists data, w. split; [done|]. intros H1. exfalso.
      apply BoundsFacts.Qltb_false in Hpos.
      assert (Hz : (q == 0)%Q) by (apply Qle_antisym; [done|apply Hrange]).
      rewrite Hfloor in H1.
      rewrite (Qfloor_comp _ 0) in H1; [done|].
      rewrite Hz. unfold Qdiv. by rewrite Qmult_0_r, Qmult_0_l. }
  destruct Hnull as (d1 & w1 & Hnull & Hnone).
  pose proof (set_order_perm (hash_salt w1) (py_dedup d1)) as Hperm.
  assert (Hnd : PyNoDup (set_order (hash_salt w1) (py_dedup d1))).
  { eapply PyNoDup_Permutation; [symmetry; exact Hperm|apply py_dedup_distinct]. }
  exists (set_order (hash_salt w1) (py_dedup d1)), w1. split.
  { unfold apply_constraints.
    destruct (decide (constraints = ∅)) as [->|_]; [by rewrite lookup_empty in Hp|].
    unfold bind. rewrite Hnull. unfold apply_unique. rewrite Huniq.
    unfold bind, list_of_set. by rewrite regeneration_never_runs. }
  split; [done|]. split; [by apply PyNoDup_nones|].
  intros H1. apply nones_one; [done|].
  apply py_in_none. rewrite (py_in_Permutation _ _ _ Hperm), <- py_dedup_cover.
  apply py_in_none, Hnone. by rewrite Hfloor.
Qed.

End UniqueNull.

(** Ten different numbers, 40 percent of them to be [None], [unique]. *)
Lemma unique_leaves_one_null_witness :
  exists out w',
    apply_constraints (RT := DemoRuntime.runtime) 1 (fun _ _ => ret [])
      (map VInt [1; 2; 3; 4; 5; 6; 7; 8; 9; 10]%Z)
      {[ "null_percentage" := VInt 40; "unique" := VBool true ]}
      (DemoRuntime.world [] (mkDateTime 738000 0 0) 0) = (Ok out, w') /\
    PyNoDup out /\
    (length (nones out) <= 1)%nat /\
    (1 <= Qfloor (inject_Z (Z.of_nat (length (map VInt [1; 2; 3; 4; 5; 6; 7; 8; 9; 10]%Z)))
                  * 40 / 100) ->
     length (nones out) = 1%nat).
Proof.
  apply (unique_leaves_one_null (RT := DemoRuntime.runtime) 0 (fun _ _ => ret []) _ _
           (VInt 40) 40).
  - reflexivity.
  - reflexivity.
  - split; by vm_compute.
  - reflexivity.
Defined.

End UniqueNullFacts.

(* ===================================================================== *)
(** * Quoting in the SQL export *)
(* ===================================================================== *)

Module ExportFacts.
Import DataExporter.
Local Open Scope string_scope.

(** Reading a string literal of SQL after its opening quote: two quotes
    stand for one, a single quote ends the literal.  The result is the
    string denoted and what follows the literal. *)
Fixpoint read_quoted (s : string) : option (string * string) :=
  match s with
  | EmptyString => None
  | String a s' =>
      if Ascii.eqb a "'" then
        match s' with
        | String b s'' =>
            if Ascii.eqb b "'" then
              match read_quoted s'' with
              | Some (v, rest) => Some (String "'" v, rest)
              | None => None
              end
            else Some (EmptyString, s')
        | EmptyString => Some (EmptyString, EmptyString)
        end
      else
        match read_quoted s' with
        | Some (v, rest) => Some (String a v, rest)
        | None => None
        end
  end.

Definition read_literal (s : string) : option (string * string) :=
  match s with
  | String a s' => if Ascii.eqb a "'" then read_quoted s' else None
  | EmptyString => None
  end.

Lemma append_chain (s t u : string) : (s ++ t) ++ u = s ++ t ++ u.
Proof.
  induction s as [|a s IH]; [done|].
  change (String a s ++ t) with (String a (s ++ t)).
  change (String a (s ++ t) ++ u) with (String a ((s ++ t) ++ u)). by rewrite IH.
Qed.

(** [replace("'", "''")] doubles each quote. *)
Lemma prefix_quote (a : ascii) (s : string) :
  String.prefix "'" (String a s) = Ascii.eqb a "'".
Proof.
  change (String.prefix "'" (String a s))
    with (if ascii_dec "'" a then String.prefix "" s else false).
  destruct (ascii_dec "'" a) as [<-|Hne].
  - by destruct s.
  - symmetry. apply Ascii.eqb_neq. congruence.
Qed.

Lemma escape_cons (a : ascii) (s : string) :
  str_replace "'" "''" (String a s)
  = if Ascii.eqb a "'" then String "'" (String "'" (str_replace "'" "''" s))
    else String a (str_replace "'" "''" s).
Proof.
  unfold str_replace.
  change (replace_from "'" "''" 0 (String a s))
    with (if String.prefix "'" (String a s)
          then "''" ++ replace_from "'" "''" (String.length "'" - 1) s
          else String a (replace_from "'" "''" 0 s)).
  rewrite prefix_quote. by destruct (Ascii.eqb a "'").
Qed.

Lemma read_escaped (s rest : string) :
  (forall r, rest <> String "'" r) ->
  read_quoted (str_replace "'" "''" s ++ String "'" rest) = Some (s, rest).
Proof.
  intros Hrest. induction s as [|a s IH].
  - unfold str_replace. simpl. destruct rest as [|b rest]; [done|].
    destruct (Ascii.eqb_spec b "'") as [->|_]; [by destruct (Hrest rest)|done].
  - rewrite escape_cons. destruct (Ascii.eqb_spec a "'") as [->|Hne].
    + change (String "'" (String "'" ?x) ++ ?y) with (String "'" (String "'" (x ++ y))).
      simpl. by rewrite IH.
    + change (String a ?x ++ ?y) with (String a (x ++ y)). simpl.
      destruct (Ascii.eqb_spec a "'") as [E|_]; [done|]. by rewrite IH.
Qed.

Section Literals.
Context `{RT : PyRuntime}.

(** X26.  [export_to_sql] writes a string value between quotes with every
    quote doubled.  Read back as SQL reads it, the literal is that
    string, whatever quotes it holds, and nothing of what follows the
    literal is taken for part of it. *)
Theorem sql_string_round_trip (table_name col s rest : string) :
  (forall r, rest <> String "'" r) ->
  export_to_sql [[(col, VStr s)]] table_name
  = "INSERT INTO `" ++ table_name ++ "` (`" ++ col ++ "`) VALUES ("
    ++ sql_value (Some (VStr s)) ++ ");" /\
  read_literal (sql_value (Some (VStr s)) ++ rest) = Some (s, rest).
Proof.
  intros Hrest. split.
  - unfold export_to_sql. cbn [map fst join]. unfold dict_get.
    rewrite String.eqb_refl. do 2 f_equal.
    exact (f_equal (fun x => String "`" (String " " (String "(" (String "`" x))))
             (append_chain col "`" (") VALUES (" ++ sql_value (Some (VStr s)) ++ ");"))).
  - unfold sql_value.
    change ("'" ++ ?x) with (String "'" x).
    change (String "'" ?x ++ rest) with (String "'" (x ++ rest)).
    unfold read_literal. rewrite Ascii.eqb_refl.
    rewrite append_chain. by apply read_escaped.
Qed.

End Literals.

Lemma sql_string_round_trip_witness :
  export_to_sql (RT := DemoRuntime.runtime) [[("name", VStr "O'Hara")]] "people"
  = "INSERT INTO `people` (`name`) VALUES ('O''Hara');" /\
  read_literal (sql_value (RT := DemoRuntime.runtime) (Some (VStr "O'Hara")) ++ ", 7);")
  = Some ("O'Hara", ", 7);").
Proof.
  apply (sql_string_round_trip (RT := DemoRuntime.runtime) "people" "name" "O'Hara" ", 7);").
  discriminate.
Defined.

End ExportFacts.

(* ===================================================================== *)
(** * The subtypes the form offers *)
(* ===================================================================== *)

Module FormFacts.
Import SyntheticDataApp BaseGenerator.
Local Open Scope string_scope.

Section Form.
Context `{RT : PyRuntime}.

(** Is [subtype] a key of the table of the generator of [family]? *)
Definition known (fuel : nat) (family : Session.Family) (subtype : string) : bool :=
  match family with
  | Session.Numeric =>
      match dispatch NumericGenerator.numeric_types subtype with Some _ => true | None => false end
  | Session.Text =>
      match dispatch TextGenerator.text_types subtype with Some _ => true | None => false end
  | Session.Date =>
      match dispatch (DateGenerator.date_types fuel) subtype with
      | Some _ => true | None => false
      end
  end.

(** X27.  Every subtype the form offers for a field type that [generate_data]
    hands to a generator is a key of that generator's table, so that
    [generate] does not raise for it.  The subtype taken for a field that
    names none, [custom], is known to the text generator only. *)
Theorem offered_subtypes_are_known (fuel : nat) (field_type subtype : string)
    (family : Session.Family) :
  generator_for field_type = Some family ->
  (In subtype (fst (fst (fst (update_field_subtype_options field_type)))) ->
   known fuel family subtype = true) /\
  known fuel family "custom"
  = match family with Session.Text => true | _ => false end.
Proof.
  unfold generator_for, update_field_subtype_options.
  destruct (String.eqb_spec field_type "text") as [->|_].
  { intros [= <-]. split; [|done]. simpl.
    intros H. repeat (destruct H as [<-|H]; [done|]). done. }
  destruct (String.eqb_spec field_type "integer") as [->|_].
  { intros [= <-]. split; [|done]. simpl.
    intros H. repeat (destruct H as [<-|H]; [done|]). done. }
  destruct (String.eqb_spec field_type "float") as [->|_].
  { intros [= <-]. split; [|done]. simpl.
    intros H. repeat (destruct H as [<-|H]; [done|]). done. }
  destruct (String.eqb_spec field_type "date") as [->|_]; [|done].
  intros [= <-]. split; [|done]. simpl.
  intros H. repeat (destruct H as [<-|H]; [done|]). done.
Qed.

End Form.

Lemma offered_subtypes_are_known_witness :
  (In "salary" (fst (fst (fst (update_field_subtype_options "float")))) ->
   known (RT := DemoRuntime.runtime) 3 Session.Numeric "salary" = true) /\
  known (RT := DemoRuntime.runtime) 3 Session.Numeric "custom" = false.
Proof.
  apply (offered_subtypes_are_known (RT := DemoRuntime.runtime) 3 "float" "salary"
           Session.Numeric eq_refl).
Defined.

End FormFacts.

(* ===================================================================== *)
(** * Field types the anonymizer does not know *)
(* ===================================================================== *)

Module UnknownTypeFacts.
Import DataAnonymizer.
Local Open Scope string_scope.

(** The field types [anonymize_data] has a treatment for. *)
Definition treated : list string :=
  ["email"; "name"; "phone"; "address"; "date"; "datetime"; "integer"; "float"].

Section Unknown.
Context `{RT : PyRuntime}.

(** X28.  [generate_data] hands [anonymize_data] the type of a schema field
    (text, integer, float, date, boolean, categorical), not its subtype.
    For a type without a treatment, such as text, boolean and
    categorical, level medium returns the column as it is, and level
    high, unless the type is city, zip_code or age, replaces every value
    other than [None] by the string Generalized.  Nothing is drawn. *)
Theorem untreated_types_pass_or_vanish (data : list Value) (field_type : string) (w : World) :
  str_in field_type treated = false ->
  anonymize_data data field_type "medium" w = (Ok data, w) /\
  (str_in field_type ["city"; "zip_code"; "age"] = false ->
   anonymize_data data field_type "high" w
   = (Ok (map (fun v => if is_none v then VNone else VStr "Generalized") data), w)).
Proof.
  intros H.
  assert (H1 : str_in field_type ["email"; "name"; "phone"; "address"] = false
               /\ str_in field_type ["date"; "datetime"] = false
               /\ str_in field_type ["integer"; "float"] = false).
  { unfold treated, str_in in *. cbn [existsb] in *.
    repeat (apply orb_false_iff in H as [? H]).
    repeat match goal with E : String.eqb field_type _ = false |- _ => rewrite E; clear E end.
    done. }
  destruct H1 as (Hpii & Hdate & Hnum).
  unfold anonymize_data.
  change (String.eqb "medium" "low") with false.
  change (String.eqb "medium" "medium") with true.
  change (String.eqb "high" "low") with false.
  change (String.eqb "high" "medium") with false.
  change (String.eqb "high" "high") with true. cbv iota.
  unfold _medium_anonymization, _high_anonymization.
  rewrite Hpii, Hdate, Hnum. split; [done|]. intros H'.
  unfold str_in in H'. cbn [existsb] in H'.
  repeat (apply orb_false_iff in H' as [? H']).
  unfold _generalize_data, ret. do 2 f_equal.
  apply map_ext. intros v. unfold generalize_item.
  repeat match goal with E : String.eqb field_type _ = false |- _ => rewrite E; clear E end.
  done.
Qed.

End Unknown.

Lemma untreated_types_pass_or_vanish_witness :
  let w := DemoRuntime.world [] (mkDateTime 738000 0 0) 0 in
  anonymize_data (RT := DemoRuntime.runtime) [VStr "ada@example.com"; VNone] "text" "medium" w
  = (Ok [VStr "ada@example.com"; VNone], w) /\
  anonymize_data (RT := DemoRuntime.runtime) [VStr "ada@example.com"; VNone] "text" "high" w
  = (Ok [VStr "Generalized"; VNone], w).
Proof.
  destruct (untreated_types_pass_or_vanish (RT := DemoRuntime.runtime)
              [VStr "ada@example.com"; VNone] "text"
              (DemoRuntime.world [] (mkDateTime 738000 0 0) 0) eq_refl) as [Hm Hh].
  split; [exact Hm|]. exact (Hh eq_refl).
Defined.

End UnknownTypeFacts.
